(** * The quiz model of quiz_app: answer normalisation, question parsing,
    loading, session navigation and scoring.

    The development follows [src/quiz_app.py] (the latest revision).  The
    scoring of the earlier revisions ([src/demo/quiz_app.py],
    [src/demo/quiz_appv2.py], [src/quiz_app_v1.2.py], which share it word for
    word) is embedded next to it as [demo_submit_quiz], their loading of a
    file as [demo_open_json] and [first_demo_open_json].

    Texts are Python [str] values restricted to the 7-bit range, carried as
    [string]; there [str.upper], [str.strip] and the regular expression
    class [\s] are the ASCII ones written out below.  Bytes above 127 are
    left alone by [upper_char] and are never white space.  The content of a
    file is the text of its bytes, 7-bit but for a byte-order mark at its
    start; on such a content the decoding of a file opened in text mode
    cannot fail, and it comes down to dropping the mark and reading every
    line end as a newline. *)

From Stdlib Require Import ZArith Ascii String SpecFloat.
From stdpp Require Import gmap strings list pretty.

Set Warnings "-register-all".
Local Open Scope Z_scope.

(** ** Characters and texts *)

(** [str.isspace] on one character: TAB, LF, VT, FF, CR, FS, GS, RS, US and
    the blank. *)
Definition is_space (c : ascii) : bool :=
  match c with
  | "009" | "010" | "011" | "012" | "013"
  | "028" | "029" | "030" | "031" | " " => true
  | _ => false
  end%char.

(** [ch.upper()] on one character. *)
Definition upper_char (c : ascii) : ascii :=
  let n := nat_of_ascii c in
  if ((97 <=? n) && (n <=? 122))%nat then ascii_of_nat (n - 32) else c.

(** [s.upper()] *)
Fixpoint upper (s : string) : string :=
  match s with
  | EmptyString => EmptyString
  | String c r => String (upper_char c) (upper r)
  end.

(** [s.lstrip()] *)
Fixpoint lstrip (s : string) : string :=
  match s with
  | EmptyString => EmptyString
  | String c r => if is_space c then lstrip r else s
  end.

(** [s.rstrip()] *)
Fixpoint rstrip (s : string) : string :=
  match s with
  | EmptyString => EmptyString
  | String c r =>
      match rstrip r with
      | EmptyString => if is_space c then EmptyString else String c EmptyString
      | r' => String c r'
      end
  end.

(** [s.strip()] *)
Definition strip (s : string) : string := rstrip (lstrip s).

(** [s.startswith(p)] *)
Fixpoint startswith (s p : string) {struct p} : bool :=
  match p, s with
  | EmptyString, _ => true
  | String _ _, EmptyString => false
  | String a p', String b s' => bool_decide (a = b) && startswith s' p'
  end.

(** The characters of a text, in order. *)
Fixpoint chars (s : string) : list ascii :=
  match s with
  | EmptyString => []
  | String c r => c :: chars r
  end.

(** ** JSON values, as [json.loads] hands them over *)

Inductive json : Type :=
| JNull
| JBool (b : bool)
| JInt (n : Z)
| JFloat (as_repr : string)
| JStr (s : string)
| JList (items : list json)
| JDict (fields : list (string * json)).

(** [d.get(k)] on a dict kept in insertion order. *)
Fixpoint dict_get (k : string) (d : list (string * json)) : option json :=
  match d with
  | [] => None
  | (k', v) :: d' => if bool_decide (k' = k) then Some v else dict_get k d'
  end.

(** ** Answer normaliser *)

Definition LETTER_CHOICES : list string := ["A"; "B"; "C"; "D"].

(** [ch.upper()] as the one-character text Python returns. *)
Definition upper1 (ch : ascii) : string := String (upper_char ch) EmptyString.

(** [ch.upper() in LETTER_CHOICES] *)
Definition is_choice (ch : ascii) : bool :=
  bool_decide (upper1 ch ∈ LETTER_CHOICES).

(** The loop [for ch in s: if ch.upper() in LETTER_CHOICES: return ch.upper()]
    with its fall-through [return ""]. *)
Fixpoint scan_letter (s : string) : string :=
  match s with
  | EmptyString => ""
  | String ch r => if is_choice ch then upper1 ch else scan_letter r
  end.

Definition extract_correct_letter (answer_field : json) : string :=
  match answer_field with
  | JStr a => scan_letter (strip a)
  | _ => ""
  end.

(** [isinstance(v, str)] *)
Definition is_text (v : json) : bool :=
  match v with JStr _ => true | _ => false end.

(** ** [str()] of a JSON value *)

Definition hex_digit (n : nat) : ascii :=
  ascii_of_nat (if (n <? 10)%nat then 48 + n else 87 + n).

(** One character inside [repr] of a text quoted with [quote]. *)
Definition repr_char (quote c : ascii) : string :=
  let n := nat_of_ascii c in
  if bool_decide (c = "\"%char) then "\\"
  else if bool_decide (c = quote) then String "\" (String c "")
  else if bool_decide (c = "009"%char) then "\t"
  else if bool_decide (c = "010"%char) then "\n"
  else if bool_decide (c = "013"%char) then "\r"
  else if ((n <? 32) || (n =? 127))%nat then
    String "\" (String "x" (String (hex_digit (n / 16)) (String (hex_digit (n mod 16)) "")))
  else String c "".

Fixpoint repr_body (quote : ascii) (s : string) : string :=
  match s with
  | EmptyString => ""
  | String c r => repr_char quote c +:+ repr_body quote r
  end.

(** [repr(s)]: single quotes, unless the text has a single quote and no
    double quote. *)
Definition repr_text (s : string) : string :=
  let quote :=
    if bool_decide ("'"%char ∈ chars s) && negb (bool_decide ("034"%char ∈ chars s))
    then "034"%char else "'"%char in
  String quote (repr_body quote s +:+ String quote "").

(** [repr(v)].  A float is carried by its [repr]. *)
Fixpoint py_repr (v : json) : string :=
  match v with
  | JNull => "None"
  | JBool true => "True"
  | JBool false => "False"
  | JInt n => pretty n
  | JFloat r => r
  | JStr s => repr_text s
  | JList items => "[" +:+ String.concat ", " (map py_repr items) +:+ "]"
  | JDict fields =>
      "{" +:+ String.concat ", "
                (map (λ kv, match kv with
                            | (k, x) => repr_text k +:+ ": " +:+ py_repr x
                            end) fields) +:+ "}"
  end.

(** [str(v)] *)
Definition py_str (v : json) : string :=
  match v with
  | JStr s => s
  | _ => py_repr v
  end.

(** Truth value of a text: [bool(s)]. *)
Definition truthy (s : string) : bool :=
  match s with EmptyString => false | _ => true end.

(** [x or y] on texts. *)
Definition or_else (x y : string) : string := if truthy x then x else y.

(** ** Question records: [_parse_questions_list] *)

(** The dict [{"question", "answer_letter", "options", "explanation"}] the
    parser appends; [options] is [None] or the list of display texts. *)
Record question_record : Type := mk_question {
  question : string;
  answer_letter : string;
  options : option (list string);
  explanation : json
}.

(** One round of the inner loop over [enumerate(item["options"][:4])]. *)
Definition label_option (letter : string) (opt : json) : string :=
  let t := strip (py_str opt) in
  if startswith (upper t) (letter +:+ ")") then t
  else letter +:+ ") " +:+ t.

(** [display_options] of one item; the inner loop pairs the first four
    options with [LETTER_CHOICES[i]]. *)
Definition display_options (item : list (string * json)) : option (list string) :=
  match dict_get "options" item with
  | Some (JList opts) =>
      if bool_decide (4 ≤ length opts)%nat
      then Some (zip_with label_option LETTER_CHOICES (take 4 opts))
      else None
  | _ => None
  end.

(** The record one round of [for item in items] appends, or nothing where
    the round ends in [continue]. *)
Definition build_record (item : json) : option question_record :=
  match item with
  | JDict d =>
      match dict_get "question" d, dict_get "answer" d with
      | Some q, Some ans =>
          Some {| question := strip (py_str q);
                  answer_letter := extract_correct_letter ans;
                  options := display_options d;
                  explanation := default (JStr "") (dict_get "explanation" d) |}
      | _, _ => None
      end
  | _ => None
  end.

(** One round of the loop on [parsed]. *)
Definition parse_step (parsed : list question_record) (item : json)
  : list question_record :=
  match build_record item with
  | Some record => parsed ++ [record]
  | None => parsed
  end.

Definition _parse_questions_list (items : list json) : list question_record :=
  fold_left parse_step items [].

(** ** Application state *)

(** The data and mode attributes of [QuizApp] and the radio buttons'
    variable; the other widgets only display them. *)
Record QuizApp : Type := mk_app {
  questions : list question_record;
  user_answers : gmap Z string;
  current_index : Z;
  metadata : list (string * json);
  learning_mode : bool;
  slides_mode : bool;
  choice_var : string
}.

Definition with_metadata (md : list (string * json)) (self : QuizApp) : QuizApp :=
  mk_app (questions self) (user_answers self) (current_index self) md
         (learning_mode self) (slides_mode self) (choice_var self).

Definition with_current_index (i : Z) (self : QuizApp) : QuizApp :=
  mk_app (questions self) (user_answers self) i (metadata self)
         (learning_mode self) (slides_mode self) (choice_var self).

Definition with_choice_var (c : string) (self : QuizApp) : QuizApp :=
  mk_app (questions self) (user_answers self) (current_index self) (metadata self)
         (learning_mode self) (slides_mode self) c.

Definition with_user_answers (ua : gmap Z string) (self : QuizApp) : QuizApp :=
  mk_app (questions self) ua (current_index self) (metadata self)
         (learning_mode self) (slides_mode self) (choice_var self).

(** [len(self.questions)] *)
Definition total (self : QuizApp) : Z := Z.of_nat (length (questions self)).

(** [QuizApp.__init__] *)
Definition init : QuizApp := mk_app [] ∅ 0 [] false false "".

(** [load_question(idx)]: out of range it returns at once. *)
Definition load_question (idx : Z) (self : QuizApp) : QuizApp :=
  if bool_decide (0 ≤ idx < total self) then
    with_choice_var (default "" (user_answers self !! idx))
                    (with_current_index idx self)
  else self.

(** ** Loading: [_load_from_data] *)

(** How a call ends: it returns, or raises [ValueError]. *)
Inductive outcome : Type :=
| Returned
| ValueError (msg : string).

(** [cfg.get(section, {})] is a dict whose [key] holds a bool. *)
Definition config_flag (cfg : list (string * json)) (section key : string)
  : option bool :=
  match default (JDict []) (dict_get section cfg) with
  | JDict d => match dict_get key d with Some (JBool b) => Some b | _ => None end
  | _ => None
  end.

(** From [if not parsed] to the end of [_load_from_data]. *)
Definition commit (parsed : list question_record) (set_learning set_slides : option bool)
  (self : QuizApp) : QuizApp * outcome :=
  match parsed with
  | [] => (self, ValueError "No valid questions found. Each question needs 'question', 'answer', and 4 'options'.")
  | _ =>
      (load_question 0
         (mk_app parsed ∅ 0 (metadata self)
                 (default (learning_mode self) set_learning)
                 (default (slides_mode self) set_slides)
                 (choice_var self)),
       Returned)
  end.

(** [_load_from_data(data)]; the file path only feeds the window title. *)
Definition _load_from_data (data : json) (self : QuizApp) : QuizApp * outcome :=
  let self := with_metadata [] self in
  match data with
  | JList items => commit (_parse_questions_list items) None None self
  | JDict d =>
      match dict_get "questions" d with
      | Some (JList qs) =>
          let parsed := _parse_questions_list qs in
          let self :=
            match default (JDict []) (dict_get "metadata" d) with
            | JDict md => with_metadata md self
            | _ => self
            end in
          let flags :=
            match default (JDict []) (dict_get "config" d) with
            | JDict cfg => (config_flag cfg "learning_mode" "instant_feedback",
                            config_flag cfg "slides_mode" "enabled")
            | _ => (None, None)
            end in
          commit parsed flags.1 flags.2 self
      | _ => (self, ValueError "JSON root is an object but no valid 'questions' array was found.")
      end
  | _ => (self, ValueError "Unsupported JSON structure. Expect a list or an object with a 'questions' array.")
  end.

(** ** Session: answers, navigation, progress *)

(** [record_choice]: the command of the four radio buttons. *)
Definition record_choice (self : QuizApp) : QuizApp :=
  with_user_answers (<[current_index self := choice_var self]> (user_answers self)) self.

(** A radio button (or a caller clearing the variable) sets [choice_var] to
    [letter], then the command runs. *)
Definition choose (letter : string) (self : QuizApp) : QuizApp :=
  record_choice (with_choice_var letter self).

Definition next_question (self : QuizApp) : QuizApp :=
  if bool_decide (current_index self < total self - 1) then
    let self := with_current_index (current_index self + 1) self in
    load_question (current_index self) self
  else self.

Definition prev_question (self : QuizApp) : QuizApp :=
  if bool_decide (current_index self > 0) then
    let self := with_current_index (current_index self - 1) self in
    load_question (current_index self) self
  else self.

(** [i not in self.user_answers or not self.user_answers[i]] *)
Definition unanswered (ua : gmap Z string) (i : Z) : bool :=
  match ua !! i with
  | None => true
  | Some a => negb (truthy a)
  end.

(** The loop of [jump_unanswered] over [range(len(self.questions))]: the
    index it stops at, if any. *)
Fixpoint first_unanswered_in (ua : gmap Z string) (range : list Z) : option Z :=
  match range with
  | [] => None
  | i :: rest => if unanswered ua i then Some i else first_unanswered_in ua rest
  end.

Definition first_unanswered (self : QuizApp) : option Z :=
  first_unanswered_in (user_answers self) (seqZ 0 (total self)).

(** [jump_unanswered]: the state after it, and whether the "All answered"
    box was shown. *)
Definition jump_unanswered (self : QuizApp) : QuizApp * bool :=
  match first_unanswered self with
  | Some i => (load_question i (with_current_index i self), false)
  | None => (self, true)
  end.

(** [sum(1 for x in l if p(x))] *)
Fixpoint count_if {A} (p : A → bool) (l : list A) : Z :=
  match l with
  | [] => 0
  | x :: r => (if p x then 1 else 0) + count_if p r
  end.

(** [self.user_answers.get(i)] is a non-empty text. *)
Definition answered (ua : gmap Z string) (i : Z) : bool :=
  match ua !! i with
  | Some a => truthy a
  | None => false
  end.

(** The three numbers [progress_text] prints. *)
Definition progress (self : QuizApp) : Z * Z * Z :=
  let total := total self in
  let answered := count_if (answered (user_answers self)) (seqZ 0 total) in
  let qn := if bool_decide (total > 0) then current_index self + 1 else 0 in
  (answered, total, qn).

Definition progress_text (self : QuizApp) : string :=
  match progress self with
  | (answered, total, qn) =>
      "Answered " +:+ pretty answered +:+ "/" +:+ pretty total +:+
      " | Q " +:+ pretty qn +:+ "/" +:+ pretty total
  end.

(** ** Floats, as far as the score line needs them *)

(** IEEE double precision over [spec_float]. *)
Definition float_of_Z (n : Z) : spec_float := binary_normalize 53 1024 n 0 false.
Definition float_mul : spec_float → spec_float → spec_float := SFmul 53 1024.
Definition float_div : spec_float → spec_float → spec_float := SFdiv 53 1024.

(** Ten times a non-negative float, rounded to the nearest integer, ties to
    even: the digits of ["%.1f"]. *)
Definition tenths (x : spec_float) : option Z :=
  match x with
  | S754_zero _ => Some 0
  | S754_finite false m e =>
      let num := Z.pos m * 10 in
      if 0 <=? e then Some (num * 2 ^ e)
      else
        let den := 2 ^ (- e) in
        let q := num / den in
        Some (match 2 * (num mod den) ?= den with
              | Lt => q
              | Gt => q + 1
              | Eq => if Z.even q then q else q + 1
              end)
  | _ => None
  end.

(** [f"{x:.1f}"] for a finite [x ≥ 0]. *)
Definition format_1f (x : spec_float) : string :=
  match tenths x with
  | Some t => pretty (t / 10) +:+ "." +:+ pretty (t mod 10)
  | None => "nan"
  end.

(** ** Scoring: [submit_quiz] *)

(** [enumerate(l)] counted from [i]. *)
Fixpoint enumerate_from {A} (i : Z) (l : list A) : list (Z * A) :=
  match l with
  | [] => []
  | x :: r => (i, x) :: enumerate_from (i + 1) r
  end.

Definition NL : string := String "010" "".
Definition CHECK : string := "✔".
Definition CROSS : string := "✘".

(** [ok] for question [i] of [src/quiz_app.py]. *)
Definition is_ok (ua : gmap Z string) (i : Z) (q : question_record) : bool :=
  let user := default "(blank)" (ua !! i) in
  bool_decide (user = answer_letter q).

(** The line [item] for question [i]. *)
Definition result_item (ua : gmap Z string) (i : Z) (q : question_record) : string :=
  let user := default "(blank)" (ua !! i) in
  let letter := answer_letter q in
  "Q" +:+ pretty (i + 1) +:+ ": " +:+ (if is_ok ua i q then CHECK else CROSS) +:+
  "  Your: " +:+ or_else user "(blank)" +:+ "   Correct: " +:+ letter.

(** The body of the scoring loop on [(correct, lines)]. *)
Definition score_step (ua : gmap Z string) (acc : Z * list string)
  (iq : Z * question_record) : Z * list string :=
  match acc, iq with
  | (correct, lines), (i, q) =>
      (if is_ok ua i q then correct + 1 else correct, lines ++ [result_item ua i q])
  end.

(** [correct] and [lines] when the loop of [submit_quiz] ends. *)
Definition score_loop (self : QuizApp) : Z * list string :=
  fold_left (score_step (user_answers self))
            (enumerate_from 0 (questions self))
            (0, ["Results:" +:+ NL]).

(** [f"\nScore: {correct}/{total}  ({(100.0*correct/total):.1f}%)\n"] *)
Definition score_line (correct total : Z) : string :=
  NL +:+ "Score: " +:+ pretty correct +:+ "/" +:+ pretty total +:+ "  (" +:+
  format_1f (float_div (float_mul (float_of_Z 100) (float_of_Z correct))
                       (float_of_Z total)) +:+ "%)" +:+ NL.

(** [submit_quiz] of [src/quiz_app.py]: the summary it shows and offers to
    save, or nothing when no quiz is loaded. *)
Definition submit_quiz (self : QuizApp) : option string :=
  match questions self with
  | [] => None
  | _ =>
      match score_loop self with
      | (correct, lines) =>
          Some (String.concat NL (lines ++ [score_line correct (total self)]))
      end
  end.

(** *** The earlier revisions *)

Definition TICK : string := "✓".
Definition BALLOT : string := "✗".

(** [f"{s:<w}"] *)
Definition ljust (w : nat) (s : string) : string :=
  s +:+ String.concat "" (replicate (w - String.length s) " ").

(** [is_correct = (user_letter == correct_letter) if correct_letter else False] *)
Definition demo_is_correct (ua : gmap Z string) (i : Z) (q : question_record) : bool :=
  let user_letter := default "" (ua !! i) in
  let correct_letter := answer_letter q in
  if truthy correct_letter then bool_decide (user_letter = correct_letter) else false.

(** One entry of [detailed_rows]. *)
Definition demo_row (ua : gmap Z string) (i : Z) (q : question_record)
  : Z * string * string * string :=
  (i + 1, or_else (default "" (ua !! i)) "-", or_else (answer_letter q) "?",
   if demo_is_correct ua i q then TICK else BALLOT).

Definition demo_score_step (ua : gmap Z string)
  (acc : Z * list (Z * string * string * string)) (iq : Z * question_record)
  : Z * list (Z * string * string * string) :=
  match acc, iq with
  | (correct, rows), (i, q) =>
      (correct + (if demo_is_correct ua i q then 1 else 0), rows ++ [demo_row ua i q])
  end.

(** [f"{row[0]:<2} {row[1]:<5} {row[2]:<7} {row[3]}"] *)
Definition demo_row_text (row : Z * string * string * string) : string :=
  match row with
  | (n, user, letter, mark) =>
      ljust 2 (pretty n) +:+ " " +:+ ljust 5 user +:+ " " +:+ ljust 7 letter +:+
      " " +:+ mark
  end.

(** [f"Score: {correct}/{total}  ({pct:.1f}%)"] with
    [pct = (correct / total * 100.0) if total else 0.0]. *)
Definition demo_score_line (correct total : Z) : string :=
  let pct :=
    if bool_decide (total = 0) then float_of_Z 0
    else float_mul (float_div (float_of_Z correct) (float_of_Z total)) (float_of_Z 100) in
  "Score: " +:+ pretty correct +:+ "/" +:+ pretty total +:+ "  (" +:+
  format_1f pct +:+ "%)".

(** [submit_quiz] of the earlier revisions; [go] is the reply to "Submit
    anyway?", asked when a question is unanswered. *)
Definition demo_submit_quiz (go : bool) (self : QuizApp) : option string :=
  match questions self with
  | [] => None
  | _ =>
      if bool_decide (first_unanswered self ≠ None) && negb go then None
      else
        match fold_left (demo_score_step (user_answers self))
                        (enumerate_from 0 (questions self)) (0, []) with
        | (correct, rows) =>
            Some (String.concat NL
                    ([demo_score_line correct (total self); "";
                      "#  Your  Correct  " +:+ TICK +:+ "/" +:+ BALLOT]
                     ++ map demo_row_text rows))
        end
  end.

(** ** The strict reader: [json.loads]

    The reader follows the JSON grammar on 7-bit texts.  Numbers with a
    fraction or an exponent, the literals [NaN] and [Infinity], and escapes
    of characters above 127 lie outside it and are refused like a malformed
    text ([None] stands for [JSONDecodeError]). *)

Definition is_json_space (c : ascii) : bool :=
  match c with
  | " " | "009" | "010" | "013" => true
  | _ => false
  end%char.

Fixpoint skip_ws (s : string) : string :=
  match s with
  | String c r => if is_json_space c then skip_ws r else s
  | EmptyString => s
  end.

Definition is_digit (c : ascii) : bool :=
  let n := nat_of_ascii c in ((48 <=? n) && (n <=? 57))%nat.

(** The digits [s] starts with, read as a number on top of [acc], and the
    rest. *)
Fixpoint read_digits (acc : Z) (s : string) : Z * string :=
  match s with
  | String c r =>
      if is_digit c then read_digits (10 * acc + Z.of_nat (nat_of_ascii c - 48)) r
      else (acc, s)
  | EmptyString => (acc, s)
  end.

(** A number may not run on into a fraction or an exponent here. *)
Definition ends_integer (s : string) : bool :=
  match s with
  | String c _ =>
      negb (bool_decide (c = "."%char) || bool_decide (c = "e"%char) ||
            bool_decide (c = "E"%char))
  | EmptyString => true
  end.

(** [0] or a digit string without a leading zero. *)
Definition read_natural (s : string) : option (Z * string) :=
  match s with
  | String c r =>
      if bool_decide (c = "0"%char) then
        if ends_integer r then Some (0, r) else None
      else if is_digit c then
        match read_digits 0 s with
        | (n, r') => if ends_integer r' then Some (n, r') else None
        end
      else None
  | EmptyString => None
  end.

Definition hex_value (c : ascii) : option nat :=
  let n := nat_of_ascii c in
  if ((48 <=? n) && (n <=? 57))%nat then Some (n - 48)%nat
  else if ((97 <=? n) && (n <=? 102))%nat then Some (n - 87)%nat
  else if ((65 <=? n) && (n <=? 70))%nat then Some (n - 55)%nat
  else None.

(** The [n] hexadecimal digits at the head of [s], read as a number on top
    of [acc], and the rest: the digits of a [\u] escape, one by one. *)
Fixpoint read_hex (n acc : nat) (s : string) : option (nat * string) :=
  match n with
  | O => Some (acc, s)
  | S n =>
      match s with
      | String h r =>
          match hex_value h with
          | Some a => read_hex n (acc * 16 + a) r
          | None => None
          end
      | EmptyString => None
      end
  end.

(** The character a one-letter escape stands for. *)
Definition simple_escape (e : ascii) : option ascii :=
  match e with
  | "034" => Some "034"
  | "\" => Some "\"
  | "/" => Some "/"
  | "b" => Some "008"
  | "f" => Some "012"
  | "n" => Some "010"
  | "r" => Some "013"
  | "t" => Some "009"
  | _ => None
  end%char.

(** The text of a string literal whose opening quote was read, and what
    follows its closing quote. *)
Fixpoint read_string (s : string) : option (string * string) :=
  match s with
  | EmptyString => None
  | String c r =>
      if bool_decide (c = "034"%char) then Some ("", r)
      else if bool_decide (c = "\"%char) then
        match r with
        | String e r' =>
            if bool_decide (e = "u"%char) then
              match r' with
              | String h1 (String h2 (String h3 (String h4 r''))) =>
                  match hex_value h1, hex_value h2, hex_value h3, hex_value h4 with
                  | Some a, Some b, Some c', Some d =>
                      let code := (((a * 16 + b) * 16 + c') * 16 + d)%nat in
                      if (code <? 128)%nat then
                        match read_string r'' with
                        | Some (t, rest) => Some (String (ascii_of_nat code) t, rest)
                        | None => None
                        end
                      else None
                  | _, _, _, _ => None
                  end
              | _ => None
              end
            else
              match simple_escape e, read_string r' with
              | Some x, Some (t, rest) => Some (String x t, rest)
              | _, _ => None
              end
        | EmptyString => None
        end
      else if (nat_of_ascii c <? 32)%nat then None
      else
        match read_string r with
        | Some (t, rest) => Some (String c t, rest)
        | None => None
        end
  end.

(** [d[k] = v] on a dict kept in insertion order. *)
Fixpoint dict_set (k : string) (v : json) (d : list (string * json))
  : list (string * json) :=
  match d with
  | [] => [(k, v)]
  | (k', v') :: d' =>
      if bool_decide (k' = k) then (k, v) :: d' else (k', v') :: dict_set k v d'
  end.

(** A value at the head of [s], and the rest; [read_items] and
    [read_members] continue a list and an object at the head of their next
    entry. *)
Fixpoint read_value (fuel : nat) (s : string) : option (json * string) :=
  match fuel with
  | O => None
  | S fuel =>
      match s with
      | String c r =>
          if bool_decide (c = "034"%char) then
            match read_string r with
            | Some (t, rest) => Some (JStr t, rest)
            | None => None
            end
          else if bool_decide (c = "["%char) then
            match skip_ws r with
            | String "]" rest => Some (JList [], rest)
            | r' => read_items fuel [] r'
            end
          else if bool_decide (c = "{"%char) then
            match skip_ws r with
            | String "}" rest => Some (JDict [], rest)
            | r' => read_members fuel [] r'
            end
          else if bool_decide (c = "-"%char) then
            match read_natural r with
            | Some (n, rest) => Some (JInt (- n), rest)
            | None => None
            end
          else if startswith s "true" then Some (JBool true, String.substring 4 (String.length s - 4) s)
          else if startswith s "false" then Some (JBool false, String.substring 5 (String.length s - 5) s)
          else if startswith s "null" then Some (JNull, String.substring 4 (String.length s - 4) s)
          else
            match read_natural s with
            | Some (n, rest) => Some (JInt n, rest)
            | None => None
            end
      | EmptyString => None
      end
  end
with read_items (fuel : nat) (acc : list json) (s : string) : option (json * string) :=
  match fuel with
  | O => None
  | S fuel =>
      match read_value fuel s with
      | Some (v, r) =>
          match skip_ws r with
          | String "," r' => read_items fuel (acc ++ [v]) (skip_ws r')
          | String "]" rest => Some (JList (acc ++ [v]), rest)
          | _ => None
          end
      | None => None
      end
  end
with read_members (fuel : nat) (acc : list (string * json)) (s : string)
  : option (json * string) :=
  match fuel with
  | O => None
  | S fuel =>
      match s with
      | String "034" r =>
          match read_string r with
          | Some (k, r1) =>
              match skip_ws r1 with
              | String ":" r2 =>
                  match read_value fuel (skip_ws r2) with
                  | Some (v, r3) =>
                      match skip_ws r3 with
                      | String "," r4 => read_members fuel (dict_set k v acc) (skip_ws r4)
                      | String "}" rest => Some (JDict (dict_set k v acc), rest)
                      | _ => None
                      end
                  | None => None
                  end
              | _ => None
              end
          | None => None
          end
      | _ => None
      end
  end.

(** [json.loads(text)] *)
Definition json_loads (text : string) : option json :=
  match read_value (2 * String.length text + 2) (skip_ws text) with
  | Some (v, rest) =>
      match skip_ws rest with
      | EmptyString => Some v
      | _ => None
      end
  | None => None
  end.

(** ** The loose reader: [_read_json_loose] *)

(** The byte-order mark the [utf-8-sig] codec drops. *)
Definition BOM : string := String "239" (String "187" (String "191" "")).

Definition is_newline (c : ascii) : bool := bool_decide (c = "010"%char).

(** The line ends of a file read in text mode with the default [newline]:
    a carriage return followed by a newline, and a carriage return alone,
    are read as one newline.  [after_cr]: the character before was a
    carriage return, which a newline here belongs to. *)
Fixpoint universal_newlines (after_cr : bool) (s : string) : string :=
  match s with
  | EmptyString => ""
  | String c r =>
      if bool_decide (c = "013"%char) then String "010" (universal_newlines true r)
      else if after_cr && is_newline c then universal_newlines false r
      else String c (universal_newlines false r)
  end.

(** What one character is read as: a carriage return as a newline. *)
Definition as_newline (c : ascii) : ascii :=
  if bool_decide (c = "013"%char) then "010"%char else c.

(** [open(file_path, "r", encoding="utf-8").read()] on the file's content. *)
Definition decode_utf8 (content : string) : string :=
  universal_newlines false content.

(** [Path(path).read_text(encoding="utf-8-sig")] on the file's content: the
    codec drops a byte-order mark at the start, the text layer translates
    the line ends. *)
Definition decode_utf8_sig (content : string) : string :=
  universal_newlines false
    (if startswith content BOM
     then String.substring 3 (String.length content - 3) content
     else content).

(** [json.load(f)] on a file opened with [open(file_path, "r",
    encoding="utf-8")], as the earlier revisions read a quiz. *)
Definition json_load (content : string) : option json :=
  json_loads (decode_utf8 content).

(** The class [[\s\[{,]]. *)
Definition opens_comment (c : ascii) : bool :=
  is_space c || bool_decide (c = "["%char) || bool_decide (c = "{"%char) ||
  bool_decide (c = ","%char).

(** [re.sub(r'(^|[\s\[{,])//.*?$', r'\1', text, flags=re.MULTILINE)], read
    from left to right.  [skipping]: the scan is inside a match, whose
    [.*?$] runs up to the next newline or the end; [bol]: the position is
    the start of a line, where [^] matches.  Outside a match the first
    alternative is tried before the second, and a position where neither
    matches keeps its character. *)
Fixpoint strip_line_comments (skipping bol : bool) (s : string) : string :=
  match s with
  | EmptyString => ""
  | String c r =>
      if skipping && negb (is_newline c) then strip_line_comments true false r
      else if bol && startswith s "//" then strip_line_comments true false r
      else if opens_comment c && startswith r "//" then
        String c (strip_line_comments true false r)
      else String c (strip_line_comments false (is_newline c) r)
  end.

(** [p] occurs somewhere in [s]. *)
Fixpoint contains (s p : string) : bool :=
  startswith s p ||
  match s with
  | EmptyString => false
  | String _ r => contains r p
  end.

(** [s[1:]] *)
Definition tail (s : string) : string :=
  match s with
  | String _ r => r
  | EmptyString => ""
  end.

(** [/\*.*?\*/] matches at the head of [s]: a slash and a star, and a star
    and a slash somewhere after them. *)
Definition block_comment_here (s : string) : bool :=
  startswith s "/*" && contains (tail (tail s)) "*/".

(** Where the scan of a block comment stands: copying, on the star of an
    opener, inside the comment, on the slash of a closer. *)
Inductive block_mode : Type := Copying | Opener | Inside | Closer.

(** [re.sub(r'/\*.*?\*/', '', text, flags=re.DOTALL)]: a match ends with
    the first star and slash after its opener. *)
Fixpoint strip_block_comments (mode : block_mode) (s : string) : string :=
  match s with
  | EmptyString => ""
  | String c r =>
      match mode with
      | Copying =>
          if block_comment_here s then strip_block_comments Opener r
          else String c (strip_block_comments Copying r)
      | Opener => strip_block_comments Inside r
      | Inside =>
          if startswith s "*/" then strip_block_comments Closer r
          else strip_block_comments Inside r
      | Closer => strip_block_comments Copying r
      end
  end.

(** [s] starts with a closing bracket or brace. *)
Definition closes (s : string) : bool := startswith s "]" || startswith s "}".

(** [,\s*([\]}])] matches at the head of [s]. *)
Definition trailing_comma_here (s : string) : bool :=
  startswith s "," && closes (lstrip (tail s)).

(** [re.sub(r',\s*([\]}])', r'\1', text)]; [gap]: the scan is inside a
    match, on the white space after its comma. *)
Fixpoint strip_trailing_commas (gap : bool) (s : string) : string :=
  match s with
  | EmptyString => ""
  | String c r =>
      if gap && is_space c then strip_trailing_commas true r
      else if trailing_comma_here s then strip_trailing_commas true r
      else String c (strip_trailing_commas false r)
  end.

(** The text handed to [json.loads]: the decoded content after the three
    substitutions. *)
Definition preprocess (content : string) : string :=
  strip_trailing_commas false
    (strip_block_comments Copying
       (strip_line_comments false true (decode_utf8_sig content))).

Definition _read_json_loose (content : string) : option json :=
  json_loads (preprocess content).

(** *** Where the three patterns match *)

(** Every position of a text: the character before it, if any, and the
    text from it on. *)
Fixpoint positions (prev : option ascii) (s : string) : list (option ascii * string) :=
  (prev, s) ::
  match s with
  | EmptyString => []
  | String c r => positions (Some c) r
  end.

(** A [//] at the start of the text or after white space, a bracket, a
    brace or a comma. *)
Definition line_comment_at (p : option ascii * string) : bool :=
  startswith p.2 "//" &&
  match p.1 with
  | None => true
  | Some c => opens_comment c
  end.

(** The text holds no place where one of the three patterns matches. *)
Definition pattern_free (text : string) : bool :=
  negb (existsb line_comment_at (positions None text)) &&
  negb (existsb (λ p, block_comment_here p.2) (positions None text)) &&
  negb (existsb (λ p, trailing_comma_here p.2) (positions None text)).

(** The double quote and the carriage return, for building sample texts. *)
Definition DQ : string := String "034" "".
Definition CR : string := String "013" "".

(** ** Documents and sample inputs *)

(** [isinstance(v, dict)] *)
Definition is_mapping (v : json) : bool :=
  match v with JDict _ => true | _ => false end.

(** The entries [_load_from_data] hands to the parser: the root list, or the
    list under ["questions"] of a root object. *)
Definition entries (data : json) : option (list json) :=
  match data with
  | JList items => Some items
  | JDict d =>
      match dict_get "questions" d with
      | Some (JList items) => Some items
      | _ => None
      end
  | _ => None
  end.

(** An entry with the texts [q] and [a] under ["question"] and ["answer"]. *)
Definition entry (q a : string) : json :=
  JDict [("question", JStr q); ("answer", JStr a)].

(** The same with an ["options"] list of texts. *)
Definition entry_with_options (q a : string) (opts : list string) : json :=
  JDict [("question", JStr q); ("answer", JStr a); ("options", JList (map JStr opts))].

(** A loaded two-question quiz with a title in its metadata. *)
Definition two_questions : json :=
  JDict [("metadata", JDict [("title", JStr "Old")]);
         ("questions", JList [entry "Q1" "B. x";
                              entry_with_options "Q2" "C" ["a"; "b"; "c"; "d"]])].

Definition loaded : QuizApp := (_load_from_data two_questions init).1.

(** A document whose one text holds a [//] and a [/*], neither where a
    pattern matches. *)
Definition url_document : string :=
  "{" +:+ DQ +:+ "url" +:+ DQ +:+ ": " +:+ DQ +:+ "http://x/*y" +:+ DQ +:+ "}".

(** Documents whose one text holds a block comment, a [//] after a blank,
    and a comma before a bracket. *)
Definition block_in_text : string := "[" +:+ DQ +:+ "a/*b*/c" +:+ DQ +:+ "]".
Definition slashes_in_text : string := "[" +:+ DQ +:+ "see // x" +:+ DQ +:+ "]".
Definition comma_in_text : string := "[" +:+ DQ +:+ "a,]" +:+ DQ +:+ "]".

(** A list whose line ends are carriage return and newline, and one with a
    [//] comment that a lone carriage return ends. *)
Definition crlf_document : string := "[1," +:+ CR +:+ NL +:+ "2]".
Definition cr_comment_document : string := "[1,// one" +:+ CR +:+ "2]".


(** A one-question quiz whose answer field names no letter. *)
Definition no_letter_quiz : json := JList [entry "Q1" "yes"].

(** That quiz loaded, with the empty text recorded for its question. *)
Definition cleared : QuizApp := choose "" (_load_from_data no_letter_quiz init).1.

(** ** Python values: truth and indexing *)

(** [bool(v)] *)
Definition py_truthy (v : json) : bool :=
  match v with
  | JNull => false
  | JBool b => b
  | JInt n => negb (n =? 0)
  | JFloat r => negb (bool_decide (r = "0.0") || bool_decide (r = "-0.0"))
  | JStr s => truthy s
  | JList [] => false
  | JList _ => true
  | JDict [] => false
  | JDict _ => true
  end.

(** [l[i]]: an index below zero counts from the end; [None] stands for
    [IndexError]. *)
Definition py_index {A} (l : list A) (i : Z) : option A :=
  let n := Z.of_nat (length l) in
  if bool_decide (0 ≤ i < n) then l !! Z.to_nat i
  else if bool_decide (- n ≤ i < 0) then l !! Z.to_nat (n + i)
  else None.

(** [LETTER_CHOICES.index(letter)]; [None] stands for [ValueError]. *)
Fixpoint index_of (letter : string) (l : list string) : option nat :=
  match l with
  | [] => None
  | x :: r => if bool_decide (x = letter) then Some 0%nat
              else S <$> index_of letter r
  end.

(** ** What the widgets show *)

(** [f"{ch})"] for each letter: the texts of the radio buttons when a
    question has no options. *)
Definition placeholders : list string := map (λ ch, ch +:+ ")") LETTER_CHOICES.

(** The texts [load_question] puts on the four radio buttons. *)
Definition option_texts (q : question_record) : list string :=
  match options q with
  | Some opts =>
      if bool_decide (4 ≤ length opts)%nat then take 4 opts else placeholders
  | None => placeholders
  end.

(** [update_navigation_state]: whether the "Previous" and the "Next" button
    are enabled. *)
Definition update_navigation_state (self : QuizApp) : bool * bool :=
  match questions self with
  | [] => (false, false)
  | _ => (bool_decide (current_index self > 0),
          bool_decide (current_index self < total self - 1))
  end.

(** [update_answer_visibility] of [src/quiz_app.py]: the answer line and the
    explanation it sets; [None] stands for the [IndexError] of
    [self.questions[self.current_index]]. *)
Definition update_answer_visibility (self : QuizApp) : option (string * json) :=
  match questions self with
  | [] => Some ("", JStr "")
  | _ =>
      match py_index (questions self) (current_index self) with
      | None => None
      | Some q =>
          if slides_mode self then
            let letter := or_else (answer_letter q) "" in
            let opt_text :=
              match options q with
              | Some opts =>
                  if bool_decide (4 ≤ length opts)%nat &&
                     bool_decide (letter ∈ LETTER_CHOICES)
                  then index_of letter LETTER_CHOICES ≫= λ idx, opts !! idx
                  else None
              | None => None
              end in
            let display :=
              match opt_text with
              | Some (String c r) => "Answer: " +:+ String c r
              | _ => "Answer: " +:+ letter +:+ ")"
              end in
            let expl := explanation q in
            Some (display, if py_truthy expl then expl else JStr "")
          else Some ("", JStr "")
      end
  end.

(** [update_answer_visibility] of [src/quiz_app_v1.2.py]: the answer line. *)
Definition demo_update_answer_visibility (self : QuizApp) : option string :=
  match questions self with
  | [] => Some ""
  | _ =>
      if negb (slides_mode self) then Some ""
      else
        match py_index (questions self) (current_index self) with
        | None => None
        | Some q =>
            let letter := answer_letter q in
            if truthy letter then
              let opt_text :=
                match options q with
                | Some opts =>
                    if bool_decide (4 ≤ length opts)%nat
                    then index_of letter LETTER_CHOICES ≫= λ idx, opts !! idx
                    else None
                | None => None
                end in
              match opt_text with
              | Some (String c r) => Some ("Answer: " +:+ String c r)
              | _ => Some ("Answer: " +:+ letter +:+ ")")
              end
            else Some "Answer: (unknown)"
        end
  end.

(** The text colour of a radio button: the default one, or a named one. *)
Definition colour : Type := option string.

(** [update_option_colors] of [src/quiz_app.py] on the colours [fg] of the
    four radio buttons; [None] stands for [IndexError]. *)
Definition update_option_colors (self : QuizApp) (fg : list colour)
  : option (list colour) :=
  match questions self with
  | [] => Some fg
  | _ =>
      match py_index (questions self) (current_index self) with
      | None => None
      | Some q =>
          let correct := answer_letter q in
          let reset : list colour := map (λ _, None) LETTER_CHOICES in
          if negb (learning_mode self) then Some reset
          else
            let chosen := choice_var self in
            if negb (truthy chosen) || negb (bool_decide (chosen ∈ LETTER_CHOICES))
            then Some reset
            else
              Some (map (λ letter,
                           if bool_decide (letter = chosen) then
                             if bool_decide (chosen = correct)
                             then Some "green4" else Some "red3"
                           else None) LETTER_CHOICES)
      end
  end.

(** [update_option_colors] of [src/quiz_app_v1.2.py]. *)
Definition demo_update_option_colors (self : QuizApp) : option (list colour) :=
  let reset : list colour := map (λ _, None) LETTER_CHOICES in
  if negb (learning_mode self) || negb (bool_decide (questions self ≠ [])) then Some reset
  else
    let selected := choice_var self in
    if negb (truthy selected) then Some reset
    else
      match py_index (questions self) (current_index self) with
      | None => None
      | Some q =>
          let correct_letter := answer_letter q in
          if negb (truthy correct_letter) then Some reset
          else
            match index_of selected LETTER_CHOICES with
            | None => Some reset
            | Some sel_idx =>
                if bool_decide (selected = correct_letter)
                then Some (<[sel_idx := Some "green"]> reset)
                else
                  let fg := <[sel_idx := Some "red"]> reset in
                  match index_of correct_letter LETTER_CHOICES with
                  | Some cor_idx => Some (<[cor_idx := Some "green"]> fg)
                  | None => Some fg
                  end
            end
      end.

(** ** Opening a file and the events of the window *)

(** [open_json] of [src/quiz_app.py] on the content of the chosen file: the
    state after it, and whether the error box was shown. *)
Definition open_json (content : string) (self : QuizApp) : QuizApp * bool :=
  match _read_json_loose content with
  | None => (self, true)
  | Some data =>
      match _load_from_data data self with
      | (self', Returned) => (self', false)
      | (self', ValueError _) => (self', true)
      end
  end.

Definition with_learning_mode (b : bool) (self : QuizApp) : QuizApp :=
  mk_app (questions self) (user_answers self) (current_index self) (metadata self)
         b (slides_mode self) (choice_var self).

Definition with_slides_mode (b : bool) (self : QuizApp) : QuizApp :=
  mk_app (questions self) (user_answers self) (current_index self) (metadata self)
         (learning_mode self) b (choice_var self).

(** [toggle_slides_mode] *)
Definition toggle_slides_mode (self : QuizApp) : QuizApp :=
  with_slides_mode (negb (slides_mode self)) self.

(** What the user can do in the window: open a file, click radio button
    [i], use a navigation button, the learning-mode check box or the
    slides-mode button, submit. *)
Inductive event : Type :=
| Open (content : string)
| Click (i : nat)
| Next
| Previous
| Jump
| ToggleLearning
| ToggleSlides
| Submit.

(** The callback of each widget.  Radio button [i] sets [choice_var] to
    [LETTER_CHOICES[i]] and runs [record_choice]; the check box flips
    [learning_mode] and runs [on_toggle_learning_mode], which only repaints. *)
Definition handle (e : event) (self : QuizApp) : QuizApp :=
  match e with
  | Open content => (open_json content self).1
  | Click i =>
      match LETTER_CHOICES !! i with
      | Some letter => choose letter self
      | None => self
      end
  | Next => next_question self
  | Previous => prev_question self
  | Jump => (jump_unanswered self).1
  | ToggleLearning => with_learning_mode (negb (learning_mode self)) self
  | ToggleSlides => toggle_slides_mode self
  | Submit => self
  end.

(** The state after a run of events on a fresh window. *)
Definition run (events : list event) : QuizApp :=
  fold_left (λ self e, handle e self) events init.

(** *** Opening a file in the earlier revisions *)

(** [k in item] for a text [k]: a key of a dict, a part of a text, an
    element of a list; [None] stands for the [TypeError] on other values. *)
Definition py_in (k : string) (item : json) : option bool :=
  match item with
  | JDict d => Some (bool_decide (is_Some (dict_get k d)))
  | JStr s => Some (contains s k)
  | JList l =>
      Some (existsb (λ x, match x with
                          | JStr s => bool_decide (s = k)
                          | _ => false
                          end) l)
  | _ => None
  end.

(** How one round of the loop in [open_json] ends. *)
Inductive demo_round : Type :=
| Skipped
| Appended (record : question_record)
| TypeError.

(** One round of [for item in data].  The records of these revisions have
    no explanation; the field carries the empty text, which none of their
    functions reads. *)
Definition demo_parse_item (item : json) : demo_round :=
  match py_in "question" item with
  | None => TypeError
  | Some false => Skipped
  | Some true =>
      match py_in "answer" item with
      | None => TypeError
      | Some false => Skipped
      | Some true =>
          match item with
          | JDict d =>
              match dict_get "question" d, dict_get "answer" d with
              | Some q, Some ans =>
                  Appended {| question := strip (py_str q);
                              answer_letter := extract_correct_letter ans;
                              options := display_options d;
                              explanation := JStr "" |}
              | _, _ => TypeError
              end
          | _ => TypeError
          end
      end
  end.

(** The loop on [parsed]; [None] when a round raises. *)
Fixpoint demo_parse (parsed : list question_record) (items : list json)
  : option (list question_record) :=
  match items with
  | [] => Some parsed
  | item :: rest =>
      match demo_parse_item item with
      | Skipped => demo_parse parsed rest
      | Appended record => demo_parse (parsed ++ [record]) rest
      | TypeError => None
      end
  end.

(** [load_question] of the earlier revisions (the same in the three
    files): it leaves [current_index] to its callers. *)
Definition demo_load_question (index : Z) (self : QuizApp) : QuizApp :=
  if bool_decide (0 ≤ index < total self) then
    with_choice_var (default "" (user_answers self !! index)) self
  else self.

(** [open_json] of [src/demo/quiz_appv2.py] and [src/quiz_app_v1.2.py] on
    the content of the chosen file: the state after it, and whether the
    error box was shown.  Whatever raises inside the [try] block (the
    reader, the test of the root, a round of the loop, the empty result)
    does so before the first assignment to the state. *)
Definition demo_open_json (content : string) (self : QuizApp) : QuizApp * bool :=
  match json_load content with
  | Some (JList items) =>
      match demo_parse [] items with
      | Some (q :: parsed) =>
          (demo_load_question 0
             (mk_app (q :: parsed) ∅ 0 (metadata self) (learning_mode self)
                     (slides_mode self) (choice_var self)),
           false)
      | _ => (self, true)
      end
  | _ => (self, true)
  end.

(** [open_json] of [src/demo/quiz_app.py].  Its [try] block is that of the
    other two up to the call [self.update_navigation_state()], which stands
    after the assignments to the state and after [load_question(0)]; the
    file defines no such method, so the call raises [AttributeError] and
    the handler shows the error box over the quiz that is already in
    place.  (The constructor of that file makes the same call; the function
    is embedded as it is written.) *)
Definition first_demo_open_json (content : string) (self : QuizApp) : QuizApp * bool :=
  match json_load content with
  | Some (JList items) =>
      match demo_parse [] items with
      | Some (q :: parsed) =>
          (demo_load_question 0
             (mk_app (q :: parsed) ∅ 0 (metadata self) (learning_mode self)
                     (slides_mode self) (choice_var self)),
           true)
      | _ => (self, true)
      end
  | _ => (self, true)
  end.

(** ** Shapes of texts and records *)

(** All characters of [s] are white space. *)
Definition all_space (s : string) : bool := forallb is_space (chars s).

(** No character of [s] is a newline. *)
Definition one_line (s : string) : bool := forallb (λ c, negb (is_newline c)) (chars s).

(** [s] is empty or ends with a character of the class [[\s\[{,]]. *)
Fixpoint ends_open (s : string) : bool :=
  match s with
  | EmptyString => true
  | String c EmptyString => opens_comment c
  | String _ r => ends_open r
  end.

(** A record as the earlier revisions build it. *)
Definition without_explanation (r : question_record) : question_record :=
  mk_question (question r) (answer_letter r) (options r) (JStr "").

(** [None], a bool or a number. *)
Definition is_scalar (v : json) : bool :=
  match v with
  | JNull | JBool _ | JInt _ | JFloat _ => true
  | _ => false
  end.

(** The pattern of the first, second, third pass matches somewhere in [s]. *)
Definition line_comment_in (s : string) : bool :=
  existsb line_comment_at (positions None s).
Definition block_comment_in (s : string) : bool :=
  existsb (λ p, block_comment_here p.2) (positions None s).
Definition trailing_comma_in (s : string) : bool :=
  existsb (λ p, trailing_comma_here p.2) (positions None s).

(** [s] is empty or starts with a newline. *)
Definition starts_line (s : string) : bool :=
  match s with
  | EmptyString => true
  | String c _ => is_newline c
  end.

(** The letter is none or one of the four. *)
Definition letter_ok (letter : string) : Prop :=
  letter = "" ∨ letter ∈ LETTER_CHOICES.

(** The options are none, or four texts, each starting with the letter of
    its place, in either case, and a closing parenthesis. *)
Definition options_ok (opts : option (list string)) : Prop :=
  match opts with
  | None => True
  | Some shown =>
      length shown = 4%nat ∧
      ∀ i letter o, LETTER_CHOICES !! i = Some letter → shown !! i = Some o →
                    startswith (upper o) (letter +:+ ")") = true
  end.

(** What holds of every record the parser builds. *)
Definition record_ok (r : question_record) : Prop :=
  strip (question r) = question r ∧ letter_ok (answer_letter r) ∧
  options_ok (options r).

(** What holds of every state the window reaches. *)
Definition state_ok (self : QuizApp) : Prop :=
  (0 ≤ current_index self < Z.max 1 (total self)) ∧
  choice_var self = default "" (user_answers self !! current_index self) ∧
  (∀ i a, user_answers self !! i = Some a →
          0 ≤ i < Z.max 1 (total self) ∧ a ∈ LETTER_CHOICES) ∧
  Forall record_ok (questions self).

(** * Properties *)

(** ** Characters and texts *)

(** A fact about one character, settled on each of the 256. *)
Ltac by_cases_on_char c :=
  destruct c as [[] [] [] [] [] [] [] []]; vm_compute; try split; congruence.

Lemma space_not_choice c : is_space c = true → is_choice c = false.
Proof. by_cases_on_char c. Qed.

Lemma scan_letter_lstrip s : scan_letter (lstrip s) = scan_letter s.
Proof.
  induction s as [|c r IH]; [done|]. simpl.
  destruct (is_space c) eqn:Hc; [|done].
  by rewrite (space_not_choice c Hc).
Qed.

Lemma scan_letter_rstrip s : scan_letter (rstrip s) = scan_letter s.
Proof.
  induction s as [|c r IH]; [done|]. simpl.
  destruct (rstrip r) as [|c' r'] eqn:Hr.
  - simpl in IH. rewrite <- IH.
    destruct (is_space c) eqn:Hc.
    + by rewrite (space_not_choice c Hc).
    + simpl. by destruct (is_choice c).
  - simpl. simpl in IH. by rewrite IH.
Qed.

Lemma scan_letter_strip s : scan_letter (strip s) = scan_letter s.
Proof. unfold strip. by rewrite scan_letter_rstrip, scan_letter_lstrip. Qed.

Lemma chars_app s t : chars (s +:+ t) = chars s ++ chars t.
Proof. induction s as [|c r IH]; [done|]. simpl. by rewrite <- IH. Qed.

Lemma scan_letter_none s :
  scan_letter s = "" ↔ ∀ c, c ∈ chars s → is_choice c = false.
Proof.
  induction s as [|c r IH]; simpl.
  - split; [|done]. intros _ c Hc. by apply elem_of_nil in Hc.
  - destruct (is_choice c) eqn:Hc.
    + split; [done|]. intros H. specialize (H c (list_elem_of_here _ _)).
      congruence.
    + rewrite IH. split.
      * intros H x [->|Hx]%elem_of_cons; auto.
      * intros H x Hx. apply H. by apply list_elem_of_further.
Qed.

Lemma scan_letter_first pre c suf :
  (∀ x, x ∈ chars pre → is_choice x = false) →
  is_choice c = true →
  scan_letter (pre +:+ String c suf) = upper1 c.
Proof.
  induction pre as [|p pre IH]; intros Hpre Hc; simpl.
  - by rewrite Hc.
  - rewrite (Hpre p) by apply list_elem_of_here.
    apply IH; [|done]. intros x Hx. apply Hpre. by apply list_elem_of_further.
Qed.

Lemma is_choice_spec c :
  is_choice c = true ↔ c ∈ ["a"; "b"; "c"; "d"; "A"; "B"; "C"; "D"]%char.
Proof.
  rewrite <- (bool_decide_eq_true (c ∈ _)). by_cases_on_char c.
Qed.

(** C3: [extract_correct_letter] gives the empty text on a value that is not
    text; on a text it gives the upper-cased first character, from the left,
    that is one of A, B, C, D in either case, and the empty text exactly when
    the text has no such character.  In particular a text with exactly one
    such character, wherever it stands, yields that letter upper-cased. *)
Theorem C3_extract_correct_letter :
  (∀ c, is_choice c = true ↔ c ∈ ["a"; "b"; "c"; "d"; "A"; "B"; "C"; "D"]%char) ∧
  (∀ v, is_text v = false → extract_correct_letter v = "") ∧
  (∀ pre c suf,
     (∀ x, x ∈ chars pre → is_choice x = false) →
     is_choice c = true →
     extract_correct_letter (JStr (pre +:+ String c suf)) = upper1 c ∧
     upper1 c ∈ LETTER_CHOICES) ∧
  (∀ s, extract_correct_letter (JStr s) = "" ↔
        ∀ x, x ∈ chars s → is_choice x = false) ∧
  (∀ pre c suf,
     is_choice c = true →
     (∀ x, x ∈ chars pre ++ chars suf → is_choice x = false) →
     extract_correct_letter (JStr (pre +:+ String c suf)) = upper1 c).
Proof.
  split; [apply is_choice_spec|]. repeat split.
  - intros v Hv. by destruct v.
  - simpl. rewrite scan_letter_strip. by apply scan_letter_first.
  - match goal with H : is_choice _ = true |- _ =>
      by apply bool_decide_eq_true in H end.
  - simpl. rewrite scan_letter_strip. apply scan_letter_none.
  - simpl. rewrite scan_letter_strip. apply scan_letter_none.
  - intros pre c suf Hc Hrest. simpl. rewrite scan_letter_strip.
    apply scan_letter_first; [|done].
    intros x Hx. apply Hrest, elem_of_app. by left.
Qed.

Example extract_examples :
  extract_correct_letter (JStr "B") = "B" ∧
  extract_correct_letter (JStr "B. x") = "B" ∧
  extract_correct_letter (JStr "  b - something") = "B" ∧
  extract_correct_letter (JStr "Dan said B") = "D" ∧
  extract_correct_letter (JStr "yes") = "" ∧
  extract_correct_letter (JInt 2) = "".
Proof. by vm_compute. Qed.

(** ** Parsing and loading *)

Lemma fold_parse_step items acc :
  fold_left parse_step items acc = acc ++ omap build_record items.
Proof.
  revert acc. induction items as [|item items IH]; intros acc; simpl.
  - by rewrite app_nil_r.
  - rewrite IH. unfold parse_step.
    destruct (build_record item); [|done]. by rewrite <- app_assoc.
Qed.

Lemma parse_questions_list_omap items :
  _parse_questions_list items = omap build_record items.
Proof. unfold _parse_questions_list. by rewrite fold_parse_step. Qed.

Lemma build_record_is_Some item :
  is_Some (build_record item) ↔
  ∃ d, item = JDict d ∧ is_Some (dict_get "question" d) ∧ is_Some (dict_get "answer" d).
Proof.
  split.
  - intros [r Hr]. destruct item as [| | | | | |d]; try discriminate.
    exists d. simpl in Hr.
    destruct (dict_get "question" d), (dict_get "answer" d); try discriminate; eauto.
  - intros (d & -> & [q Hq] & [a Ha]). simpl. rewrite Hq, Ha. eauto.
Qed.

Lemma build_record_not_mapping x : is_mapping x = false → build_record x = None.
Proof. by destruct x. Qed.

Lemma omap_build_nil items :
  omap build_record items = [] ↔ ∀ x, x ∈ items → build_record x = None.
Proof.
  induction items as [|y items IH]; simpl.
  - split; [|done]. intros _ x Hx. by apply elem_of_nil in Hx.
  - destruct (build_record y) eqn:Hy.
    + split; [done|]. intros H. specialize (H y (list_elem_of_here _ _)). congruence.
    + rewrite IH. split.
      * intros H x [->|Hx]%elem_of_cons; auto.
      * intros H x Hx. apply H. by apply list_elem_of_further.
Qed.

Lemma omap_build_skip before x after :
  build_record x = None →
  omap build_record (before ++ x :: after) = omap build_record (before ++ after).
Proof. intros Hx. rewrite !omap_app. simpl. by rewrite Hx. Qed.

Lemma questions_load_question idx self :
  questions (load_question idx self) = questions self.
Proof. unfold load_question. by case_bool_decide. Qed.

Lemma commit_nil l s self :
  commit [] l s self =
  (self, ValueError "No valid questions found. Each question needs 'question', 'answer', and 4 'options'.").
Proof. done. Qed.

Lemma commit_cons parsed l s self :
  parsed ≠ [] →
  (commit parsed l s self).2 = Returned ∧
  questions (commit parsed l s self).1 = parsed ∧
  user_answers (commit parsed l s self).1 = ∅ ∧
  current_index (commit parsed l s self).1 = 0.
Proof.
  intros Hne. destruct parsed as [|q parsed]; [done|]. unfold commit.
  cbn [fst snd]. rewrite questions_load_question. cbn [questions].
  unfold load_question. case_bool_decide; done.
Qed.

(** What [_load_from_data] does with the entries of a document. *)
Lemma load_from_entries data items self :
  entries data = Some items →
  ∃ l s self',
    questions self' = questions self ∧
    user_answers self' = user_answers self ∧
    current_index self' = current_index self ∧
    _load_from_data data self = commit (omap build_record items) l s self'.
Proof.
  intros He. destruct data as [| | | | |its|d]; try discriminate.
  - injection He as ->. exists None, None, (with_metadata [] self).
    simpl. by rewrite parse_questions_list_omap.
  - simpl in He. unfold _load_from_data.
    destruct (dict_get "questions" d) as [[| | | | |its|]|]; try discriminate.
    injection He as ->. rewrite parse_questions_list_omap.
    eexists _, _, _. split_and!; [| | |reflexivity];
      by destruct (default (JDict []) (dict_get "metadata" d)).
Qed.

Lemma load_without_entries data self :
  entries data = None → ∃ msg, (_load_from_data data self).2 = ValueError msg.
Proof.
  intros He. destruct data as [| | | | |its|d]; try discriminate; simpl; eauto.
  simpl in He.
  destruct (dict_get "questions" d) as [[| | | | |its|]|]; try discriminate; eauto.
Qed.

(** C5: a document none of whose entries builds a record fails to load; one
    with at least one valid entry loads, whatever its other entries are, and
    the quiz then holds the records of the valid entries, one each, in the
    order of the entries.  An entry is valid exactly when it is a mapping
    with the keys "question" and "answer". *)
Theorem C5_load_keeps_the_valid_entries (data : json) (self : QuizApp) :
  (∀ item, is_Some (build_record item) ↔
     ∃ d, item = JDict d ∧ is_Some (dict_get "question" d) ∧
          is_Some (dict_get "answer" d)) ∧
  match entries data with
  | None => ∃ msg, (_load_from_data data self).2 = ValueError msg
  | Some items =>
      _parse_questions_list items = omap build_record items ∧
      ((∀ x, x ∈ items → build_record x = None) →
       ∃ msg, (_load_from_data data self).2 = ValueError msg) ∧
      ((∃ x, x ∈ items ∧ is_Some (build_record x)) →
       (_load_from_data data self).2 = Returned ∧
       questions (_load_from_data data self).1 = omap build_record items)
  end.
Proof.
  split; [apply build_record_is_Some|].
  destruct (entries data) as [items|] eqn:He; [|by apply load_without_entries].
  destruct (load_from_entries data items self He) as (l & s & self' & _ & _ & _ & ->).
  split_and!.
  - apply parse_questions_list_omap.
  - intros Hnone. apply omap_build_nil in Hnone. rewrite Hnone. eauto.
  - intros (x & Hx & Hsome).
    assert (omap build_record items ≠ []) as Hne.
    { intros Hnil. rewrite omap_build_nil in Hnil.
      rewrite (Hnil x Hx) in Hsome. by destruct Hsome. }
    by destruct (commit_cons _ l s self' Hne) as (? & ? & _).
Qed.

(** C10: an element of the question list that is not a mapping builds no
    record and leaves the parser's result as if it were not in the list; the
    load still succeeds when some other entry is valid. *)
Theorem C10_non_mapping_entries_are_skipped
  (data : json) (before after : list json) (x : json) (self : QuizApp) :
  is_mapping x = false →
  entries data = Some (before ++ x :: after) →
  build_record x = None ∧
  _parse_questions_list (before ++ x :: after) = _parse_questions_list (before ++ after) ∧
  ((∃ y, y ∈ before ++ after ∧ is_Some (build_record y)) →
   (_load_from_data data self).2 = Returned ∧
   questions (_load_from_data data self).1 = _parse_questions_list (before ++ after)).
Proof.
  intros Hx He. pose proof (build_record_not_mapping x Hx) as Hnone.
  split_and!; [done|..].
  - rewrite !parse_questions_list_omap. by apply omap_build_skip.
  - intros (y & Hy & Hsome).
    destruct (load_from_entries data _ self He) as (l & s & self' & _ & _ & _ & ->).
    rewrite parse_questions_list_omap, (omap_build_skip before x after Hnone).
    assert (omap build_record (before ++ after) ≠ []) as Hne.
    { intros Hnil. rewrite omap_build_nil in Hnil.
      rewrite (Hnil y Hy) in Hsome. by destruct Hsome. }
    by destruct (commit_cons _ l s self' Hne) as (? & ? & _).
Qed.

Lemma C10_non_mapping_entries_are_skipped_witness :
  (_load_from_data (JList [JInt 5; entry "Q1" "B"; JStr "note"]) init).2 = Returned ∧
  questions (_load_from_data (JList [JInt 5; entry "Q1" "B"; JStr "note"]) init).1 =
    _parse_questions_list [JInt 5; entry "Q1" "B"].
Proof.
  refine (proj2 (proj2 (C10_non_mapping_entries_are_skipped
            (JList [JInt 5; entry "Q1" "B"; JStr "note"])
            [JInt 5; entry "Q1" "B"] [] (JStr "note") init _ _)) _).
  - reflexivity.
  - reflexivity.
  - exists (entry "Q1" "B"). split; [|by vm_compute; eauto].
    apply list_elem_of_further, list_elem_of_here.
Defined.

Example load_two_questions :
  _load_from_data (JList [entry "Q1" "B. x";
                          entry_with_options "Q2" "C" ["a"; "b"; "c"; "d"]]) init =
  (mk_app [mk_question "Q1" "B" None (JStr "");
           mk_question "Q2" "C" (Some ["A) a"; "B) b"; "C) c"; "D) d"]) (JStr "")]
          ∅ 0 [] false false "",
   Returned).
Proof. by vm_compute. Qed.

Example load_without_questions :
  (_load_from_data (JDict [("questions", JList [])]) init).2 =
  ValueError "No valid questions found. Each question needs 'question', 'answer', and 4 'options'.".
Proof. by vm_compute. Qed.

(** A failed load leaves the questions, the answers and the position as
    they were. *)
Lemma failed_load_keeps_session data self msg :
  (_load_from_data data self).2 = ValueError msg →
  questions (_load_from_data data self).1 = questions self ∧
  user_answers (_load_from_data data self).1 = user_answers self ∧
  current_index (_load_from_data data self).1 = current_index self.
Proof.
  destruct (entries data) as [items|] eqn:He.
  - destruct (load_from_entries data items self He) as (l & s & self' & Hq & Hu & Hc & ->).
    destruct (omap build_record items) as [|r rs] eqn:Hr; [done|].
    intros Hfail. by destruct (commit_cons (r :: rs) l s self') as (? & _); [|congruence].
  - intros _. destruct data as [| | | | |its|d]; try discriminate; try done.
    simpl in He. unfold _load_from_data.
    destruct (dict_get "questions" d) as [[| | | | |its|]|]; try discriminate; done.
Qed.

(** C2: a load that fails keeps the questions, the answers and the position,
    but not the metadata: [_load_from_data] empties [metadata] before it
    looks at the document, and installs the document's metadata before it
    finds that no entry is valid. *)
Theorem C2_failed_load_loses_metadata :
  metadata loaded = [("title", JStr "Old")] ∧
  (_load_from_data (JInt 5) loaded).2 =
    ValueError "Unsupported JSON structure. Expect a list or an object with a 'questions' array." ∧
  metadata (_load_from_data (JInt 5) loaded).1 = [] ∧
  questions (_load_from_data (JInt 5) loaded).1 = questions loaded ∧
  (_load_from_data (JDict [("metadata", JDict [("title", JStr "New")]);
                           ("questions", JList [])]) loaded).2 =
    ValueError "No valid questions found. Each question needs 'question', 'answer', and 4 'options'." ∧
  metadata (_load_from_data (JDict [("metadata", JDict [("title", JStr "New")]);
                                    ("questions", JList [])]) loaded).1 =
    [("title", JStr "New")].
Proof. by vm_compute. Qed.

(** ** Navigation *)

Lemma total_load_question idx self : total (load_question idx self) = total self.
Proof. unfold total. by rewrite questions_load_question. Qed.

Lemma current_index_load_question idx self :
  0 ≤ idx < total self → current_index (load_question idx self) = idx.
Proof. intros H. unfold load_question. by rewrite bool_decide_eq_true_2. Qed.

Lemma load_question_out_of_range idx self :
  ¬ (0 ≤ idx < total self) → load_question idx self = self.
Proof. intros H. unfold load_question. by rewrite bool_decide_eq_false_2. Qed.

Lemma total_next_question self : total (next_question self) = total self.
Proof.
  unfold next_question. case_bool_decide; [|done]. by rewrite total_load_question.
Qed.

Lemma total_prev_question self : total (prev_question self) = total self.
Proof.
  unfold prev_question. case_bool_decide; [|done]. by rewrite total_load_question.
Qed.

Lemma next_question_inside self :
  0 ≤ current_index self < total self - 1 →
  current_index (next_question self) = current_index self + 1.
Proof.
  intros H. unfold next_question. rewrite bool_decide_eq_true_2 by lia.
  apply current_index_load_question. unfold total in *. simpl. lia.
Qed.

Lemma prev_question_inside self :
  0 < current_index self < total self →
  current_index (prev_question self) = current_index self - 1.
Proof.
  intros H. unfold prev_question. rewrite bool_decide_eq_true_2 by lia.
  apply current_index_load_question. unfold total in *. simpl. lia.
Qed.

Lemma next_question_at_end self :
  total self - 1 ≤ current_index self → next_question self = self.
Proof. intros H. unfold next_question. by rewrite bool_decide_eq_false_2 by lia. Qed.

Lemma prev_question_at_start self :
  current_index self ≤ 0 → prev_question self = self.
Proof. intros H. unfold prev_question. by rewrite bool_decide_eq_false_2 by lia. Qed.

(** C9: with the position inside the quiz, [next_question] and
    [prev_question] leave it inside; each moves it by one away from the
    edge, and at the edge (the last question for [next_question], the first
    for [prev_question]) the whole state stays as it is, so repeating the
    call changes nothing either. *)
Theorem C9_navigation_is_clamped (self : QuizApp) :
  0 ≤ current_index self < total self →
  (0 ≤ current_index (next_question self) < total (next_question self) ∧
   0 ≤ current_index (prev_question self) < total (prev_question self)) ∧
  (total (next_question self) = total self ∧ total (prev_question self) = total self) ∧
  (current_index self < total self - 1 →
   current_index (next_question self) = current_index self + 1) ∧
  (0 < current_index self →
   current_index (prev_question self) = current_index self - 1) ∧
  (current_index self = total self - 1 →
   next_question self = self ∧ next_question (next_question self) = self) ∧
  (current_index self = 0 →
   prev_question self = self ∧ prev_question (prev_question self) = self).
Proof.
  intros Hin. rewrite total_next_question, total_prev_question.
  assert (0 ≤ current_index (next_question self) < total self) as Hnext.
  { destruct (decide (current_index self < total self - 1)).
    - rewrite next_question_inside; lia.
    - rewrite next_question_at_end; lia. }
  assert (0 ≤ current_index (prev_question self) < total self) as Hprev.
  { destruct (decide (0 < current_index self)).
    - rewrite prev_question_inside; lia.
    - rewrite prev_question_at_start; lia. }
  split_and!; try lia.
  - intros. apply next_question_inside. lia.
  - intros. apply prev_question_inside. lia.
  - intros. by rewrite !next_question_at_end by lia.
  - intros. by rewrite !prev_question_at_start by lia.
Qed.

Lemma C9_navigation_is_clamped_witness :
  current_index (next_question loaded) = 1 ∧
  next_question (next_question loaded) = next_question loaded ∧
  prev_question loaded = loaded.
Proof.
  assert (0 ≤ current_index loaded < total loaded) as H0 by (by vm_compute).
  assert (0 ≤ current_index (next_question loaded) < total (next_question loaded))
    as H1 by (by vm_compute).
  split_and!.
  - apply (proj1 (proj2 (proj2 (C9_navigation_is_clamped loaded H0)))). by vm_compute.
  - apply (proj1 (proj2 (proj2 (proj2 (proj2 (C9_navigation_is_clamped _ H1)))))).
    by vm_compute.
  - apply (proj2 (proj2 (proj2 (proj2 (proj2 (C9_navigation_is_clamped loaded H0)))))).
    by vm_compute.
Defined.

(** ** Answers and progress *)

Lemma count_if_ext {A} (p q : A → bool) l :
  (∀ x, x ∈ l → p x = q x) → count_if p l = count_if q l.
Proof.
  induction l as [|y l IH]; intros H; simpl; [done|].
  rewrite (H y) by apply list_elem_of_here.
  rewrite IH; [done|]. intros x Hx. apply H. by apply list_elem_of_further.
Qed.

Lemma unanswered_answered ua i : unanswered ua i = negb (answered ua i).
Proof. unfold unanswered, answered. by destruct (ua !! i). Qed.

Lemma answered_spec ua i :
  answered ua i = true ↔ ∃ a, ua !! i = Some a ∧ a ≠ "".
Proof.
  unfold answered. destruct (ua !! i) as [a|].
  - destruct a; simpl; split; try done.
    + by intros (a & [= <-] & Ha).
    + intros _. eauto.
  - split; [done|]. by intros (a & ? & _).
Qed.

Lemma answered_after_clearing (ua : gmap Z string) (k i : Z) (letter : string) :
  answered (<[k := ""]> (<[k := letter]> ua)) i = answered (delete k ua) i.
Proof.
  unfold answered. destruct (decide (k = i)) as [->|Hne].
  - by rewrite lookup_insert_eq, lookup_delete_eq.
  - by rewrite !lookup_insert_ne, lookup_delete_ne.
Qed.

Lemma first_unanswered_in_seqZ ua (n : nat) (m : Z) :
  match first_unanswered_in ua (seqZ m (Z.of_nat n)) with
  | None => ∀ i, m ≤ i < m + Z.of_nat n → answered ua i = true
  | Some i =>
      m ≤ i < m + Z.of_nat n ∧ answered ua i = false ∧
      ∀ j, m ≤ j < i → answered ua j = true
  end.
Proof.
  revert m. induction n as [|n IH]; intros m.
  - simpl. intros i Hi. lia.
  - rewrite seqZ_cons by lia. simpl.
    replace (Z.pred (Z.of_nat (S n))) with (Z.of_nat n) by lia.
    rewrite unanswered_answered.
    destruct (answered ua m) eqn:Hm; simpl.
    + specialize (IH (Z.succ m)).
      destruct (first_unanswered_in ua (seqZ (Z.succ m) (Z.of_nat n))) as [i|].
      * destruct IH as (Hi & Hai & Hbelow). split_and!; try lia; try done.
        intros j Hj. destruct (decide (j = m)) as [->|]; [done|]. apply Hbelow. lia.
      * intros i Hi. destruct (decide (i = m)) as [->|]; [done|]. apply IH. lia.
    + split_and!; try lia; try done.
Qed.

Lemma first_unanswered_spec self :
  match first_unanswered self with
  | None => ∀ i, 0 ≤ i < total self → answered (user_answers self) i = true
  | Some i =>
      0 ≤ i < total self ∧ answered (user_answers self) i = false ∧
      ∀ j, 0 ≤ j < i → answered (user_answers self) j = true
  end.
Proof.
  unfold first_unanswered, total.
  pose proof (first_unanswered_in_seqZ (user_answers self) (length (questions self)) 0) as H.
  destruct (first_unanswered_in _ _); [|done].
  by rewrite Z.add_0_l in H.
Qed.

(** C8: an empty recorded answer counts as no answer.  After recording "B"
    and then the empty text on the current question, the answer stored there
    is the empty text, and the answered count of [progress_text] is the one
    of the session without any answer for that question.
    [first_unanswered] finds no index exactly when every question has a
    recorded, non-empty answer; otherwise it gives the lowest index without
    one, and [jump_unanswered] moves there. *)
Theorem C8_empty_answer_is_unanswered (self : QuizApp) :
  (user_answers (choose "" (choose "B" self)) !! current_index self = Some "" ∧
   (progress (choose "" (choose "B" self))).1.1 =
     count_if (answered (delete (current_index self) (user_answers self)))
              (seqZ 0 (total self)) ∧
   answered (user_answers (choose "" (choose "B" self))) (current_index self) = false) ∧
  (first_unanswered self = None ↔
   ∀ i, 0 ≤ i < total self → ∃ a, user_answers self !! i = Some a ∧ a ≠ "") ∧
  (∀ i, first_unanswered self = Some i →
     0 ≤ i < total self ∧
     ¬ (∃ a, user_answers self !! i = Some a ∧ a ≠ "") ∧
     (∀ j, 0 ≤ j < i → ∃ a, user_answers self !! j = Some a ∧ a ≠ "") ∧
     current_index (jump_unanswered self).1 = i) ∧
  ((jump_unanswered self).2 = true ↔ first_unanswered self = None).
Proof.
  split_and!.
  - simpl. by rewrite lookup_insert_eq.
  - unfold progress. cbn [fst]. apply count_if_ext. intros i _.
    simpl. apply answered_after_clearing.
  - unfold answered. simpl. by rewrite lookup_insert_eq.
  - pose proof (first_unanswered_spec self) as H.
    destruct (first_unanswered self) as [i|].
    + split; [done|]. intros Hall. destruct H as (Hi & Hno & _).
      apply Hall, answered_spec in Hi. congruence.
    + split; [|done]. intros _ i Hi. by apply answered_spec, H.
  - intros i Hf. pose proof (first_unanswered_spec self) as H.
    unfold jump_unanswered. rewrite Hf in *. destruct H as (Hi & Hno & Hbelow).
    split_and!; try lia.
    + intros Ha%answered_spec. congruence.
    + intros j Hj. by apply answered_spec, Hbelow.
    + cbn [fst]. by apply current_index_load_question.
  - unfold jump_unanswered. by destruct (first_unanswered self).
Qed.

Example progress_after_clearing :
  progress_text (choose "B" loaded) = "Answered 1/2 | Q 1/2" ∧
  progress_text (choose "" (choose "B" loaded)) = "Answered 0/2 | Q 1/2" ∧
  first_unanswered (choose "B" loaded) = Some 1.
Proof. by vm_compute. Qed.

(** ** Scoring *)

Lemma is_ok_spec ua i q :
  is_ok ua i q = true ↔ default "(blank)" (ua !! i) = answer_letter q.
Proof. unfold is_ok. apply bool_decide_eq_true. Qed.

(** With the guard of the earlier revisions a question counts as correct
    exactly when a letter is known and the recorded answer is that letter. *)
Lemma demo_is_correct_spec ua i q :
  demo_is_correct ua i q = true ↔
  ua !! i = Some (answer_letter q) ∧ answer_letter q ≠ "".
Proof.
  unfold demo_is_correct. destruct (answer_letter q) as [|c r] eqn:Hl; simpl.
  - split; [done|]. by intros [_ ?].
  - rewrite bool_decide_eq_true. destruct (ua !! i); simpl; split.
    + by intros ->.
    + by intros [[= ->] _].
    + done.
    + by intros [? _].
Qed.


(** Without the guard, a question without a letter counts as correct
    exactly when the empty text is recorded for it. *)
Lemma is_ok_without_letter ua i q :
  answer_letter q = "" → (is_ok ua i q = true ↔ ua !! i = Some "").
Proof.
  intros H. rewrite is_ok_spec, H. destruct (ua !! i); simpl; split; congruence.
Qed.

(** The two scorings differ on a state in which the empty text is recorded
    for a question without a letter: [src/quiz_app.py] marks it, the earlier
    revisions do not.  No run of the window reaches such a state, as the
    radio buttons record one of the four letters. *)
Lemma scorings_differ_on_recorded_empty_text :
  map answer_letter (questions cleared) = [""] ∧
  user_answers cleared !! 0 = Some "" ∧
  map (λ iq, is_ok (user_answers cleared) iq.1 iq.2)
      (enumerate_from 0 (questions cleared)) = [true] ∧
  submit_quiz cleared =
    Some ("Results:" +:+ NL +:+ NL +:+
          "Q1: ✔  Your: (blank)   Correct: " +:+ NL +:+ NL +:+
          "Score: 1/1  (100.0%)" +:+ NL) ∧
  demo_submit_quiz true cleared =
    Some ("Score: 0/1  (0.0%)" +:+ NL +:+ NL +:+
          "#  Your  Correct  ✓/✗" +:+ NL +:+
          "1  -     ?       ✗").
Proof. by vm_compute. Qed.

Lemma score_loop_from ua qs k correct lines :
  fold_left (score_step ua) (enumerate_from k qs) (correct, lines) =
  (correct + count_if (λ iq, is_ok ua iq.1 iq.2) (enumerate_from k qs),
   lines ++ map (λ iq, result_item ua iq.1 iq.2) (enumerate_from k qs)).
Proof.
  revert k correct lines. induction qs as [|q qs IH]; intros k correct lines; simpl.
  - by rewrite Z.add_0_r, app_nil_r.
  - rewrite IH. f_equal.
    + destruct (is_ok ua k q); lia.
    + by rewrite <- app_assoc.
Qed.

Lemma demo_score_loop_from ua qs k correct rows :
  fold_left (demo_score_step ua) (enumerate_from k qs) (correct, rows) =
  (correct + count_if (λ iq, demo_is_correct ua iq.1 iq.2) (enumerate_from k qs),
   rows ++ map (λ iq, demo_row ua iq.1 iq.2) (enumerate_from k qs)).
Proof.
  revert k correct rows. induction qs as [|q qs IH]; intros k correct rows; simpl.
  - by rewrite Z.add_0_r, app_nil_r.
  - rewrite IH. f_equal; [lia|]. by rewrite <- app_assoc.
Qed.

Lemma enumerate_from_fst {A} (l : list A) k :
  map fst (enumerate_from k l) = seqZ k (Z.of_nat (length l)).
Proof.
  revert k. induction l as [|x l IH]; intros k; [done|].
  rewrite seqZ_cons by (simpl; lia). simpl. rewrite IH. do 2 f_equal. lia.
Qed.

Lemma enumerate_from_snd {A} (l : list A) k : map snd (enumerate_from k l) = l.
Proof. revert k. induction l as [|x l IH]; intros k; simpl; by rewrite ?IH. Qed.

(** The text shown for the user's answer in [src/quiz_app.py]. *)
Lemma result_item_shape ua i q :
  result_item ua i q =
  "Q" +:+ pretty (i + 1) +:+ ": " +:+
  (if bool_decide (default "(blank)" (ua !! i) = answer_letter q) then "✔" else "✘") +:+
  "  Your: " +:+
  match ua !! i with
  | Some (String c r) => String c r
  | _ => "(blank)"
  end +:+
  "   Correct: " +:+ answer_letter q.
Proof. unfold result_item, is_ok. by destruct (ua !! i) as [[|c r]|]. Qed.

(** The row of the earlier revisions. *)
Lemma demo_row_shape ua i q :
  demo_row ua i q =
  (i + 1,
   match ua !! i with Some (String c r) => String c r | _ => "-" end,
   match answer_letter q with String c r => String c r | EmptyString => "?" end,
   if demo_is_correct ua i q then "✓" else "✗").
Proof.
  unfold demo_row. by destruct (ua !! i) as [[|c r]|], (answer_letter q).
Qed.

Lemma submit_quiz_closed_form self :
  questions self ≠ [] →
  submit_quiz self =
    Some (String.concat NL
            (("Results:" +:+ NL) ::
             map (λ iq, result_item (user_answers self) iq.1 iq.2)
                 (enumerate_from 0 (questions self)) ++
             [score_line (count_if (λ iq, is_ok (user_answers self) iq.1 iq.2)
                                   (enumerate_from 0 (questions self)))
                         (total self)])).
Proof.
  intros Hne. unfold submit_quiz, score_loop. rewrite score_loop_from.
  destruct (questions self) eqn:Hq; [done|]. by rewrite Z.add_0_l.
Qed.

Lemma demo_submit_quiz_closed_form self :
  questions self ≠ [] →
  demo_submit_quiz true self =
    Some (String.concat NL
            (demo_score_line
               (count_if (λ iq, demo_is_correct (user_answers self) iq.1 iq.2)
                         (enumerate_from 0 (questions self)))
               (total self)
             :: "" :: "#  Your  Correct  ✓/✗"
             :: map (λ iq, demo_row_text (demo_row (user_answers self) iq.1 iq.2))
                    (enumerate_from 0 (questions self)))).
Proof.
  intros Hne. unfold demo_submit_quiz. rewrite demo_score_loop_from.
  rewrite andb_false_r.
  destruct (questions self) eqn:Hq; [done|].
  rewrite Z.add_0_l. cbn [app]. by rewrite map_map.
Qed.

(** C6: the results text of [src/quiz_app.py] is the line "Results:", an
    empty line, one row per question in quiz order, an empty line and the
    score line; a row shows the 1-based position, the mark, the recorded
    answer or "(blank)", and the correct letter as it is (nothing when there
    is none).  The text of the earlier revisions starts with the score line,
    followed by an empty line, a column header and one row per question in
    quiz order, with "-" and "?" as placeholders. *)
Theorem C6_results_text_layout (self : QuizApp) :
  questions self ≠ [] →
  let ua := user_answers self in
  let numbered := enumerate_from 0 (questions self) in
  (map fst numbered = seqZ 0 (total self) ∧ map snd numbered = questions self) ∧
  submit_quiz self =
    Some (String.concat NL
            (("Results:" +:+ NL) ::
             map (λ iq, result_item ua iq.1 iq.2) numbered ++
             [score_line (count_if (λ iq, is_ok ua iq.1 iq.2) numbered) (total self)])) ∧
  (∀ i q, result_item ua i q =
     "Q" +:+ pretty (i + 1) +:+ ": " +:+
     (if bool_decide (default "(blank)" (ua !! i) = answer_letter q)
      then "✔" else "✘") +:+
     "  Your: " +:+
     match ua !! i with Some (String c r) => String c r | _ => "(blank)" end +:+
     "   Correct: " +:+ answer_letter q) ∧
  (∀ c t, ∃ pct, score_line c t =
     NL +:+ "Score: " +:+ pretty c +:+ "/" +:+ pretty t +:+ "  (" +:+ pct +:+ "%)" +:+ NL) ∧
  demo_submit_quiz true self =
    Some (String.concat NL
            (demo_score_line (count_if (λ iq, demo_is_correct ua iq.1 iq.2) numbered)
                             (total self)
             :: "" :: "#  Your  Correct  ✓/✗"
             :: map (λ iq, demo_row_text (demo_row ua iq.1 iq.2)) numbered)) ∧
  (∀ i q, demo_row ua i q =
     (i + 1,
      match ua !! i with Some (String c r) => String c r | _ => "-" end,
      match answer_letter q with String c r => String c r | EmptyString => "?" end,
      if demo_is_correct ua i q then "✓" else "✗")) ∧
  (∀ c t, ∃ pct, demo_score_line c t =
     "Score: " +:+ pretty c +:+ "/" +:+ pretty t +:+ "  (" +:+ pct +:+ "%)").
Proof.
  intros Hne ua numbered. split_and!.
  - apply enumerate_from_fst.
  - apply enumerate_from_snd.
  - by apply submit_quiz_closed_form.
  - apply result_item_shape.
  - intros c t. eexists. reflexivity.
  - by apply demo_submit_quiz_closed_form.
  - apply demo_row_shape.
  - intros c t. eexists. reflexivity.
Qed.

Lemma C6_results_text_layout_witness :
  submit_quiz (choose "B" loaded) =
    Some (String.concat NL
            ["Results:" +:+ NL;
             "Q1: ✔  Your: B   Correct: B";
             "Q2: ✘  Your: (blank)   Correct: C";
             NL +:+ "Score: 1/2  (50.0%)" +:+ NL]).
Proof.
  pose proof (C6_results_text_layout (choose "B" loaded)) as H.
  simpl in H. etrans; [apply H; by vm_compute|]. by vm_compute.
Defined.

(** C6, the claim as stated: the results text of [src/quiz_app.py] does not
    begin with the score line, and shows neither "-" nor "?". *)
Lemma C6_results_text_begins_with_results :
  submit_quiz (choose "B" loaded) =
    Some ("Results:" +:+ NL +:+ NL +:+
          "Q1: ✔  Your: B   Correct: B" +:+ NL +:+
          "Q2: ✘  Your: (blank)   Correct: C" +:+ NL +:+ NL +:+
          "Score: 1/2  (50.0%)" +:+ NL) ∧
  startswith (default "" (submit_quiz (choose "B" loaded))) "Score: " = false ∧
  submit_quiz (_load_from_data no_letter_quiz init).1 =
    Some ("Results:" +:+ NL +:+ NL +:+
          "Q1: ✘  Your: (blank)   Correct: " +:+ NL +:+ NL +:+
          "Score: 0/1  (0.0%)" +:+ NL).
Proof. by vm_compute. Qed.



(** ** Option labels *)

Lemma rstrip_head c r :
  is_space c = false → ∃ r', rstrip (String c r) = String c r'.
Proof. intros Hc. simpl. destruct (rstrip r); rewrite ?Hc; eauto. Qed.

Lemma rstrip_head2 a b r :
  is_space b = false → ∃ r', rstrip (String a (String b r)) = String a (String b r').
Proof.
  intros Hb. destruct (rstrip_head b r Hb) as [r' Hr'].
  exists r'. change (rstrip (String a (String b r)))
    with (match rstrip (String b r) with
          | EmptyString => if is_space a then EmptyString else String a EmptyString
          | x => String a x
          end).
  by rewrite Hr'.
Qed.

Lemma upper_char_space c : is_space (upper_char c) = false → is_space c = false.
Proof. by_cases_on_char c. Qed.

(** A text whose upper-cased form starts with two characters that are not
    white space keeps them under [strip]. *)
Lemma strip_keeps_prefix o x y :
  is_space x = false → is_space y = false →
  startswith (upper o) (String x (String y "")) = true →
  startswith (upper (strip o)) (String x (String y "")) = true.
Proof.
  intros Hx Hy Hs. destruct o as [|a [|b r]]; simpl in Hs;
    rewrite ?andb_false_r in Hs; try discriminate.
  rewrite !andb_true_iff, !bool_decide_eq_true in Hs.
  destruct Hs as (-> & -> & _).
  apply upper_char_space in Hx, Hy.
  unfold strip. cbn [lstrip]. rewrite Hx.
  destruct (rstrip_head2 a b r Hy) as [r' ->].
  simpl. by rewrite !bool_decide_eq_true_2 by done.
Qed.

Lemma label_option_labelled letter opt :
  letter ∈ LETTER_CHOICES →
  startswith (upper (label_option letter opt)) (letter +:+ ")") = true.
Proof.
  intros Hl. unfold label_option.
  destruct (startswith (upper (strip (py_str opt))) (letter +:+ ")")) eqn:Hs; [done|].
  unfold LETTER_CHOICES in Hl.
  repeat (apply elem_of_cons in Hl as [->|Hl]; [done|]).
  by apply elem_of_nil in Hl.
Qed.

Lemma label_option_kept letter opt :
  startswith (upper (strip (py_str opt))) (letter +:+ ")") = true →
  label_option letter opt = strip (py_str opt).
Proof. intros H. unfold label_option. by rewrite H. Qed.

Lemma label_option_added letter opt :
  startswith (upper (strip (py_str opt))) (letter +:+ ")") = false →
  label_option letter opt = letter +:+ ") " +:+ strip (py_str opt).
Proof. intros H. unfold label_option. by rewrite H. Qed.

(** Labelling a labelled option again adds nothing. *)
Lemma label_option_again letter opt :
  letter ∈ LETTER_CHOICES →
  label_option letter (JStr (label_option letter opt)) = strip (label_option letter opt).
Proof.
  intros Hl. apply label_option_kept. simpl.
  pose proof (label_option_labelled letter opt Hl) as H.
  unfold LETTER_CHOICES in Hl.
  repeat (apply elem_of_cons in Hl as [->|Hl];
          [by apply (strip_keeps_prefix _ _ ")"%char)|]).
  by apply elem_of_nil in Hl.
Qed.

Lemma display_options_present d opts :
  dict_get "options" d = Some (JList opts) →
  (4 ≤ length opts)%nat →
  display_options d = Some (zip_with label_option LETTER_CHOICES (take 4 opts)).
Proof.
  intros Hd Hlen. unfold display_options. by rewrite Hd, bool_decide_eq_true_2.
Qed.

(** C7: for an entry whose "options" is a list of at least four items the
    record's options are four texts.  Text [i] is the trimmed option itself
    when that already starts with letter [i] in either case and a closing
    parenthesis, and otherwise the trimmed option behind the upper-case
    letter, a closing parenthesis and a blank.  Either way its upper-cased
    form starts with the letter and the parenthesis, and labelling it again
    only trims it. *)
Theorem C7_options_are_labelled_once (d : list (string * json)) (opts : list json) :
  dict_get "options" d = Some (JList opts) →
  (4 ≤ length opts)%nat →
  ∃ shown,
    display_options d = Some shown ∧
    (∀ r, build_record (JDict d) = Some r → options r = Some shown) ∧
    length shown = 4%nat ∧
    ∀ i letter opt o,
      LETTER_CHOICES !! i = Some letter → opts !! i = Some opt → shown !! i = Some o →
      startswith (upper o) (letter +:+ ")") = true ∧
      (startswith (upper (strip (py_str opt))) (letter +:+ ")") = true →
       o = strip (py_str opt)) ∧
      (startswith (upper (strip (py_str opt))) (letter +:+ ")") = false →
       o = letter +:+ ") " +:+ strip (py_str opt)) ∧
      label_option letter (JStr o) = strip o.
Proof.
  intros Hd Hlen. eexists. split; [by apply display_options_present|].
  split_and!.
  - intros r Hr. simpl in Hr.
    destruct (dict_get "question" d), (dict_get "answer" d); try discriminate.
    injection Hr as <-. simpl. by apply display_options_present.
  - rewrite length_zip_with, length_take.
    change (length LETTER_CHOICES) with 4%nat. lia.
  - intros i letter opt o Hletter Hopt Ho.
    apply lookup_zip_with_Some in Ho as (l' & opt' & -> & Hl' & Hopt').
    assert (i < 4)%nat as Hi by (apply lookup_lt_Some in Hl'; simpl in Hl'; lia).
    rewrite lookup_take_lt in Hopt' by done.
    assert (l' = letter) as -> by congruence.
    assert (opt' = opt) as -> by congruence.
    assert (letter ∈ LETTER_CHOICES) as Hin by (by eapply list_elem_of_lookup_2).
    split_and!.
    + by apply label_option_labelled.
    + apply label_option_kept.
    + apply label_option_added.
    + by apply label_option_again.
Qed.

Lemma C7_options_are_labelled_once_witness :
  ∃ shown,
    display_options [("question", JStr "Q2"); ("answer", JStr "C");
                     ("options", JList (map JStr ["a"; " B) b"; "c) c "; "d"; "e"]))]
      = Some shown ∧
    shown = ["A) a"; "B) b"; "c) c"; "D) d"].
Proof.
  destruct (C7_options_are_labelled_once
              [("question", JStr "Q2"); ("answer", JStr "C");
               ("options", JList (map JStr ["a"; " B) b"; "c) c "; "d"; "e"]))]
              (map JStr ["a"; " B) b"; "c) c "; "d"; "e"]))
    as (shown & Hshown & _).
  - reflexivity.
  - simpl. lia.
  - exists shown. split; [exact Hshown|].
    vm_compute in Hshown. by injection Hshown as <-.
Defined.

(** C7, the claim as stated: an option that carries its label in lower case
    is kept as it is, so the text shown does not begin with the upper-case
    letter of its position. *)
Lemma C7_lower_case_label_is_kept :
  build_record (entry_with_options "Q" "A" ["a) x"; "b) y"; "c) z"; "d) w"]) =
    Some {| question := "Q"; answer_letter := "A";
            options := Some ["a) x"; "b) y"; "c) z"; "d) w"];
            explanation := JStr "" |} ∧
  startswith "a) x" "A)" = false ∧
  startswith (upper "a) x") "A)" = true.
Proof. by vm_compute. Qed.

(** ** The loose reader *)

Lemma newline_opens_comment c : is_newline c = true → opens_comment c = true.
Proof. unfold is_newline. intros ->%bool_decide_eq_true. done. Qed.

Lemma existsb_positions {f : option ascii * string → bool} prev c r :
  existsb f (positions prev (String c r)) = false →
  f (prev, String c r) = false ∧ existsb f (positions (Some c) r) = false.
Proof. simpl. by intros [? ?]%orb_false_iff. Qed.

Lemma positions_head {f : option ascii * string → bool} prev s :
  existsb f (positions prev s) = false → f (prev, s) = false.
Proof. destruct s; simpl; by intros [? ?]%orb_false_iff. Qed.

(** Where no line comment starts, the first pass copies the text. *)
Lemma strip_line_comments_id s prev :
  existsb line_comment_at (positions prev s) = false →
  strip_line_comments false
    (match prev with None => true | Some c => is_newline c end) s = s.
Proof.
  revert prev. induction s as [|c r IH]; intros prev H; [done|].
  apply existsb_positions in H as [Hhere Hrest].
  pose proof (positions_head _ _ Hrest) as Hnext.
  unfold line_comment_at in Hhere, Hnext. cbn [fst snd] in Hhere, Hnext.
  cbn [strip_line_comments andb].
  assert ((match prev with None => true | Some c => is_newline c end)
          && startswith (String c r) "//" = false) as ->.
  { destruct prev as [p|].
    - destruct (is_newline p) eqn:Hp; [|done].
      by rewrite (newline_opens_comment p Hp), andb_true_r in Hhere.
    - by rewrite andb_true_r in Hhere. }
  rewrite andb_comm, Hnext. f_equal. apply (IH (Some c) Hrest).
Qed.

(** Where no block comment starts, the second pass copies the text. *)
Lemma strip_block_comments_id s prev :
  existsb (λ p, block_comment_here p.2) (positions prev s) = false →
  strip_block_comments Copying s = s.
Proof.
  revert prev. induction s as [|c r IH]; intros prev H; [done|].
  apply existsb_positions in H as [Hhere Hrest]. cbn [snd] in Hhere.
  cbn [strip_block_comments]. rewrite Hhere. f_equal. by apply (IH (Some c)).
Qed.

(** Where no trailing comma stands, the third pass copies the text. *)
Lemma strip_trailing_commas_id s prev :
  existsb (λ p, trailing_comma_here p.2) (positions prev s) = false →
  strip_trailing_commas false s = s.
Proof.
  revert prev. induction s as [|c r IH]; intros prev H; [done|].
  apply existsb_positions in H as [Hhere Hrest]. cbn [snd] in Hhere.
  cbn [strip_trailing_commas andb]. rewrite Hhere. f_equal. by apply (IH (Some c)).
Qed.

(** A text that starts with the byte-order mark is no JSON text. *)
Lemma json_loads_bom text : startswith text BOM = true → json_loads text = None.
Proof.
  intros H. destruct text as [|c r]; [done|].
  simpl in H. apply andb_true_iff in H as [<-%bool_decide_eq_true _].
  unfold json_loads. cbn [skip_ws is_json_space].
  destruct (2 * String.length (String "239" r) + 2)%nat as [|fuel] eqn:Hfuel;
    [simpl in Hfuel; lia|].
  reflexivity.
Qed.


Lemma append_cons c s t : String c s +:+ t = String c (s +:+ t).
Proof. done. Qed.

Lemma append_nil_l t : "" +:+ t = t.
Proof. done. Qed.

Lemma length_append p r :
  String.length (p +:+ r) = (String.length p + String.length r)%nat.
Proof.
  induction p as [|a p IH]; [done|]. rewrite append_cons. cbn [String.length].
  by rewrite IH.
Qed.

(** ** Line ends

    How [universal_newlines] goes through a text, and what the strict
    reader makes of a text whose line ends were translated. *)

Lemma universal_newlines_false c x :
  universal_newlines false (String c x) =
  String (as_newline c) (universal_newlines (bool_decide (c = "013"%char)) x).
Proof. cbn [universal_newlines andb]. unfold as_newline. by case_bool_decide. Qed.

Lemma universal_newlines_keep c r :
  c ≠ "013"%char →
  universal_newlines false (String c r) = String c (universal_newlines false r).
Proof.
  intros H. rewrite universal_newlines_false. unfold as_newline.
  by rewrite bool_decide_eq_false_2.
Qed.

(** The three ways a character is read. *)
Lemma universal_newlines_cases f c r :
  (c = "013"%char ∧
   universal_newlines f (String c r) = String "010" (universal_newlines true r)) ∨
  (c = "010"%char ∧ f = true ∧
   universal_newlines f (String c r) = universal_newlines false r) ∨
  (c ≠ "013"%char ∧
   universal_newlines f (String c r) = universal_newlines false (String c r) ∧
   universal_newlines f (String c r) = String c (universal_newlines false r)).
Proof.
  destruct (decide (c = "013"%char)) as [->|Hcr]; [by left|].
  destruct (decide (c = "010"%char)) as [->|Hlf].
  - destruct f; [right; left; done|]. right; right. done.
  - right; right. split; [done|]. rewrite universal_newlines_keep by done.
    cbn [universal_newlines]. rewrite bool_decide_eq_false_2 by done.
    unfold is_newline. rewrite (bool_decide_eq_false_2 (c = "010"%char)) by done.
    by rewrite andb_false_r.
Qed.

Lemma length_universal_newlines f s :
  (String.length (universal_newlines f s) ≤ String.length s)%nat.
Proof.
  revert f. induction s as [|c r IH]; intros f; [done|].
  destruct (universal_newlines_cases f c r) as [(-> & ->)|[(-> & -> & ->)|(_ & _ & ->)]];
    cbn [String.length].
  - specialize (IH true). lia.
  - specialize (IH false). lia.
  - specialize (IH false). lia.
Qed.

Lemma skip_ws_space c r : is_json_space c = true → skip_ws (String c r) = skip_ws r.
Proof. intros H. cbn [skip_ws]. by rewrite H. Qed.

Lemma skip_ws_universal_newlines f s :
  skip_ws (universal_newlines f s) = universal_newlines false (skip_ws s).
Proof.
  revert f. induction s as [|c r IH]; intros f; [done|].
  destruct (universal_newlines_cases f c r) as [(-> & ->)|[(-> & -> & ->)|(Hc & _ & ->)]].
  - rewrite !skip_ws_space by done. apply IH.
  - rewrite skip_ws_space by done. apply IH.
  - cbn [skip_ws]. destruct (is_json_space c); [apply IH|].
    by rewrite universal_newlines_keep.
Qed.

Lemma lstrip_space c r : is_space c = true → lstrip (String c r) = lstrip r.
Proof. intros H. cbn [lstrip]. by rewrite H. Qed.

Lemma lstrip_universal_newlines f s :
  lstrip (universal_newlines f s) = universal_newlines false (lstrip s).
Proof.
  revert f. induction s as [|c r IH]; intros f; [done|].
  destruct (universal_newlines_cases f c r) as [(-> & ->)|[(-> & -> & ->)|(Hc & _ & ->)]].
  - rewrite !lstrip_space by done. apply IH.
  - rewrite lstrip_space by done. apply IH.
  - cbn [lstrip]. destruct (is_space c); [apply IH|].
    by rewrite universal_newlines_keep.
Qed.

(** What [skip_ws] stops at is no white space, so no line end. *)
Lemma skip_ws_head s c x : skip_ws s = String c x → is_json_space c = false.
Proof.
  induction s as [|d r IH]; [done|]. cbn [skip_ws].
  destruct (is_json_space d) eqn:E; [done|]. by intros [= <- _].
Qed.

Lemma not_json_space_not_cr c : is_json_space c = false → c ≠ "013"%char.
Proof. by intros H ->. Qed.

(** A pattern without line ends starts the translated text where it starts
    the text. *)
Lemma startswith_universal_newlines p s :
  forallb (λ a, negb (bool_decide (a = "013"%char) || is_newline a)) (chars p) = true →
  startswith (universal_newlines false s) p = startswith s p.
Proof.
  revert s. induction p as [|a p IH]; intros s; [done|].
  cbn [chars forallb]. intros [Ha Hp]%andb_true_iff.
  apply negb_true_iff, orb_false_iff in Ha as [Ha1 Ha2]. unfold is_newline in Ha2.
  destruct s as [|b s]; [done|].
  destruct (decide (b = "013"%char)) as [->|Hb].
  - rewrite universal_newlines_false. cbn [startswith as_newline].
    unfold as_newline. rewrite (bool_decide_eq_true_2 ("013"%char = "013"%char)) by done.
    by rewrite Ha1, Ha2.
  - rewrite universal_newlines_keep by done. cbn [startswith]. by rewrite IH.
Qed.

Lemma startswith_split s p : startswith s p = true → ∃ r, s = p +:+ r.
Proof.
  revert s. induction p as [|a p IH]; intros s; [by exists s|].
  destruct s as [|b s]; [done|]. cbn [startswith].
  intros [<-%bool_decide_eq_true [r ->]%IH]%andb_true_iff. by exists r.
Qed.

Lemma substring_all s : String.substring 0 (String.length s) s = s.
Proof. induction s as [|c r IH]; [done|]. simpl. by rewrite IH. Qed.

(** *** Strings and numbers *)

Lemma read_hex_universal_newlines n acc s :
  read_hex n acc (universal_newlines false s) =
  prod_map id (universal_newlines false) <$> read_hex n acc s.
Proof.
  revert acc s. induction n as [|n IH]; intros acc s; [done|].
  destruct s as [|h r]; [done|].
  destruct (decide (h = "013"%char)) as [->|Hh]; [done|].
  rewrite universal_newlines_keep by done. cbn [read_hex].
  destruct (hex_value h); [apply IH|done].
Qed.

Lemma read_hex_length n acc s code rest :
  read_hex n acc s = Some (code, rest) → (String.length rest ≤ String.length s)%nat.
Proof.
  revert acc s. induction n as [|n IH]; intros acc s; cbn [read_hex].
  - by intros [= _ ->].
  - destruct s as [|h r]; [done|]. destruct (hex_value h); [|done].
    intros H%IH. cbn [String.length]. lia.
Qed.

(** The scanner on an escape with four digits, on another escape, and on a
    character that starts none. *)
Lemma read_string_u r :
  read_string (String "\" (String "u" r)) =
  match read_hex 4 0 r with
  | Some (code, r'') =>
      if (code <? 128)%nat then
        match read_string r'' with
        | Some (t, rest) => Some (String (ascii_of_nat code) t, rest)
        | None => None
        end
      else None
  | None => None
  end.
Proof.
  cbn [read_string].
  rewrite (bool_decide_eq_false_2 ("\"%char = "034"%char)) by done.
  rewrite (bool_decide_eq_true_2 ("\"%char = "\"%char)) by done.
  rewrite (bool_decide_eq_true_2 ("u"%char = "u"%char)) by done.
  destruct r as [|h1 [|h2 [|h3 [|h4 r'']]]]; cbn [read_hex];
    repeat (try reflexivity;
            match goal with
            | |- context [hex_value ?h] => destruct (hex_value h)
            end).
Qed.

Lemma read_string_escape e r :
  e ≠ "u"%char →
  read_string (String "\" (String e r)) =
  match simple_escape e, read_string r with
  | Some x, Some (t, rest) => Some (String x t, rest)
  | _, _ => None
  end.
Proof.
  intros H. cbn [read_string].
  rewrite (bool_decide_eq_false_2 ("\"%char = "034"%char)) by done.
  rewrite (bool_decide_eq_true_2 ("\"%char = "\"%char)) by done.
  by rewrite (bool_decide_eq_false_2 (e = "u"%char)).
Qed.

Lemma read_string_plain c r :
  c ≠ "034"%char → c ≠ "\"%char →
  read_string (String c r) =
  if (nat_of_ascii c <? 32)%nat then None
  else match read_string r with
       | Some (t, rest) => Some (String c t, rest)
       | None => None
       end.
Proof. intros H1 H2. cbn [read_string]. by rewrite !bool_decide_eq_false_2. Qed.

Lemma read_string_length s t rest :
  read_string s = Some (t, rest) → (String.length rest < String.length s)%nat.
Proof.
  remember (String.length s) as n eqn:Hn. revert s t rest Hn.
  induction n as [n IH] using lt_wf_ind. intros s t rest -> H.
  destruct s as [|c r]; [done|]. cbn [String.length].
  destruct (decide (c = "034"%char)) as [->|Hq].
  { cbn [read_string] in H. rewrite bool_decide_eq_true_2 in H by done.
    simplify_eq. lia. }
  destruct (decide (c = "\"%char)) as [->|Hb].
  { destruct r as [|e r']; [done|]. cbn [String.length].
    destruct (decide (e = "u"%char)) as [->|He].
    - rewrite read_string_u in H.
      destruct (read_hex 4 0 r') as [[code r'']|] eqn:Hhex; [|done].
      destruct (code <? 128)%nat; [|done].
      destruct (read_string r'') as [[t' rest']|] eqn:Hr; [|done].
      simplify_eq. apply read_hex_length in Hhex.
      pose proof (IH (String.length r'') ltac:(cbn [String.length]; lia)
                    r'' t' rest eq_refl Hr).
      lia.
    - rewrite read_string_escape in H by done. destruct (simple_escape e); [|done].
      destruct (read_string r') as [[t' rest']|] eqn:Hr; [|done]. simplify_eq.
      pose proof (IH (String.length r') ltac:(cbn [String.length]; lia)
                    r' t' rest eq_refl Hr).
      lia. }
  rewrite read_string_plain in H by done. destruct (nat_of_ascii c <? 32)%nat; [done|].
  destruct (read_string r) as [[t' rest']|] eqn:Hr; [|done]. simplify_eq.
  pose proof (IH (String.length r) ltac:(cbn [String.length]; lia) r t' rest eq_refl Hr).
  lia.
Qed.

(** The scanner fails on a line end inside a literal, be it a carriage
    return or a newline, so it reads the translated text as it reads the
    text. *)
Lemma read_string_universal_newlines s :
  read_string (universal_newlines false s) =
  prod_map id (universal_newlines false) <$> read_string s.
Proof.
  remember (String.length s) as n eqn:Hn. revert s Hn.
  induction n as [n IH] using lt_wf_ind. intros s ->.
  destruct s as [|c r]; [done|].
  destruct (decide (c = "013"%char)) as [->|Hc]; [done|].
  rewrite universal_newlines_keep by done.
  destruct (decide (c = "034"%char)) as [->|Hq]; [done|].
  destruct (decide (c = "\"%char)) as [->|Hb].
  { destruct r as [|e r']; [done|].
    destruct (decide (e = "013"%char)) as [->|He]; [done|].
    rewrite universal_newlines_keep by done.
    destruct (decide (e = "u"%char)) as [->|Hu].
    - rewrite !read_string_u, read_hex_universal_newlines.
      destruct (read_hex 4 0 r') as [[code r'']|] eqn:Hhex; [|done].
      cbn [fmap option_fmap option_map prod_map fst snd id].
      apply read_hex_length in Hhex.
      rewrite (IH (String.length r'') ltac:(cbn [String.length]; lia) r'' eq_refl).
      destruct (code <? 128)%nat; [|done]. by destruct (read_string r'') as [[t rest]|].
    - rewrite !read_string_escape by done.
      rewrite (IH (String.length r') ltac:(cbn [String.length]; lia) r' eq_refl).
      destruct (simple_escape e); [|done]. by destruct (read_string r') as [[t rest]|]. }
  rewrite !read_string_plain by done.
  rewrite (IH (String.length r) ltac:(cbn [String.length]; lia) r eq_refl).
  destruct (nat_of_ascii c <? 32)%nat; [done|]. by destruct (read_string r) as [[t rest]|].
Qed.

Lemma read_digits_universal_newlines acc s :
  read_digits acc (universal_newlines false s) =
  prod_map id (universal_newlines false) (read_digits acc s).
Proof.
  revert acc. induction s as [|c r IH]; intros acc; [done|].
  destruct (decide (c = "013"%char)) as [->|Hc]; [done|].
  rewrite universal_newlines_keep by done. cbn [read_digits].
  destruct (is_digit c); [apply IH|].
  cbn [prod_map fst snd id]. by rewrite universal_newlines_keep.
Qed.

Lemma read_digits_length acc s :
  (String.length (read_digits acc s).2 ≤ String.length s)%nat.
Proof.
  revert acc. induction s as [|c r IH]; intros acc; [done|]. cbn [read_digits].
  destruct (is_digit c); [|done]. specialize (IH (10 * acc + Z.of_nat (nat_of_ascii c - 48))).
  cbn [String.length]. lia.
Qed.

Lemma ends_integer_universal_newlines s :
  ends_integer (universal_newlines false s) = ends_integer s.
Proof.
  destruct s as [|c r]; [done|].
  destruct (decide (c = "013"%char)) as [->|Hc]; [done|].
  by rewrite universal_newlines_keep.
Qed.

Lemma read_natural_universal_newlines s :
  read_natural (universal_newlines false s) =
  prod_map id (universal_newlines false) <$> read_natural s.
Proof.
  destruct s as [|c r]; [done|].
  destruct (decide (c = "013"%char)) as [->|Hc]; [done|].
  rewrite universal_newlines_keep by done. cbn [read_natural].
  destruct (bool_decide (c = "0"%char)).
  { rewrite ends_integer_universal_newlines. by destruct (ends_integer r). }
  destruct (is_digit c); [|done].
  rewrite <- (universal_newlines_keep c r) by done.
  rewrite read_digits_universal_newlines.
  destruct (read_digits 0 (String c r)) as [n r']. cbn [prod_map fst snd id].
  rewrite ends_integer_universal_newlines. by destruct (ends_integer r').
Qed.

Lemma read_natural_length s n rest :
  read_natural s = Some (n, rest) → (String.length rest < String.length s)%nat.
Proof.
  destruct s as [|c r]; [done|]. cbn [read_natural String.length].
  destruct (bool_decide (c = "0"%char)).
  { destruct (ends_integer r); [|done]. intros; simplify_eq. lia. }
  destruct (is_digit c) eqn:Hd; [|done]. cbn [read_digits]. rewrite Hd.
  pose proof (read_digits_length (10 * 0 + Z.of_nat (nat_of_ascii c - 48)) r) as Hlen.
  destruct (read_digits (10 * 0 + Z.of_nat (nat_of_ascii c - 48)) r) as [m r'].
  destruct (ends_integer r'); [|done]. intros; simplify_eq. cbn [snd] in Hlen. lia.
Qed.

Lemma skip_ws_length s : (String.length (skip_ws s) ≤ String.length s)%nat.
Proof.
  induction s as [|c r IH]; [done|]. cbn [skip_ws].
  destruct (is_json_space c); cbn [String.length]; lia.
Qed.

Lemma substring_keyword p rest n :
  n = String.length p →
  String.substring n (String.length (p +:+ rest) - n) (p +:+ rest) = rest.
Proof.
  intros ->. induction p as [|a p IH]; cbn [String.length String.substring].
  - rewrite Nat.sub_0_r. apply substring_all.
  - apply IH.
Qed.

(** *** Values *)

(** One step of the three readers. *)
Lemma read_value_quote fuel r :
  read_value (S fuel) (String "034" r) =
  match read_string r with
  | Some (t, rest) => Some (JStr t, rest)
  | None => None
  end.
Proof. done. Qed.

Lemma read_value_bracket fuel r :
  read_value (S fuel) (String "[" r) =
  match skip_ws r with
  | String "]" rest => Some (JList [], rest)
  | r' => read_items fuel [] r'
  end.
Proof. done. Qed.

Lemma read_value_brace fuel r :
  read_value (S fuel) (String "{" r) =
  match skip_ws r with
  | String "}" rest => Some (JDict [], rest)
  | r' => read_members fuel [] r'
  end.
Proof. done. Qed.

Lemma read_value_minus fuel r :
  read_value (S fuel) (String "-" r) =
  match read_natural r with
  | Some (n, rest) => Some (JInt (- n), rest)
  | None => None
  end.
Proof. done. Qed.

Lemma read_value_word fuel c r :
  c ≠ "034"%char → c ≠ "["%char → c ≠ "{"%char → c ≠ "-"%char →
  read_value (S fuel) (String c r) =
  let s := String c r in
  if startswith s "true" then
    Some (JBool true, String.substring 4 (String.length s - 4) s)
  else if startswith s "false" then
    Some (JBool false, String.substring 5 (String.length s - 5) s)
  else if startswith s "null" then
    Some (JNull, String.substring 4 (String.length s - 4) s)
  else
    match read_natural s with
    | Some (n, rest) => Some (JInt n, rest)
    | None => None
    end.
Proof.
  intros H1 H2 H3 H4.
  change (read_value (S fuel) (String c r)) with
    (if bool_decide (c = "034"%char) then
       match read_string r with
       | Some (t, rest) => Some (JStr t, rest)
       | None => None
       end
     else if bool_decide (c = "["%char) then
       match skip_ws r with
       | String "]" rest => Some (JList [], rest)
       | r' => read_items fuel [] r'
       end
     else if bool_decide (c = "{"%char) then
       match skip_ws r with
       | String "}" rest => Some (JDict [], rest)
       | r' => read_members fuel [] r'
       end
     else if bool_decide (c = "-"%char) then
       match read_natural r with
       | Some (n, rest) => Some (JInt (- n), rest)
       | None => None
       end
     else
       let s := String c r in
       if startswith s "true" then
         Some (JBool true, String.substring 4 (String.length s - 4) s)
       else if startswith s "false" then
         Some (JBool false, String.substring 5 (String.length s - 5) s)
       else if startswith s "null" then
         Some (JNull, String.substring 4 (String.length s - 4) s)
       else
         match read_natural s with
         | Some (n, rest) => Some (JInt n, rest)
         | None => None
         end).
  by rewrite !bool_decide_eq_false_2.
Qed.

Lemma read_items_S fuel acc s :
  read_items (S fuel) acc s =
  match read_value fuel s with
  | Some (v, r) =>
      match skip_ws r with
      | String "," r' => read_items fuel (acc ++ [v]) (skip_ws r')
      | String "]" rest => Some (JList (acc ++ [v]), rest)
      | _ => None
      end
  | None => None
  end.
Proof. done. Qed.

Lemma read_members_quote fuel acc r :
  read_members (S fuel) acc (String "034" r) =
  match read_string r with
  | Some (k, r1) =>
      match skip_ws r1 with
      | String ":" r2 =>
          match read_value fuel (skip_ws r2) with
          | Some (v, r3) =>
              match skip_ws r3 with
              | String "," r4 => read_members fuel (dict_set k v acc) (skip_ws r4)
              | String "}" rest => Some (JDict (dict_set k v acc), rest)
              | _ => None
              end
          | None => None
          end
      | _ => None
      end
  | None => None
  end.
Proof. done. Qed.

(** A case for each of the 256 characters. *)
Ltac each_char c := destruct c as [[] [] [] [] [] [] [] []].

(** A word of the grammar, or a number: what follows it is shorter. *)
Lemma read_word_length s v rest :
  (if startswith s "true" then
     Some (JBool true, String.substring 4 (String.length s - 4) s)
   else if startswith s "false" then
     Some (JBool false, String.substring 5 (String.length s - 5) s)
   else if startswith s "null" then
     Some (JNull, String.substring 4 (String.length s - 4) s)
   else
     match read_natural s with
     | Some (n, rest) => Some (JInt n, rest)
     | None => None
     end) = Some (v, rest) →
  (String.length rest < String.length s)%nat.
Proof.
  destruct (startswith s "true") eqn:E1.
  { apply startswith_split in E1 as [x ->]. rewrite (substring_keyword "true" x 4) by done.
    intros; simplify_eq. rewrite length_append. cbn [String.length]. lia. }
  destruct (startswith s "false") eqn:E2.
  { apply startswith_split in E2 as [x ->]. rewrite (substring_keyword "false" x 5) by done.
    intros; simplify_eq. rewrite length_append. cbn [String.length]. lia. }
  destruct (startswith s "null") eqn:E3.
  { apply startswith_split in E3 as [x ->]. rewrite (substring_keyword "null" x 4) by done.
    intros; simplify_eq. rewrite length_append. cbn [String.length]. lia. }
  destruct (read_natural s) as [[n r']|] eqn:E4; [|done].
  intros; simplify_eq. by apply read_natural_length in E4.
Qed.

(** Every value takes at least one character. *)
Lemma read_value_length fuel :
  (∀ s v rest, read_value fuel s = Some (v, rest) →
               (String.length rest < String.length s)%nat) ∧
  (∀ acc s v rest, read_items fuel acc s = Some (v, rest) →
                   (String.length rest < String.length s)%nat) ∧
  (∀ acc s v rest, read_members fuel acc s = Some (v, rest) →
                   (String.length rest < String.length s)%nat).
Proof.
  induction fuel as [|fuel (IHv & IHi & IHm)]; [done|]. split_and!.
  - intros s v rest H. destruct s as [|c r]; [done|].
    destruct (decide (c = "034"%char)) as [->|H1].
    { rewrite read_value_quote in H.
      destruct (read_string r) as [[t r']|] eqn:E; [|done]. simplify_eq.
      apply read_string_length in E. cbn [String.length]. lia. }
    destruct (decide (c = "["%char)) as [->|H2].
    { rewrite read_value_bracket in H. pose proof (skip_ws_length r) as Hskip.
      cbn [String.length].
      destruct (skip_ws r) as [|d x] eqn:E.
      - apply IHi in H. cbn [String.length] in H. lia.
      - cbn [String.length] in Hskip.
        each_char d; first [apply IHi in H; cbn [String.length] in H; lia
                           | simplify_eq; lia]. }
    destruct (decide (c = "{"%char)) as [->|H3].
    { rewrite read_value_brace in H. pose proof (skip_ws_length r) as Hskip.
      cbn [String.length].
      destruct (skip_ws r) as [|d x] eqn:E.
      - apply IHm in H. cbn [String.length] in H. lia.
      - cbn [String.length] in Hskip.
        each_char d; first [apply IHm in H; cbn [String.length] in H; lia
                           | simplify_eq; lia]. }
    destruct (decide (c = "-"%char)) as [->|H4].
    { rewrite read_value_minus in H.
      destruct (read_natural r) as [[n r']|] eqn:E; [|done]. simplify_eq.
      apply read_natural_length in E. cbn [String.length]. lia. }
    rewrite read_value_word in H by done. by apply read_word_length in H.
  - intros acc s v rest H. rewrite read_items_S in H.
    destruct (read_value fuel s) as [[w r]|] eqn:E; [|done]. apply IHv in E.
    pose proof (skip_ws_length r) as Hskip.
    destruct (skip_ws r) as [|d x] eqn:E'; [done|]. cbn [String.length] in Hskip.
    each_char d; try done;
      first [apply IHi in H; pose proof (skip_ws_length x); lia | simplify_eq; lia].
  - intros acc s v rest H. destruct s as [|c r]; [done|].
    each_char c; try done. rewrite read_members_quote in H. cbn [String.length].
    destruct (read_string r) as [[k r1]|] eqn:E1; [|done]. apply read_string_length in E1.
    pose proof (skip_ws_length r1) as Hskip1.
    destruct (skip_ws r1) as [|d x] eqn:E2; [done|]. cbn [String.length] in Hskip1.
    each_char d; try done.
    destruct (read_value fuel (skip_ws x)) as [[w r3]|] eqn:E3; [|done]. apply IHv in E3.
    pose proof (skip_ws_length x) as Hskip2. pose proof (skip_ws_length r3) as Hskip3.
    destruct (skip_ws r3) as [|e y] eqn:E4; [done|]. cbn [String.length] in Hskip3.
    each_char e; try done;
      first [apply IHm in H; pose proof (skip_ws_length y); lia | simplify_eq; lia].
Qed.

(** Twice the length of the text is fuel enough: more changes nothing. *)
Lemma read_value_fuel_S fuel :
  (∀ s, (2 * String.length s + 1 ≤ fuel)%nat →
        read_value fuel s = read_value (S fuel) s) ∧
  (∀ acc s, (2 * String.length s + 2 ≤ fuel)%nat →
            read_items fuel acc s = read_items (S fuel) acc s) ∧
  (∀ acc s, (2 * String.length s + 2 ≤ fuel)%nat →
            read_members fuel acc s = read_members (S fuel) acc s).
Proof.
  induction fuel as [|fuel (IHv & IHi & IHm)]; [split_and!; intros; lia|].
  destruct (read_value_length fuel) as (Lv & Li & Lm).
  split_and!.
  - intros s Hs. destruct s as [|c r]; [done|]. cbn [String.length] in Hs.
    pose proof (skip_ws_length r) as Hskip.
    destruct (decide (c = "034"%char)) as [->|H1]; [done|].
    destruct (decide (c = "["%char)) as [->|H2].
    { rewrite !read_value_bracket. destruct (skip_ws r) as [|d x] eqn:E.
      - apply IHi. cbn [String.length]. lia.
      - each_char d; try reflexivity; apply IHi; lia. }
    destruct (decide (c = "{"%char)) as [->|H3].
    { rewrite !read_value_brace. destruct (skip_ws r) as [|d x] eqn:E.
      - apply IHm. cbn [String.length]. lia.
      - each_char d; try reflexivity; apply IHm; lia. }
    destruct (decide (c = "-"%char)) as [->|H4]; [done|].
    by rewrite !read_value_word.
  - intros acc s Hs. rewrite !read_items_S. rewrite <- IHv by lia.
    destruct (read_value fuel s) as [[v r]|] eqn:E; [|done]. apply Lv in E.
    pose proof (skip_ws_length r) as Hskip.
    destruct (skip_ws r) as [|d x] eqn:E'; [done|]. cbn [String.length] in Hskip.
    pose proof (skip_ws_length x).
    each_char d; try reflexivity. apply IHi. lia.
  - intros acc s Hs. destruct s as [|c r]; [done|]. cbn [String.length] in Hs.
    each_char c; try reflexivity. rewrite !read_members_quote.
    destruct (read_string r) as [[k r1]|] eqn:E1; [|done]. apply read_string_length in E1.
    pose proof (skip_ws_length r1) as Hskip1.
    destruct (skip_ws r1) as [|d x] eqn:E2; [done|]. cbn [String.length] in Hskip1.
    pose proof (skip_ws_length x) as Hskip2.
    each_char d; try reflexivity. rewrite <- IHv by lia.
    destruct (read_value fuel (skip_ws x)) as [[w r3]|] eqn:E3; [|done]. apply Lv in E3.
    pose proof (skip_ws_length r3) as Hskip3.
    destruct (skip_ws r3) as [|e y] eqn:E4; [done|]. cbn [String.length] in Hskip3.
    pose proof (skip_ws_length y).
    each_char e; try reflexivity. apply IHm. lia.
Qed.

Lemma read_value_fuel k fuel s :
  (2 * String.length s + 1 ≤ fuel)%nat →
  read_value (k + fuel) s = read_value fuel s.
Proof.
  intros Hs. induction k as [|k IH]; [done|].
  rewrite <- IH. symmetry. apply (read_value_fuel_S (k + fuel)). lia.
Qed.

(** The three readers read the translated text as they read the text: a
    line end outside a literal is white space either way. *)
Lemma read_value_universal_newlines fuel :
  (∀ s, read_value fuel (universal_newlines false s) =
        prod_map id (universal_newlines false) <$> read_value fuel s) ∧
  (∀ acc s, read_items fuel acc (universal_newlines false s) =
            prod_map id (universal_newlines false) <$> read_items fuel acc s) ∧
  (∀ acc s, read_members fuel acc (universal_newlines false s) =
            prod_map id (universal_newlines false) <$> read_members fuel acc s).
Proof.
  induction fuel as [|fuel (IHv & IHi & IHm)]; [done|]. split_and!.
  - intros s. destruct s as [|c r]; [done|].
    destruct (decide (c = "013"%char)) as [->|Hc]; [done|].
    rewrite universal_newlines_keep by done.
    destruct (decide (c = "034"%char)) as [->|H1].
    { rewrite !read_value_quote, read_string_universal_newlines.
      by destruct (read_string r) as [[t rest]|]. }
    destruct (decide (c = "["%char)) as [->|H2].
    { rewrite !read_value_bracket, skip_ws_universal_newlines.
      destruct (skip_ws r) as [|d x] eqn:E; [apply (IHi [] "")|].
      pose proof (IHi [] (String d x)) as Ha.
      apply skip_ws_head, not_json_space_not_cr in E.
      rewrite universal_newlines_keep in Ha |- * by done.
      each_char d; first [exact Ha | reflexivity]. }
    destruct (decide (c = "{"%char)) as [->|H3].
    { rewrite !read_value_brace, skip_ws_universal_newlines.
      destruct (skip_ws r) as [|d x] eqn:E; [apply (IHm [] "")|].
      pose proof (IHm [] (String d x)) as Ha.
      apply skip_ws_head, not_json_space_not_cr in E.
      rewrite universal_newlines_keep in Ha |- * by done.
      each_char d; first [exact Ha | reflexivity]. }
    destruct (decide (c = "-"%char)) as [->|H4].
    { rewrite !read_value_minus, read_natural_universal_newlines.
      by destruct (read_natural r) as [[n rest]|]. }
    rewrite !read_value_word by done. cbv zeta.
    rewrite <- (universal_newlines_keep c r) by done.
    rewrite !startswith_universal_newlines by done.
    destruct (startswith (String c r) "true") eqn:E1.
    { apply startswith_split in E1 as [x Hx]. rewrite Hx.
      rewrite (substring_keyword "true" x 4) by done.
      change ("true" +:+ x) with (String "t" (String "r" (String "u" (String "e" x)))).
      rewrite !universal_newlines_keep by done.
      cbn [fmap option_fmap option_map prod_map fst snd id]. do 2 f_equal.
      exact (substring_keyword "true" (universal_newlines false x) 4 eq_refl). }
    destruct (startswith (String c r) "false") eqn:E2.
    { apply startswith_split in E2 as [x Hx]. rewrite Hx.
      rewrite (substring_keyword "false" x 5) by done.
      change ("false" +:+ x)
        with (String "f" (String "a" (String "l" (String "s" (String "e" x))))).
      rewrite !universal_newlines_keep by done.
      cbn [fmap option_fmap option_map prod_map fst snd id]. do 2 f_equal.
      exact (substring_keyword "false" (universal_newlines false x) 5 eq_refl). }
    destruct (startswith (String c r) "null") eqn:E3.
    { apply startswith_split in E3 as [x Hx]. rewrite Hx.
      rewrite (substring_keyword "null" x 4) by done.
      change ("null" +:+ x) with (String "n" (String "u" (String "l" (String "l" x)))).
      rewrite !universal_newlines_keep by done.
      cbn [fmap option_fmap option_map prod_map fst snd id]. do 2 f_equal.
      exact (substring_keyword "null" (universal_newlines false x) 4 eq_refl). }
    rewrite read_natural_universal_newlines.
    by destruct (read_natural (String c r)) as [[n rest]|].
  - intros acc s. rewrite !read_items_S, IHv.
    destruct (read_value fuel s) as [[v r]|]; [|done].
    cbn [fmap option_fmap option_map prod_map fst snd id].
    rewrite skip_ws_universal_newlines.
    destruct (skip_ws r) as [|d x] eqn:E; [done|].
    pose proof (IHi (acc ++ [v]) (skip_ws x)) as Ha.
    rewrite <- (skip_ws_universal_newlines false) in Ha.
    apply skip_ws_head, not_json_space_not_cr in E.
    rewrite universal_newlines_keep by done.
    each_char d; first [exact Ha | reflexivity].
  - intros acc s. destruct s as [|c r]; [done|].
    destruct (decide (c = "013"%char)) as [->|Hc]; [done|].
    rewrite universal_newlines_keep by done.
    each_char c; try reflexivity. rewrite !read_members_quote.
    rewrite read_string_universal_newlines.
    destruct (read_string r) as [[k r1]|]; [|done].
    cbn [fmap option_fmap option_map prod_map fst snd id].
    rewrite skip_ws_universal_newlines.
    destruct (skip_ws r1) as [|d x] eqn:E; [done|].
    apply skip_ws_head, not_json_space_not_cr in E.
    rewrite universal_newlines_keep by done.
    each_char d; try reflexivity.
    rewrite skip_ws_universal_newlines, IHv.
    destruct (read_value fuel (skip_ws x)) as [[v r3]|]; [|done].
    cbn [fmap option_fmap option_map prod_map fst snd id].
    rewrite skip_ws_universal_newlines.
    destruct (skip_ws r3) as [|e y] eqn:E'; [done|].
    pose proof (IHm (dict_set k v acc) (skip_ws y)) as Ha.
    rewrite <- (skip_ws_universal_newlines false) in Ha.
    apply skip_ws_head, not_json_space_not_cr in E'.
    rewrite universal_newlines_keep by done.
    each_char e; first [exact Ha | reflexivity].
Qed.

(** The strict reader does not tell a translated text from the text. *)
Lemma json_loads_universal_newlines s :
  json_loads (universal_newlines false s) = json_loads s.
Proof.
  unfold json_loads. rewrite skip_ws_universal_newlines.
  pose proof (length_universal_newlines false s) as Hlen.
  set (n1 := (2 * String.length (universal_newlines false s) + 2)%nat).
  set (n2 := (2 * String.length s + 2)%nat).
  assert (read_value n2 (universal_newlines false (skip_ws s)) =
          read_value n1 (universal_newlines false (skip_ws s))) as <-.
  { replace n2 with ((n2 - n1) + n1)%nat by lia. apply read_value_fuel.
    rewrite <- (skip_ws_universal_newlines false).
    pose proof (skip_ws_length (universal_newlines false s)). lia. }
  destruct (read_value_universal_newlines n2) as (-> & _ & _).
  destruct (read_value n2 (skip_ws s)) as [[v rest]|]; [|done].
  cbn [fmap option_fmap option_map prod_map fst snd id].
  rewrite skip_ws_universal_newlines.
  destruct (skip_ws rest) as [|c x]; [done|]. by rewrite universal_newlines_false.
Qed.

(** *** Line ends and the three patterns *)

Lemma universal_newlines_cr f r :
  universal_newlines f (String "013" r) = String "010" (universal_newlines true r).
Proof. done. Qed.

Lemma universal_newlines_other f c r :
  c ≠ "013"%char → c ≠ "010"%char →
  universal_newlines f (String c r) = String c (universal_newlines false r).
Proof.
  intros H1 H2.
  destruct (universal_newlines_cases f c r) as [(? & _)|[(? & _)|(_ & _ & ->)]]; done.
Qed.

(** The translation goes through a text up to a character that is no line
    end, and starts afresh behind it. *)
Lemma universal_newlines_app f a c x :
  c ≠ "013"%char → c ≠ "010"%char →
  universal_newlines f (a +:+ String c x) =
  universal_newlines f a +:+ String c (universal_newlines false x).
Proof.
  intros H1 H2. revert f. induction a as [|d a IH]; intros f.
  - rewrite append_nil_l. by rewrite universal_newlines_other.
  - rewrite append_cons.
    destruct (decide (d = "013"%char)) as [->|Hd].
    { rewrite !universal_newlines_cr, IH. done. }
    destruct (decide (d = "010"%char)) as [->|Hl].
    { destruct f.
      - change (universal_newlines true (String "010" ?r))
          with (universal_newlines false r). apply IH.
      - rewrite !universal_newlines_keep by done. by rewrite IH. }
    rewrite !universal_newlines_other by done. by rewrite IH.
Qed.

(** No place where the first pattern matches comes from the translation. *)
Lemma line_comment_universal_newlines s f prev prev' :
  match prev' with None => true | Some c => opens_comment c end =
  match prev with None => true | Some c => opens_comment c end →
  (f = true → prev = Some "013"%char) →
  existsb line_comment_at (positions prev s) = false →
  existsb line_comment_at (positions prev' (universal_newlines f s)) = false.
Proof.
  revert f prev prev'. induction s as [|c r IH]; intros f prev prev' Hop Hf H; [done|].
  apply existsb_positions in H as [Hhere Hrest].
  destruct (universal_newlines_cases f c r) as [(-> & ->)|[(-> & -> & ->)|(Hc & -> & _)]].
  - cbn [positions existsb]. apply orb_false_iff. split; [done|].
    by apply (IH true (Some "013"%char)).
  - apply (IH false (Some "010"%char)); [|done|done].
    rewrite Hop, (Hf eq_refl). done.
  - rewrite universal_newlines_keep by done. cbn [positions existsb].
    apply orb_false_iff. split; [|by apply (IH false (Some c))].
    unfold line_comment_at in *. cbn [fst snd] in *.
    rewrite <- (universal_newlines_keep c r) by done.
    rewrite startswith_universal_newlines by done. by rewrite Hop.
Qed.

(** Nor does one where a pattern matches that looks at the text from its
    place on, when it reads the translated text like the text and does not
    start with a newline. *)
Lemma positions_universal_newlines (g : string → bool) s f prev prev' :
  (∀ t, g (universal_newlines false t) = g t) →
  (∀ x, g (String "010" x) = false) →
  existsb (λ p, g p.2) (positions prev s) = false →
  existsb (λ p : option ascii * string, g p.2)
          (positions prev' (universal_newlines f s)) = false.
Proof.
  intros Hg Hlf. revert f prev prev'.
  induction s as [|c r IH]; intros f prev prev' H; [exact H|].
  apply existsb_positions in H as [Hhere Hrest]. cbn [snd] in Hhere.
  destruct (universal_newlines_cases f c r) as [(-> & ->)|[(-> & -> & ->)|(Hc & -> & _)]].
  - cbn [positions existsb snd]. rewrite Hlf. by apply (IH true (Some "013"%char)).
  - by apply (IH false (Some "010"%char)).
  - rewrite universal_newlines_keep by done. cbn [positions existsb snd].
    rewrite <- (universal_newlines_keep c r) by done. rewrite Hg, Hhere.
    by apply (IH false (Some c)).
Qed.

Lemma contains_universal_newlines f s p :
  forallb (λ a, negb (bool_decide (a = "013"%char) || is_newline a)) (chars p) = true →
  p ≠ "" →
  contains (universal_newlines f s) p = contains s p.
Proof.
  intros Hp Hne. revert f. induction s as [|c r IH]; intros f; [done|].
  assert (∀ x, startswith (String "010" x) p = false) as Hlf.
  { intros x. destruct p as [|a p]; [done|]. cbn [chars forallb] in Hp.
    apply andb_true_iff in Hp as [Ha _].
    apply negb_true_iff, orb_false_iff in Ha as [_ Ha]. unfold is_newline in Ha.
    cbn [startswith]. by rewrite Ha. }
  assert (∀ x, startswith (String "013" x) p = false) as Hcr.
  { intros x. destruct p as [|a p]; [done|]. cbn [chars forallb] in Hp.
    apply andb_true_iff in Hp as [Ha _].
    apply negb_true_iff, orb_false_iff in Ha as [Ha _].
    cbn [startswith]. by rewrite Ha. }
  destruct (universal_newlines_cases f c r) as [(-> & ->)|[(-> & -> & ->)|(Hc & -> & _)]].
  - cbn [contains]. by rewrite Hlf, Hcr, IH.
  - cbn [contains]. by rewrite Hlf, IH.
  - rewrite universal_newlines_keep by done. cbn [contains].
    rewrite <- (universal_newlines_keep c r) by done.
    rewrite startswith_universal_newlines by done. by rewrite IH.
Qed.

Lemma block_comment_here_universal_newlines s :
  block_comment_here (universal_newlines false s) = block_comment_here s.
Proof.
  unfold block_comment_here. rewrite startswith_universal_newlines by done.
  destruct (startswith s "/*") eqn:E; [|done].
  apply startswith_split in E as [x ->].
  change ("/*" +:+ x) with (String "/" (String "*" x)).
  rewrite !universal_newlines_keep by done. cbn [tail andb].
  by rewrite contains_universal_newlines.
Qed.

Lemma closes_universal_newlines s : closes (universal_newlines false s) = closes s.
Proof. unfold closes. by rewrite !startswith_universal_newlines. Qed.

Lemma trailing_comma_here_universal_newlines s :
  trailing_comma_here (universal_newlines false s) = trailing_comma_here s.
Proof.
  unfold trailing_comma_here. rewrite startswith_universal_newlines by done.
  destruct (startswith s ",") eqn:E; [|done].
  apply startswith_split in E as [x ->].
  change ("," +:+ x) with (String "," x).
  rewrite universal_newlines_keep by done. cbn [tail andb].
  by rewrite lstrip_universal_newlines, closes_universal_newlines.
Qed.

Lemma line_comment_in_universal_newlines s :
  line_comment_in s = false → line_comment_in (universal_newlines false s) = false.
Proof. by apply line_comment_universal_newlines. Qed.

Lemma block_comment_in_universal_newlines s :
  block_comment_in s = false → block_comment_in (universal_newlines false s) = false.
Proof.
  apply (positions_universal_newlines block_comment_here); [|done].
  apply block_comment_here_universal_newlines.
Qed.

Lemma trailing_comma_in_universal_newlines s :
  trailing_comma_in s = false → trailing_comma_in (universal_newlines false s) = false.
Proof.
  apply (positions_universal_newlines trailing_comma_here); [|done].
  apply trailing_comma_here_universal_newlines.
Qed.

(** *** The loose reader on a text without the patterns *)

Lemma pattern_free_spec text :
  pattern_free text = true ↔
  line_comment_in text = false ∧ block_comment_in text = false ∧
  trailing_comma_in text = false.
Proof.
  unfold pattern_free, line_comment_in, block_comment_in, trailing_comma_in.
  rewrite !andb_true_iff, !negb_true_iff. tauto.
Qed.

(** Where none of the patterns matches, the three substitutions copy the
    text. *)
Lemma substitutions_pattern_free text :
  line_comment_in text = false → block_comment_in text = false →
  trailing_comma_in text = false →
  strip_trailing_commas false
    (strip_block_comments Copying (strip_line_comments false true text)) = text.
Proof.
  intros Hline Hblock Hcomma.
  rewrite (strip_line_comments_id text None Hline).
  rewrite (strip_block_comments_id text None Hblock).
  apply (strip_trailing_commas_id text None Hcomma).
Qed.

Lemma preprocess_pattern_free content :
  startswith content BOM = false → pattern_free content = true →
  preprocess content = decode_utf8 content.
Proof.
  intros Hbom (Hline & Hblock & Hcomma)%pattern_free_spec.
  unfold preprocess, decode_utf8_sig, decode_utf8. rewrite Hbom.
  apply substitutions_pattern_free.
  - by apply line_comment_in_universal_newlines.
  - by apply block_comment_in_universal_newlines.
  - by apply trailing_comma_in_universal_newlines.
Qed.

(** A text holds no carriage return exactly when the translation of the
    line ends leaves it alone. *)
Lemma universal_newlines_id s :
  universal_newlines false s = s ↔ contains s CR = false.
Proof.
  induction s as [|c r IH]; [done|].
  change (contains (String c r) CR)
    with (bool_decide ("013"%char = c) && true || contains r CR).
  destruct (decide (c = "013"%char)) as [->|Hc]; [done|].
  rewrite universal_newlines_keep by done.
  rewrite (bool_decide_eq_false_2 ("013"%char = c)) by done. cbn [andb orb].
  rewrite <- IH. split; [by intros [= ?]|by intros ->].
Qed.

(** C4: on the content of a file that is a JSON text in which no [//]
    stands at the start of a line or after white space, a bracket, a brace
    or a comma, no [/*] has a [*/] after it, and no comma is followed,
    after optional white space, by a closing bracket or brace, the three
    substitutions change nothing: the text handed to [json.loads] is the
    text of the file as a reader in text mode sees it, line ends read as
    newlines, which is the content itself when that holds no carriage
    return; and the loose reader returns what the strict reader returns. *)
Theorem C4_loose_reader_on_pattern_free_text (content : string) :
  pattern_free content = true →
  (∀ v, json_loads content = Some v →
        preprocess content = decode_utf8 content ∧
        _read_json_loose content = Some v ∧ json_load content = Some v) ∧
  (startswith content BOM = false →
   preprocess content = decode_utf8 content ∧
   _read_json_loose content = json_loads content ∧
   _read_json_loose content = json_load content) ∧
  (decode_utf8 content = content ↔ contains content CR = false).
Proof.
  intros Hfree.
  assert (json_load content = json_loads content) as Hstrict.
  { unfold json_load, decode_utf8. apply json_loads_universal_newlines. }
  assert (startswith content BOM = false →
          preprocess content = decode_utf8 content ∧
          _read_json_loose content = json_loads content ∧
          _read_json_loose content = json_load content) as Hsame.
  { intros Hbom. unfold _read_json_loose.
    rewrite (preprocess_pattern_free content Hbom Hfree).
    fold (json_load content). by rewrite Hstrict. }
  split_and!; [|done|apply universal_newlines_id].
  intros v Hv. destruct (startswith content BOM) eqn:E.
  - rewrite (json_loads_bom content E) in Hv. discriminate.
  - destruct (Hsame eq_refl) as (? & -> & _). by rewrite Hstrict.
Qed.

Lemma C4_loose_reader_on_pattern_free_text_witness :
  (preprocess url_document = url_document ∧
   _read_json_loose url_document = Some (JDict [("url", JStr "http://x/*y")])) ∧
  (preprocess crlf_document = "[1," +:+ NL +:+ "2]" ∧
   _read_json_loose crlf_document = Some (JList [JInt 1; JInt 2])).
Proof.
  split.
  - assert (pattern_free url_document = true) as Hfree by by vm_compute.
    assert (json_loads url_document = Some (JDict [("url", JStr "http://x/*y")]))
      as Hv by by vm_compute.
    destruct (proj1 (C4_loose_reader_on_pattern_free_text url_document Hfree) _ Hv)
      as (Hpre & Hread & _).
    split; [exact Hpre|exact Hread].
  - assert (pattern_free crlf_document = true) as Hfree by by vm_compute.
    assert (json_loads crlf_document = Some (JList [JInt 1; JInt 2]))
      as Hv by by vm_compute.
    destruct (proj1 (C4_loose_reader_on_pattern_free_text crlf_document Hfree) _ Hv)
      as (Hpre & Hread & _).
    split; [exact Hpre|exact Hread].
Defined.

(** C4, the claim as stated: a block comment, a [//] after a blank, or a
    comma before a bracket inside a quoted text is rewritten like one
    outside, so the loose reader returns another text than the strict
    reader, or fails. *)
Lemma C4_quoted_text_is_rewritten :
  (json_loads block_in_text = Some (JList [JStr "a/*b*/c"]) ∧
   _read_json_loose block_in_text = Some (JList [JStr "ac"])) ∧
  (json_loads slashes_in_text = Some (JList [JStr "see // x"]) ∧
   _read_json_loose slashes_in_text = None) ∧
  (json_loads comma_in_text = Some (JList [JStr "a,]"]) ∧
   _read_json_loose comma_in_text = Some (JList [JStr "a]"])).
Proof. by vm_compute. Qed.

(** * Further properties *)

(** ** Trimmed texts and canonical letters *)

Lemma rstrip_idem s : rstrip (rstrip s) = rstrip s.
Proof.
  induction s as [|c r IH]; [done|]. simpl.
  destruct (rstrip r) as [|c' r'] eqn:Hr.
  - destruct (is_space c) eqn:Hc; [done|]. simpl. by rewrite Hc.
  - change (rstrip (String c (String c' r')))
      with (match rstrip (String c' r') with
            | EmptyString => if is_space c then EmptyString else String c EmptyString
            | x => String c x
            end).
    by rewrite IH.
Qed.

Lemma lstrip_head s :
  lstrip s = "" ∨ ∃ c r, lstrip s = String c r ∧ is_space c = false.
Proof.
  induction s as [|c r IH]; [by left|]. simpl.
  destruct (is_space c) eqn:Hc; [done|]. right. eauto.
Qed.

Lemma strip_idem s : strip (strip s) = strip s.
Proof.
  unfold strip. destruct (lstrip_head s) as [->|(c & r & -> & Hc)]; [done|].
  destruct (rstrip_head c r Hc) as [r' Hr']. rewrite Hr'.
  cbn [lstrip]. rewrite Hc, <- Hr'. apply rstrip_idem.
Qed.

Lemma scan_letter_range s : letter_ok (scan_letter s).
Proof.
  induction s as [|c r IH]; [by left|]. simpl.
  destruct (is_choice c) eqn:Hc; [|done].
  right. by apply bool_decide_eq_true in Hc.
Qed.

Lemma extract_correct_letter_range v : letter_ok (extract_correct_letter v).
Proof. destruct v; try by left. apply scan_letter_range. Qed.

Lemma letter_ok_cases letter :
  letter_ok letter → letter = "" ∨ letter = "A" ∨ letter = "B" ∨ letter = "C" ∨ letter = "D".
Proof.
  intros [->|H]; [by left|]. right. unfold LETTER_CHOICES in H.
  repeat (apply elem_of_cons in H as [->|H]; [tauto|]).
  by apply elem_of_nil in H.
Qed.

(** X1: whatever the answer field, the letter [extract_correct_letter]
    returns is empty or one of A, B, C, D, and normalising that letter again
    returns it unchanged. *)
Theorem X1_extracted_letter_is_canonical (v : json) :
  (extract_correct_letter v = "" ∨ extract_correct_letter v ∈ LETTER_CHOICES) ∧
  extract_correct_letter (JStr (extract_correct_letter v)) = extract_correct_letter v.
Proof.
  pose proof (extract_correct_letter_range v) as H. split; [exact H|].
  apply letter_ok_cases in H. by destruct H as [->|[->|[->|[->| ->]]]].
Qed.

(** ** Records and loaded quizzes *)

Lemma display_options_ok d : options_ok (display_options d).
Proof.
  unfold display_options.
  destruct (dict_get "options" d) as [[| | | | |opts|]|]; try exact I.
  case_bool_decide as Hlen; [|exact I]. split.
  - rewrite length_zip_with, length_take.
    change (length LETTER_CHOICES) with 4%nat. lia.
  - intros i letter o Hletter Ho.
    apply lookup_zip_with_Some in Ho as (l' & opt & -> & Hl' & _).
    assert (l' = letter) as -> by congruence.
    apply label_option_labelled. by eapply list_elem_of_lookup_2.
Qed.

Lemma display_options_is_Some d :
  is_Some (display_options d) ↔
  ∃ opts, dict_get "options" d = Some (JList opts) ∧ (4 ≤ length opts)%nat.
Proof.
  unfold display_options. split.
  - intros [shown H].
    destruct (dict_get "options" d) as [[| | | | |opts|]|]; try discriminate.
    case_bool_decide; [|discriminate]. eauto.
  - intros (opts & -> & Hlen). rewrite bool_decide_eq_true_2 by done. eauto.
Qed.

Lemma build_record_ok item r : build_record item = Some r → record_ok r.
Proof.
  destruct item as [| | | | | |d]; try discriminate. simpl.
  destruct (dict_get "question" d), (dict_get "answer" d); try discriminate.
  intros [= <-]. split_and!; simpl.
  - apply strip_idem.
  - apply extract_correct_letter_range.
  - apply display_options_ok.
Qed.

Lemma omap_build_ok items : Forall record_ok (omap build_record items).
Proof.
  induction items as [|x items IH]; simpl; [constructor|].
  destruct (build_record x) eqn:Hx; [|done].
  constructor; [by eapply build_record_ok|done].
Qed.

Lemma length_omap_build items :
  (length (omap build_record items) ≤ length items)%nat.
Proof.
  induction items as [|x items IH]; [done|].
  change (omap build_record (x :: items))
    with (match build_record x with
          | Some y => y :: omap build_record items
          | None => omap build_record items
          end).
  destruct (build_record x); cbn [length]; lia.
Qed.

(** X2: the parser treats every entry on its own: the records of a list
    put together from two lists are the records of the first followed by
    those of the second, and there are never more records than entries. *)
Theorem X2_parser_works_entry_by_entry (first second : list json) :
  _parse_questions_list (first ++ second) =
    _parse_questions_list first ++ _parse_questions_list second ∧
  (length (_parse_questions_list first) ≤ length first)%nat.
Proof.
  rewrite !parse_questions_list_omap. split.
  - apply omap_app.
  - apply length_omap_build.
Qed.

(** X3: an entry with the keys "question" and "answer" always builds a
    record, whatever else it holds.  The record's question is the trimmed
    text of the question (trimming it again changes nothing), its letter is
    empty or one of the four, and it has options exactly when the entry has
    a list of at least four under "options"; then they are four texts, each
    starting with its letter, in either case, and a closing parenthesis. *)
Theorem X3_built_record_is_normalised (d : list (string * json)) (q ans : json) :
  dict_get "question" d = Some q →
  dict_get "answer" d = Some ans →
  ∃ r, build_record (JDict d) = Some r ∧
       question r = strip (py_str q) ∧ strip (question r) = question r ∧
       answer_letter r = extract_correct_letter ans ∧
       (answer_letter r = "" ∨ answer_letter r ∈ LETTER_CHOICES) ∧
       (is_Some (options r) ↔
        ∃ opts, dict_get "options" d = Some (JList opts) ∧ (4 ≤ length opts)%nat) ∧
       (∀ shown, options r = Some shown →
          length shown = 4%nat ∧
          ∀ i letter o, LETTER_CHOICES !! i = Some letter → shown !! i = Some o →
                        startswith (upper o) (letter +:+ ")") = true).
Proof.
  intros Hq Ha. eexists. simpl. rewrite Hq, Ha. split; [reflexivity|]. simpl.
  split_and!; try done.
  - apply strip_idem.
  - apply extract_correct_letter_range.
  - apply display_options_is_Some.
  - intros shown Hshown. pose proof (display_options_ok d) as H.
    by rewrite Hshown in H.
Qed.

Lemma X3_built_record_is_normalised_witness :
  ∃ r, build_record (JDict [("question", JStr "  What?  "); ("answer", JInt 3);
                            ("options", JList [JStr "x"; JStr "y"; JStr "z"])]) = Some r ∧
       question r = "What?" ∧ answer_letter r = "" ∧ options r = None.
Proof.
  destruct (X3_built_record_is_normalised
              [("question", JStr "  What?  "); ("answer", JInt 3);
               ("options", JList [JStr "x"; JStr "y"; JStr "z"])]
              (JStr "  What?  ") (JInt 3) eq_refl eq_refl)
    as (r & Hr & Hq & _ & Ha & _).
  exists r. split; [exact Hr|].
  vm_compute in Hr. injection Hr as <-. by vm_compute.
Defined.

Lemma commit_returns q parsed l s self :
  commit (q :: parsed) l s self =
  (mk_app (q :: parsed) ∅ 0 (metadata self) (default (learning_mode self) l)
          (default (slides_mode self) s) "",
   Returned).
Proof.
  unfold commit, load_question, total. cbn [questions length].
  rewrite bool_decide_eq_true_2 by lia. done.
Qed.

(** A failed load changes nothing but the metadata. *)
Lemma failed_load_state data self msg :
  (_load_from_data data self).2 = ValueError msg →
  ∃ md, (_load_from_data data self).1 = with_metadata md self.
Proof.
  destruct data as [| | | | |items|d]; simpl; try by (intros _; eexists).
  - destruct (_parse_questions_list items) as [|r rs]; [by eexists|].
    by rewrite commit_returns.
  - destruct (dict_get "questions" d) as [[| | | | |items|]|]; simpl;
      try by (intros _; eexists).
    destruct (_parse_questions_list items) as [|r rs].
    + intros _. destruct (default (JDict []) (dict_get "metadata" d));
        by eexists.
    + by rewrite commit_returns.
Qed.

(** What a load that returns leaves behind. *)
Lemma returned_load_state data self self' :
  _load_from_data data self = (self', Returned) →
  ∃ q parsed md lm sm,
    self' = mk_app (q :: parsed) ∅ 0 md lm sm "" ∧
    ∃ items, entries data = Some items ∧ q :: parsed = omap build_record items.
Proof.
  intros H. destruct (entries data) as [items|] eqn:He.
  - destruct (load_from_entries data items self He) as (l & s & self0 & _ & _ & _ & Hl).
    rewrite Hl in H. destruct (omap build_record items) as [|q parsed] eqn:Hp;
      [discriminate|].
    rewrite commit_returns in H. injection H as <-. eauto 10.
  - destruct (load_without_entries data self He) as [msg Hmsg].
    rewrite H in Hmsg. discriminate.
Qed.

Lemma count_if_none {A} (p : A → bool) l :
  (∀ x, x ∈ l → p x = false) → count_if p l = 0.
Proof.
  induction l as [|y l IH]; intros H; simpl; [done|].
  rewrite (H y) by apply list_elem_of_here.
  rewrite IH; [done|]. intros x Hx. apply H. by apply list_elem_of_further.
Qed.

(** X4: after a load that returns, the quiz is not empty, every question
    is normalised, no answer is recorded, the first question is current and
    no radio button is selected; the progress reads 0 of n at question 1,
    "Jump to Unanswered" would stay on the first question, "Previous" is
    disabled and "Next" is enabled exactly when there is a second
    question. *)
Theorem X4_loaded_quiz_starts_fresh (data : json) (self self' : QuizApp) :
  _load_from_data data self = (self', Returned) →
  questions self' ≠ [] ∧
  (∃ items, entries data = Some items ∧ questions self' = omap build_record items) ∧
  Forall record_ok (questions self') ∧
  user_answers self' = ∅ ∧ current_index self' = 0 ∧ choice_var self' = "" ∧
  progress self' = (0, total self', 1) ∧
  first_unanswered self' = Some 0 ∧
  update_navigation_state self' = (false, bool_decide (1 < total self')).
Proof.
  intros H.
  destruct (returned_load_state data self self' H)
    as (q & parsed & md & lm & sm & -> & items & He & Hp).
  split_and!; try done.
  - eauto.
  - cbn [questions]. rewrite Hp. apply omap_build_ok.
  - unfold progress, total. cbn [questions user_answers current_index].
    rewrite count_if_none; [by rewrite bool_decide_eq_true_2 by (simpl; lia)|].
    intros i _. unfold answered. by rewrite lookup_empty.
  - unfold first_unanswered, total. cbn [questions user_answers length].
    rewrite seqZ_cons by lia. done.
  - unfold update_navigation_state, total. cbn [questions current_index fst snd].
    f_equal. apply bool_decide_ext. simpl. lia.
Qed.

Lemma X4_loaded_quiz_starts_fresh_witness :
  progress loaded = (0, 2, 1) ∧ update_navigation_state loaded = (false, true).
Proof.
  destruct (X4_loaded_quiz_starts_fresh two_questions init loaded)
    as (_ & _ & _ & _ & _ & _ & Hp & _ & Hn).
  - by vm_compute.
  - split; [exact Hp|exact Hn].
Defined.

(** X5: the two modes survive a load unless the document sets them.  A
    list document, and an object document without "config", leave both as
    they were; an object whose config holds a boolean under
    learning_mode.instant_feedback or slides_mode.enabled sets that
    mode to it; a value there that is no boolean is ignored.  The metadata
    after such a load are the mapping under "metadata", or empty. *)
Theorem X5_load_sets_modes_only_from_config
  (data : json) (self self' : QuizApp) :
  _load_from_data data self = (self', Returned) →
  match data with
  | JDict d =>
      metadata self' =
        match dict_get "metadata" d with Some (JDict md) => md | _ => [] end ∧
      match dict_get "config" d with
      | Some (JDict cfg) =>
          learning_mode self' =
            match dict_get "learning_mode" cfg with
            | Some (JDict lm) =>
                match dict_get "instant_feedback" lm with
                | Some (JBool b) => b
                | _ => learning_mode self
                end
            | _ => learning_mode self
            end ∧
          slides_mode self' =
            match dict_get "slides_mode" cfg with
            | Some (JDict sm) =>
                match dict_get "enabled" sm with
                | Some (JBool b) => b
                | _ => slides_mode self
                end
            | _ => slides_mode self
            end
      | _ => learning_mode self' = learning_mode self ∧
             slides_mode self' = slides_mode self
      end
  | _ => metadata self' = [] ∧ learning_mode self' = learning_mode self ∧
         slides_mode self' = slides_mode self
  end.
Proof.
  destruct data as [| | | | |items|d]; simpl; try discriminate.
  - destruct (_parse_questions_list items) as [|q parsed]; [discriminate|].
    rewrite commit_returns. by intros [= <-].
  - destruct (dict_get "questions" d) as [[| | | | |items|]|]; try discriminate.
    destruct (_parse_questions_list items) as [|q parsed].
    { rewrite commit_nil. discriminate. }
    rewrite commit_returns. intros [= <-]. cbn [metadata learning_mode slides_mode].
    split.
    + by destruct (dict_get "metadata" d) as [[| | | | | |md]|].
    + destruct (dict_get "config" d) as [[| | | | | |cfg]|]; simpl;
        try by destruct (dict_get "metadata" d) as [[| | | | | |md]|].
      unfold config_flag. split.
      * destruct (dict_get "learning_mode" cfg) as [[| | | | | |lm]|]; simpl;
          try by destruct (dict_get "metadata" d) as [[| | | | | |md]|].
        destruct (dict_get "instant_feedback" lm) as [[|b| | | | |]|]; simpl;
          by destruct (dict_get "metadata" d) as [[| | | | | |md]|].
      * destruct (dict_get "slides_mode" cfg) as [[| | | | | |sm]|]; simpl;
          try by destruct (dict_get "metadata" d) as [[| | | | | |md]|].
        destruct (dict_get "enabled" sm) as [[|b| | | | |]|]; simpl;
          by destruct (dict_get "metadata" d) as [[| | | | | |md]|].
Qed.

Lemma X5_load_sets_modes_only_from_config_witness :
  learning_mode
    (_load_from_data
       (JDict [("questions", JList [entry "Q" "A"]);
               ("config", JDict [("learning_mode",
                                  JDict [("instant_feedback", JBool true)]);
                                 ("slides_mode", JDict [("enabled", JInt 1)])])])
       init).1 = true ∧
  slides_mode
    (_load_from_data
       (JDict [("questions", JList [entry "Q" "A"]);
               ("config", JDict [("learning_mode",
                                  JDict [("instant_feedback", JBool true)]);
                                 ("slides_mode", JDict [("enabled", JInt 1)])])])
       init).1 = false.
Proof.
  pose proof (X5_load_sets_modes_only_from_config
    (JDict [("questions", JList [entry "Q" "A"]);
            ("config", JDict [("learning_mode",
                               JDict [("instant_feedback", JBool true)]);
                              ("slides_mode", JDict [("enabled", JInt 1)])])])
    init _ eq_refl) as H.
  cbn [dict_get bool_decide decide_rel] in H. vm_compute in H.
  destruct H as (_ & Hl & Hs). split; by vm_compute.
Defined.

(** ** Recording and navigating *)

(** X6: recording an answer stores it for the current question and for no
    other, and leaves the quiz and the position alone; a second answer
    replaces the first; and showing the current question again changes
    nothing, as its radio button already carries the stored answer. *)
Theorem X6_recorded_answer_is_stored (first second : string) (self : QuizApp) :
  user_answers (choose first self) !! current_index self = Some first ∧
  (∀ j, j ≠ current_index self →
        user_answers (choose first self) !! j = user_answers self !! j) ∧
  questions (choose first self) = questions self ∧
  current_index (choose first self) = current_index self ∧
  choose second (choose first self) = choose second self ∧
  load_question (current_index self) (choose first self) = choose first self.
Proof.
  split_and!; try done.
  - simpl. apply lookup_insert_eq.
  - intros j Hj. simpl. by apply lookup_insert_ne.
  - unfold choose, record_choice, with_user_answers, with_choice_var. simpl.
    by rewrite insert_insert_eq.
  - unfold load_question. case_bool_decide; [|done].
    unfold choose, record_choice, with_user_answers, with_choice_var,
      with_current_index. simpl. by rewrite lookup_insert_eq.
Qed.

Lemma next_question_state self :
  0 ≤ current_index self + 1 < total self →
  next_question self =
  mk_app (questions self) (user_answers self) (current_index self + 1)
         (metadata self) (learning_mode self) (slides_mode self)
         (default "" (user_answers self !! (current_index self + 1))).
Proof.
  intros H. unfold next_question, load_question.
  rewrite bool_decide_eq_true_2 by lia. cbn zeta.
  unfold total in *. simpl. by rewrite bool_decide_eq_true_2 by lia.
Qed.

Lemma prev_question_state self :
  0 ≤ current_index self - 1 → current_index self - 1 < total self →
  prev_question self =
  mk_app (questions self) (user_answers self) (current_index self - 1)
         (metadata self) (learning_mode self) (slides_mode self)
         (default "" (user_answers self !! (current_index self - 1))).
Proof.
  intros H1 H2. unfold prev_question, load_question.
  rewrite bool_decide_eq_true_2 by lia. cbn zeta.
  unfold total in *. simpl. by rewrite bool_decide_eq_true_2 by lia.
Qed.

(** X7: away from the edges "Next" and "Previous" undo each other.  When
    the radio buttons show the stored answer of the current question, going
    to the next question and back, or to the previous one and forth, gives
    the state one started from, selection included. *)
Theorem X7_next_and_previous_undo_each_other (self : QuizApp) :
  choice_var self = default "" (user_answers self !! current_index self) →
  (0 ≤ current_index self < total self - 1 →
   prev_question (next_question self) = self) ∧
  (0 < current_index self < total self →
   next_question (prev_question self) = self).
Proof.
  intros Hmirror. split; intros Hin.
  - rewrite (next_question_state self) by lia.
    rewrite prev_question_state by (unfold total in *; simpl; lia).
    destruct self. simpl in *. subst.
    by replace (current_index0 + 1 - 1) with current_index0 by lia.
  - rewrite (prev_question_state self) by lia.
    rewrite next_question_state by (unfold total in *; simpl; lia).
    destruct self. simpl in *. subst.
    by replace (current_index0 - 1 + 1) with current_index0 by lia.
Qed.

Lemma X7_next_and_previous_undo_each_other_witness :
  prev_question (next_question (choose "B" loaded)) = choose "B" loaded.
Proof.
  apply (X7_next_and_previous_undo_each_other (choose "B" loaded)).
  - by vm_compute.
  - by vm_compute.
Defined.

Lemma count_if_bounds {A} (p : A → bool) l :
  0 ≤ count_if p l ≤ Z.of_nat (length l).
Proof.
  induction l as [|x l IH]; simpl; [lia|]. destruct (p x); lia.
Qed.

Lemma count_if_all {A} (p : A → bool) l :
  count_if p l = Z.of_nat (length l) ↔ ∀ x, x ∈ l → p x = true.
Proof.
  induction l as [|y l IH]; simpl.
  - split; [|done]. intros _ x Hx. by apply elem_of_nil in Hx.
  - pose proof (count_if_bounds p l) as Hb. destruct (p y) eqn:Hy.
    + split.
      * intros H x [->|Hx]%elem_of_cons; [done|]. apply IH; [lia|done].
      * intros H. assert (count_if p l = Z.of_nat (length l)) as ->; [|lia].
        apply IH. intros x Hx. apply H. by apply list_elem_of_further.
    + split; [lia|]. intros H. specialize (H y (list_elem_of_here _ _)). congruence.
Qed.

Lemma count_if_le {A} (p q : A → bool) l :
  (∀ x, x ∈ l → p x = true → q x = true) → count_if p l ≤ count_if q l.
Proof.
  induction l as [|y l IH]; intros H; simpl; [lia|].
  assert (count_if p l ≤ count_if q l) as Hl.
  { apply IH. intros x Hx. apply H. by apply list_elem_of_further. }
  destruct (p y) eqn:Hp.
  - rewrite (H y (list_elem_of_here _ _) Hp). lia.
  - destruct (q y); lia.
Qed.

Lemma count_if_map {A B} (f : A → B) (p : B → bool) l :
  count_if p (map f l) = count_if (λ x, p (f x)) l.
Proof. induction l as [|y l IH]; simpl; by rewrite ?IH. Qed.

(** X8: the answered count that [progress_text] prints lies between 0 and
    the number of questions, reaches that number exactly when
    "Jump to Unanswered" finds nothing, and the question number it prints
    is the position counted from one. *)
Theorem X8_progress_counts_are_bounded (self : QuizApp) :
  0 ≤ (progress self).1.1 ≤ total self ∧
  ((progress self).1.1 = total self ↔ first_unanswered self = None) ∧
  (progress self).1.2 = total self ∧
  (questions self ≠ [] → (progress self).2 = current_index self + 1).
Proof.
  unfold progress. cbn [fst snd].
  assert (Z.of_nat (length (seqZ 0 (total self))) = total self) as Hlen.
  { rewrite length_seqZ. unfold total. lia. }
  split_and!.
  - pose proof (count_if_bounds (answered (user_answers self)) (seqZ 0 (total self))).
    lia.
  - pose proof (count_if_bounds (answered (user_answers self)) (seqZ 0 (total self))).
    lia.
  - pose proof (count_if_all (answered (user_answers self)) (seqZ 0 (total self)))
      as Hcount. rewrite Hlen in Hcount. rewrite Hcount.
    pose proof (first_unanswered_spec self) as Hf.
    destruct (first_unanswered self) as [i|].
    + destruct Hf as (Hi & Hno & _). split; [|done]. intros Hall.
      rewrite (Hall i) in Hno; [done|]. apply elem_of_seqZ. lia.
    + split; [done|]. intros _ i Hi%elem_of_seqZ. apply Hf. lia.
  - done.
  - intros Hne. rewrite bool_decide_eq_true_2; [done|].
    unfold total. destruct (questions self); [done|]. simpl. lia.
Qed.

(** X9: with the position inside the quiz (or at 0 without a quiz), a
    navigation button is enabled exactly when its operation moves: "Next"
    enabled means [next_question] goes one question on, disabled means it
    leaves the state as it is, and likewise for "Previous". *)
Theorem X9_buttons_tell_whether_navigation_moves (self : QuizApp) :
  0 ≤ current_index self < Z.max 1 (total self) →
  (if (update_navigation_state self).2
   then current_index (next_question self) = current_index self + 1
   else next_question self = self) ∧
  (if (update_navigation_state self).1
   then current_index (prev_question self) = current_index self - 1
   else prev_question self = self).
Proof.
  intros Hin. unfold update_navigation_state.
  destruct (questions self) as [|q qs] eqn:Hq; cbn [fst snd].
  - assert (total self = 0) as Ht by (unfold total; by rewrite Hq).
    split; [apply next_question_at_end|apply prev_question_at_start]; lia.
  - assert (0 < total self) as Ht by (unfold total; rewrite Hq; simpl; lia).
    split; case_bool_decide.
    + apply next_question_inside. lia.
    + apply next_question_at_end. lia.
    + apply prev_question_inside. lia.
    + apply prev_question_at_start. lia.
Qed.

Lemma X9_buttons_tell_whether_navigation_moves_witness :
  current_index (next_question loaded) = 1 ∧ prev_question loaded = loaded.
Proof.
  assert (0 ≤ current_index loaded < Z.max 1 (total loaded)) as H by (by vm_compute).
  pose proof (X9_buttons_tell_whether_navigation_moves loaded H) as [Hn Hp].
  split; [exact Hn|exact Hp].
Defined.

(** X10: when "Jump to Unanswered" finds a question, that question has no
    answer or the empty one, so no radio button is selected after the jump,
    and jumping again stays there. *)
Theorem X10_jump_lands_on_an_open_question (self : QuizApp) (i : Z) :
  first_unanswered self = Some i →
  current_index (jump_unanswered self).1 = i ∧
  answered (user_answers self) i = false ∧
  choice_var (jump_unanswered self).1 = "" ∧
  jump_unanswered (jump_unanswered self).1 = jump_unanswered self.
Proof.
  intros Hf. pose proof (first_unanswered_spec self) as Hspec.
  rewrite Hf in Hspec. destruct Hspec as (Hi & Hno & _).
  set (landed := mk_app (questions self) (user_answers self) i (metadata self)
                        (learning_mode self) (slides_mode self) "").
  assert (∀ c k, load_question i
                   (mk_app (questions self) (user_answers self) k (metadata self)
                           (learning_mode self) (slides_mode self) c) = landed)
    as Hload.
  { intros c k. unfold load_question, total. cbn [questions].
    rewrite bool_decide_eq_true_2 by (unfold total in Hi; lia).
    unfold with_choice_var, with_current_index, landed. simpl. f_equal.
    unfold answered in Hno. by destruct (user_answers self !! i) as [[|]|]. }
  assert (jump_unanswered self = (landed, false)) as Hjump.
  { unfold jump_unanswered. rewrite Hf. f_equal. apply Hload. }
  rewrite Hjump. cbn [fst]. split_and!; try done.
  unfold jump_unanswered.
  change (first_unanswered landed) with (first_unanswered self). rewrite Hf.
  f_equal. apply Hload.
Qed.

Lemma X10_jump_lands_on_an_open_question_witness :
  current_index (jump_unanswered (choose "B" loaded)).1 = 1 ∧
  choice_var (jump_unanswered (choose "B" loaded)).1 = "".
Proof.
  destruct (X10_jump_lands_on_an_open_question (choose "B" loaded) 1)
    as (Hc & _ & Hv & _).
  - by vm_compute.
  - split; [exact Hc|exact Hv].
Defined.

(** ** States the window reaches *)

Lemma py_index_in_range {A} (l : list A) i :
  0 ≤ i < Z.of_nat (length l) → ∃ x, py_index l i = Some x ∧ l !! Z.to_nat i = Some x.
Proof.
  intros H. unfold py_index. rewrite bool_decide_eq_true_2 by done.
  destruct (lookup_lt_is_Some_2 l (Z.to_nat i)) as [x Hx]; [lia|]. eauto.
Qed.

Lemma state_ok_init : state_ok init.
Proof.
  unfold state_ok, init, total. simpl. split_and!; done.
Qed.

Lemma state_ok_open content self : state_ok self → state_ok (open_json content self).1.
Proof.
  intros Hok. unfold open_json.
  destruct (_read_json_loose content) as [data|]; [|done].
  destruct (_load_from_data data self) as [self' [|msg]] eqn:E; cbn [fst].
  - destruct (returned_load_state data self self' E)
      as (q & parsed & md & lm & sm & -> & items & _ & Hp).
    unfold state_ok, total. simpl. split_and!; try done; try lia.
    rewrite Hp. apply omap_build_ok.
  - destruct (failed_load_state data self msg) as [md Hmd]; [by rewrite E|].
    rewrite E in Hmd. simpl in Hmd. by subst.
Qed.

Lemma state_ok_choose letter self :
  letter ∈ LETTER_CHOICES → state_ok self → state_ok (choose letter self).
Proof.
  intros Hl (Hrange & Hmirror & Hanswers & Hqs).
  unfold state_ok, total in *. simpl.
  split; [done|]. split; [by rewrite lookup_insert_eq|]. split; [|done].
  intros i a [[<- <-]|[_ Hi]]%lookup_insert_Some; [done|]. by apply Hanswers.
Qed.

Lemma state_ok_next self : state_ok self → state_ok (next_question self).
Proof.
  intros Hok. destruct (decide (current_index self < total self - 1)) as [Hlt|Hge].
  - destruct Hok as (Hrange & Hmirror & Hanswers & Hqs).
    rewrite next_question_state by lia.
    unfold state_ok, total in *. simpl. split_and!; try done; lia.
  - by rewrite next_question_at_end by lia.
Qed.

Lemma state_ok_prev self : state_ok self → state_ok (prev_question self).
Proof.
  intros Hok. destruct (decide (0 < current_index self)) as [Hlt|Hge].
  - destruct Hok as (Hrange & Hmirror & Hanswers & Hqs).
    rewrite prev_question_state by lia.
    unfold state_ok, total in *. simpl. split_and!; try done; lia.
  - by rewrite prev_question_at_start by lia.
Qed.

Lemma state_ok_jump self : state_ok self → state_ok (jump_unanswered self).1.
Proof.
  intros Hok. pose proof (first_unanswered_spec self) as Hspec.
  unfold jump_unanswered. destruct (first_unanswered self) as [i|]; [|done].
  destruct Hspec as (Hi & _ & _). destruct Hok as (Hrange & Hmirror & Hanswers & Hqs).
  cbn [fst]. unfold load_question.
  rewrite bool_decide_eq_true_2 by (unfold total in *; simpl; lia).
  unfold state_ok, total in *. simpl. split_and!; try done; lia.
Qed.

Lemma state_ok_handle e self : state_ok self → state_ok (handle e self).
Proof.
  intros Hok. destruct e as [content|i| | | | | |]; simpl.
  - by apply state_ok_open.
  - destruct (LETTER_CHOICES !! i) as [letter|] eqn:Hi; [|done].
    apply state_ok_choose; [|done]. by eapply list_elem_of_lookup_2.
  - by apply state_ok_next.
  - by apply state_ok_prev.
  - by apply state_ok_jump.
  - done.
  - done.
  - done.
Qed.

Lemma state_ok_run_from events self :
  state_ok self → state_ok (fold_left (λ s e, handle e s) events self).
Proof.
  revert self. induction events as [|e events IH]; intros self Hok; [done|].
  simpl. apply IH. by apply state_ok_handle.
Qed.

Lemma state_ok_run events : state_ok (run events).
Proof. apply state_ok_run_from, state_ok_init. Qed.

(** X11: whatever the user does in the window, from its start on: the
    position is inside the quiz (0 before a quiz is loaded), the radio
    buttons show the answer stored for the current question, every stored
    answer is one of the four letters at a position inside the quiz, every
    question is normalised, and the look-ups of the current question in
    [update_answer_visibility] and [update_option_colors] never fail. *)
Theorem X11_reachable_states_are_consistent (events : list event) :
  0 ≤ current_index (run events) < Z.max 1 (total (run events)) ∧
  choice_var (run events) =
    default "" (user_answers (run events) !! current_index (run events)) ∧
  (∀ i a, user_answers (run events) !! i = Some a →
          0 ≤ i < Z.max 1 (total (run events)) ∧ a ∈ LETTER_CHOICES) ∧
  Forall record_ok (questions (run events)) ∧
  is_Some (update_answer_visibility (run events)) ∧
  (∀ fg, is_Some (update_option_colors (run events) fg)).
Proof.
  destruct (state_ok_run events) as (Hrange & Hmirror & Hanswers & Hqs).
  split_and!; try done; try lia.
  - unfold update_answer_visibility.
    destruct (questions (run events)) as [|q qs] eqn:Hq; [by eexists|].
    destruct (py_index_in_range (q :: qs) (current_index (run events)))
      as (x & -> & _).
    { unfold total in Hrange. rewrite Hq in Hrange. simpl in *. lia. }
    by destruct (slides_mode (run events)).
  - intros fg. unfold update_option_colors.
    destruct (questions (run events)) as [|q qs] eqn:Hq; [by eexists|].
    destruct (py_index_in_range (q :: qs) (current_index (run events)))
      as (x & -> & _).
    { unfold total in Hrange. rewrite Hq in Hrange. simpl in *. lia. }
    destruct (negb (learning_mode (run events))); [by eexists|].
    by destruct (_ || _).
Qed.

(** ** Scores *)

Lemma elem_of_enumerate_from {A} (l : list A) k i x :
  (i, x) ∈ enumerate_from k l → ∃ n, i = k + Z.of_nat n ∧ l !! n = Some x.
Proof.
  revert k. induction l as [|y l IH]; intros k; simpl.
  - by intros ?%elem_of_nil.
  - intros [[= -> ->]|H]%elem_of_cons.
    + exists 0%nat. split; [lia|done].
    + apply IH in H as (n & -> & Hn). exists (S n). split; [lia|done].
Qed.

Lemma length_enumerate_from {A} (l : list A) k :
  length (enumerate_from k l) = length l.
Proof. revert k. induction l as [|y l IH]; intros k; simpl; by rewrite ?IH. Qed.

(** The count of correct answers in the earlier revisions. *)
Lemma demo_count self :
  (fold_left (demo_score_step (user_answers self))
             (enumerate_from 0 (questions self)) (0, [])).1 =
  count_if (λ iq, demo_is_correct (user_answers self) iq.1 iq.2)
           (enumerate_from 0 (questions self)).
Proof. rewrite demo_score_loop_from. cbn [fst]. lia. Qed.

Lemma main_count self :
  (score_loop self).1 =
  count_if (λ iq, is_ok (user_answers self) iq.1 iq.2)
           (enumerate_from 0 (questions self)).
Proof. unfold score_loop. rewrite score_loop_from. cbn [fst]. lia. Qed.

Lemma marks_agree ua i q :
  letter_ok (answer_letter q) →
  (∀ a, ua !! i = Some a → a ∈ LETTER_CHOICES) →
  is_ok ua i q = demo_is_correct ua i q.
Proof.
  intros Hl%letter_ok_cases Ha. unfold is_ok, demo_is_correct.
  destruct (ua !! i) as [a|] eqn:Hi; simpl.
  - specialize (Ha a eq_refl).
    assert (a ≠ "") as Hne.
    { intros ->. unfold LETTER_CHOICES in Ha.
      repeat (apply elem_of_cons in Ha as [?|Ha]; [done|]).
      by apply elem_of_nil in Ha. }
    destruct (answer_letter q) as [|c r] eqn:Hq; simpl; [|done].
    by rewrite bool_decide_eq_false_2.
  - by destruct Hl as [->|[->|[->|[->| ->]]]].
Qed.



(** X12: in every state the window reaches, the scoring of
    [src/quiz_app.py] and that of the earlier revisions mark the same
    questions as correct and count the same score: the two differ only on a
    stored answer that is empty, and the radio buttons never store one. *)
Theorem X12_revisions_score_alike_on_reachable_states (events : list event) :
  (∀ i q, q ∈ questions (run events) →
     is_ok (user_answers (run events)) i q =
     demo_is_correct (user_answers (run events)) i q) ∧
  (score_loop (run events)).1 =
    (fold_left (demo_score_step (user_answers (run events)))
               (enumerate_from 0 (questions (run events))) (0, [])).1.
Proof.
  destruct (state_ok_run events) as (_ & _ & Hanswers & Hqs).
  assert (∀ i q, q ∈ questions (run events) →
            is_ok (user_answers (run events)) i q =
            demo_is_correct (user_answers (run events)) i q) as Hagree.
  { intros i q Hq. rewrite Forall_forall in Hqs.
    apply marks_agree; [by apply Hqs|]. intros a Ha. by apply (Hanswers i). }
  split; [done|]. rewrite main_count, demo_count.
  apply count_if_ext. intros [i q] Hiq. cbn [fst snd].
  apply Hagree. apply elem_of_enumerate_from in Hiq as (n & _ & Hn).
  by eapply list_elem_of_lookup_2.
Qed.

(** X13: in every state the score of [src/quiz_app.py] lies between 0 and
    the number of questions, and its report has one row per question; the
    score of the earlier revisions is at most the answered count that
    [progress_text] prints. *)
Theorem X13_score_is_bounded (self : QuizApp) :
  0 ≤ (score_loop self).1 ≤ total self ∧
  length (score_loop self).2 = S (length (questions self)) ∧
  0 ≤ (fold_left (demo_score_step (user_answers self))
                 (enumerate_from 0 (questions self)) (0, [])).1
    ≤ (progress self).1.1.
Proof.
  rewrite main_count, demo_count. split_and!.
  - apply count_if_bounds.
  - etrans; [apply count_if_bounds|].
    rewrite length_enumerate_from. unfold total. lia.
  - unfold score_loop. rewrite score_loop_from. cbn [snd].
    rewrite length_app, length_map, length_enumerate_from. simpl. lia.
  - apply count_if_bounds.
  - unfold progress. cbn [fst].
    unfold total. rewrite <- (enumerate_from_fst (questions self) 0), count_if_map.
    apply count_if_le. intros [i q] _. cbn [fst snd].
    intros (Hi & Hne)%demo_is_correct_spec. unfold answered. rewrite Hi.
    by destruct (answer_letter q).
Qed.

Lemma returned_load_questions_ok data self self' :
  _load_from_data data self = (self', Returned) →
  Forall record_ok (questions self') ∧ user_answers self' = ∅.
Proof.
  intros H.
  destruct (returned_load_state data self self' H)
    as (q & parsed & md & lm & sm & -> & items & _ & Hp).
  split; [|done]. cbn [questions]. rewrite Hp. apply omap_build_ok.
Qed.

(** X14: for a quiz the loader built, [src/quiz_app.py] never marks a
    question correct for which no answer is stored, whatever the stored
    answers are; in particular the freshly loaded quiz scores 0. *)
Theorem X14_no_answer_is_never_correct
  (data : json) (self self' : QuizApp) (ua : gmap Z string) :
  _load_from_data data self = (self', Returned) →
  (∀ i q, q ∈ questions self' → ua !! i = None → is_ok ua i q = false) ∧
  (score_loop (with_user_answers ua self')).1 ≤
    count_if (λ i, bool_decide (is_Some (ua !! i))) (seqZ 0 (total self')) ∧
  (score_loop self').1 = 0.
Proof.
  intros Hload.
  destruct (returned_load_questions_ok data self self' Hload) as (Hqs & Hua).
  assert (∀ ua' i q, q ∈ questions self' → ua' !! i = None → is_ok ua' i q = false)
    as Hnone.
  { intros ua' i q Hq Hi. rewrite Forall_forall in Hqs.
    destruct (Hqs q Hq) as (_ & Hl%letter_ok_cases & _).
    unfold is_ok. rewrite Hi. simpl.
    by destruct Hl as [->|[->|[->|[->| ->]]]]. }
  split_and!.
  - apply Hnone.
  - rewrite main_count. cbn [user_answers questions with_user_answers].
    unfold total. rewrite <- (enumerate_from_fst (questions self') 0), count_if_map.
    apply count_if_le. intros [i q] Hiq. cbn [fst snd]. intros Hok.
    apply bool_decide_eq_true. destruct (ua !! i) eqn:Hi; [done|].
    rewrite Hnone in Hok; [done| |done].
    apply elem_of_enumerate_from in Hiq as (n & _ & Hn).
    by eapply list_elem_of_lookup_2.
  - rewrite main_count. apply count_if_none. intros [i q] Hiq. cbn [fst snd].
    apply Hnone; [|by rewrite Hua, lookup_empty].
    apply elem_of_enumerate_from in Hiq as (n & _ & Hn).
    by eapply list_elem_of_lookup_2.
Qed.

Lemma X14_no_answer_is_never_correct_witness :
  (score_loop loaded).1 = 0.
Proof.
  apply (X14_no_answer_is_never_correct two_questions init loaded ∅). by vm_compute.
Defined.

(** X15: when the answer stored for every question is the question's
    letter, [src/quiz_app.py] counts every question as correct; the earlier
    revisions do so as well when every question has a letter. *)
Theorem X15_all_answers_right_scores_full (self : QuizApp) :
  (∀ n q, questions self !! n = Some q →
          user_answers self !! Z.of_nat n = Some (answer_letter q)) →
  (score_loop self).1 = total self ∧
  ((∀ q, q ∈ questions self → answer_letter q ≠ "") →
   (fold_left (demo_score_step (user_answers self))
              (enumerate_from 0 (questions self)) (0, [])).1 = total self).
Proof.
  intros Hall.
  assert (total self = Z.of_nat (length (enumerate_from 0 (questions self)))) as ->.
  { by rewrite length_enumerate_from. }
  rewrite main_count, demo_count. split.
  - apply count_if_all. intros [i q] (n & -> & Hn)%elem_of_enumerate_from.
    cbn [fst snd]. apply is_ok_spec. rewrite Z.add_0_l, (Hall n q Hn). done.
  - intros Hletters. apply count_if_all.
    intros [i q] (n & -> & Hn)%elem_of_enumerate_from.
    cbn [fst snd]. apply demo_is_correct_spec. rewrite Z.add_0_l. split.
    + by apply Hall.
    + apply Hletters. by eapply list_elem_of_lookup_2.
Qed.

Lemma X15_all_answers_right_scores_full_witness :
  (score_loop (choose "C" (next_question (choose "B" loaded)))).1 = 2.
Proof.
  refine (proj1 (X15_all_answers_right_scores_full
                   (choose "C" (next_question (choose "B" loaded))) _)).
  intros [|[|n]] q Hq; vm_compute in Hq; try discriminate;
    injection Hq as <-; by vm_compute.
Defined.

(** ** Opening a file *)

(** X16: when [open_json] ends with the error box, the quiz, the stored
    answers, the position, the selection and the two modes are as before;
    when the file cannot even be read as JSON, the whole state is.  When it
    ends without the box, the new quiz is in place with no answer stored. *)
Theorem X16_open_json_keeps_the_session_on_error (content : string) (self : QuizApp) :
  (_read_json_loose content = None → open_json content self = (self, true)) ∧
  ((open_json content self).2 = true →
   ∃ md, (open_json content self).1 = with_metadata md self) ∧
  ((open_json content self).2 = false →
   questions (open_json content self).1 ≠ [] ∧
   user_answers (open_json content self).1 = ∅ ∧
   current_index (open_json content self).1 = 0).
Proof.
  unfold open_json. split_and!.
  - by intros ->.
  - destruct (_read_json_loose content) as [data|].
    + destruct (_load_from_data data self) as [self' [|msg]] eqn:E; [done|].
      intros _. destruct (failed_load_state data self msg) as [md Hmd];
        [by rewrite E|]. rewrite E in Hmd. eauto.
    + intros _. exists (metadata self). by destruct self.
  - destruct (_read_json_loose content) as [data|]; [|done].
    destruct (_load_from_data data self) as [self' [|msg]] eqn:E; [|done].
    intros _. cbn [fst].
    destruct (returned_load_state data self self' E)
      as (q & parsed & md & lm & sm & -> & _). done.
Qed.

(** ** What the question area shows *)

Lemma labelled_not_empty o letter :
  startswith (upper o) (letter +:+ ")") = true → o ≠ "".
Proof. intros H ->. by destruct letter. Qed.

(** X17: for every record the parser builds, [load_question] puts four
    texts on the radio buttons, each starting with the letter of its button,
    in either case, and a closing parenthesis: the record's own options when
    it has them, and the bare "A)", "B)", "C)", "D)" otherwise. *)
Theorem X17_radio_buttons_are_labelled (item : json) (r : question_record) :
  build_record item = Some r →
  length (option_texts r) = 4%nat ∧
  (∀ i letter o, LETTER_CHOICES !! i = Some letter → option_texts r !! i = Some o →
                 startswith (upper o) (letter +:+ ")") = true) ∧
  (options r = None → option_texts r = ["A)"; "B)"; "C)"; "D)"]) ∧
  (∀ shown, options r = Some shown → option_texts r = shown).
Proof.
  intros (_ & _ & Hopts)%build_record_ok. unfold option_texts.
  destruct (options r) as [shown|]; simpl in Hopts.
  - destruct Hopts as [Hlen Hlabel].
    rewrite bool_decide_eq_true_2 by lia. rewrite take_ge by lia.
    split_and!; try done. by intros shown' [= <-].
  - split_and!; try done.
    intros [|[|[|[|i]]]] letter o [= <-]; by intros [= <-].
Qed.

Lemma X17_radio_buttons_are_labelled_witness :
  option_texts (mk_question "Q1" "B" None (JStr "")) = ["A)"; "B)"; "C)"; "D)"].
Proof.
  refine (proj1 (proj2 (proj2 (X17_radio_buttons_are_labelled
                                 (entry "Q1" "B. x") _ _))) _).
  - by vm_compute.
  - done.
Defined.

(** X18: in slides mode, with the current question [q] a record of the
    parser, the answer line of [src/quiz_app.py] is "Answer: " followed by
    the option text whose label is the correct letter when [q] has options
    and a letter, by the letter and a parenthesis when it has a letter and
    no options, and by a lone ")" when it has no letter;
    [src/quiz_app_v1.2.py] shows the same line, except that without a
    letter it shows "Answer: (unknown)".  The explanation shown with it is
    the record's, unless that is empty.  Outside slides mode both revisions
    show nothing. *)
Theorem X18_slides_mode_answer_line (self : QuizApp) (q : question_record) :
  0 ≤ current_index self < total self →
  questions self !! Z.to_nat (current_index self) = Some q →
  letter_ok (answer_letter q) →
  options_ok (options q) →
  if slides_mode self then
    ∃ line,
      update_answer_visibility self =
        Some (line, if py_truthy (explanation q) then explanation q else JStr "") ∧
      demo_update_answer_visibility self =
        Some (if bool_decide (answer_letter q = "") then "Answer: (unknown)" else line) ∧
      match options q with
      | Some shown =>
          if bool_decide (answer_letter q = "") then line = "Answer: )"
          else ∃ i o, LETTER_CHOICES !! i = Some (answer_letter q) ∧
                      shown !! i = Some o ∧ line = "Answer: " +:+ o ∧
                      startswith (upper o) (answer_letter q +:+ ")") = true
      | None => line = "Answer: " +:+ answer_letter q +:+ ")"
      end
  else update_answer_visibility self = Some ("", JStr "") ∧
       demo_update_answer_visibility self = Some "".
Proof.
  intros Hin Hq Hletter Hopts.
  unfold update_answer_visibility, demo_update_answer_visibility.
  destruct (py_index_in_range (questions self) (current_index self))
    as (q' & Hidx & Hq'); [by unfold total in Hin|].
  assert (q' = q) as -> by congruence. rewrite Hidx.
  destruct (questions self) as [|q0 qs] eqn:Hqs; [done|].
  destruct (slides_mode self); [|done]. cbn [negb].
  apply letter_ok_cases in Hletter.
  destruct (options q) as [shown|]; simpl in Hopts.
  - destruct Hopts as [Hlen Hlabel].
    destruct shown as [|o0 [|o1 [|o2 [|o3 [|]]]]]; try discriminate.
    pose proof (Hlabel 0%nat "A" o0 eq_refl eq_refl) as H0.
    pose proof (Hlabel 1%nat "B" o1 eq_refl eq_refl) as H1.
    pose proof (Hlabel 2%nat "C" o2 eq_refl eq_refl) as H2.
    pose proof (Hlabel 3%nat "D" o3 eq_refl eq_refl) as H3.
    destruct Hletter as [->|[->|[->|[->| ->]]]].
    + eexists. split; [reflexivity|]. by split.
    + destruct o0 as [|c r]; [done|].
      eexists. split; [reflexivity|]. split; [reflexivity|].
      exists 0%nat, (String c r). by split_and!.
    + destruct o1 as [|c r]; [done|].
      eexists. split; [reflexivity|]. split; [reflexivity|].
      exists 1%nat, (String c r). by split_and!.
    + destruct o2 as [|c r]; [done|].
      eexists. split; [reflexivity|]. split; [reflexivity|].
      exists 2%nat, (String c r). by split_and!.
    + destruct o3 as [|c r]; [done|].
      eexists. split; [reflexivity|]. split; [reflexivity|].
      exists 3%nat, (String c r). by split_and!.
  - destruct Hletter as [->|[->|[->|[->| ->]]]];
      (eexists; split; [reflexivity|]; by split).
Qed.

Lemma X18_slides_mode_answer_line_witness :
  update_answer_visibility (toggle_slides_mode (next_question loaded)) =
    Some ("Answer: C) c", JStr "").
Proof.
  assert (0 ≤ current_index (toggle_slides_mode (next_question loaded))
          < total (toggle_slides_mode (next_question loaded))) as Hin
    by (by vm_compute).
  assert (letter_ok "C") as Hletter
    by (right; apply (bool_decide_unpack _); by vm_compute).
  assert (options_ok (Some ["A) a"; "B) b"; "C) c"; "D) d"])) as Hopts.
  { split; [done|]. intros [|[|[|[|i]]]] letter o Hl Ho; try discriminate;
      injection Hl as <-; injection Ho as <-; by vm_compute. }
  pose proof (X18_slides_mode_answer_line
                (toggle_slides_mode (next_question loaded))
                (mk_question "Q2" "C" (Some ["A) a"; "B) b"; "C) c"; "D) d"]) (JStr ""))
                Hin eq_refl Hletter Hopts) as H.
  simpl in H. destruct H as (line & -> & _ & (i & o & Hi & Ho & -> & _)).
  destruct i as [|[|[|[|i]]]]; vm_compute in Hi, Ho; try discriminate.
  injection Ho as <-. by vm_compute.
Defined.

(** X19: with learning mode off no radio button is coloured, in either
    revision.  With it on and button [i] selected, [src/quiz_app.py]
    colours that button alone, green when its letter is the correct one and
    red otherwise, so a wrong choice never shows which option is right;
    [src/quiz_app_v1.2.py] colours it green when right, and when wrong
    colours it red and the correct button green; without a correct letter
    it colours nothing. *)
Theorem X19_learning_mode_colours
  (self : QuizApp) (q : question_record) (fg : list colour) (i : nat) :
  0 ≤ current_index self < total self →
  questions self !! Z.to_nat (current_index self) = Some q →
  letter_ok (answer_letter q) →
  LETTER_CHOICES !! i = Some (choice_var self) →
  if learning_mode self then
    update_option_colors self fg =
      Some (<[i := Some (if bool_decide (choice_var self = answer_letter q)
                         then "green4" else "red3")]> [None; None; None; None]) ∧
    demo_update_option_colors self =
      Some (if bool_decide (answer_letter q = "") then [None; None; None; None]
            else if bool_decide (choice_var self = answer_letter q)
                 then <[i := Some "green"]> [None; None; None; None]
                 else match index_of (answer_letter q) LETTER_CHOICES with
                      | Some j => <[j := Some "green"]>
                                    (<[i := Some "red"]> [None; None; None; None])
                      | None => <[i := Some "red"]> [None; None; None; None]
                      end) ∧
    (answer_letter q ≠ "" → is_Some (index_of (answer_letter q) LETTER_CHOICES))
  else
    update_option_colors self fg = Some [None; None; None; None] ∧
    demo_update_option_colors self = Some [None; None; None; None].
Proof.
  intros Hin Hq Hletter Hchoice.
  unfold update_option_colors, demo_update_option_colors.
  destruct (py_index_in_range (questions self) (current_index self))
    as (q' & Hidx & Hq'); [by unfold total in Hin|].
  assert (q' = q) as -> by congruence. rewrite Hidx.
  destruct (questions self) as [|q0 qs] eqn:Hqs; [done|].
  rewrite (bool_decide_eq_true_2 (q0 :: qs ≠ [])) by done.
  destruct (learning_mode self); [|done]. cbn [negb orb].
  apply letter_ok_cases in Hletter.
  destruct i as [|[|[|[|i]]]]; try discriminate; injection Hchoice as <-;
    destruct Hletter as [->|[->|[->|[->| ->]]]]; split_and!; try done;
    intros _; by eexists.
Qed.

Lemma X19_learning_mode_colours_witness :
  update_option_colors
    (with_learning_mode true (choose "A" loaded)) [None; None; None; None] =
    Some [Some "red3"; None; None; None] ∧
  demo_update_option_colors (with_learning_mode true (choose "A" loaded)) =
    Some [Some "red"; Some "green"; None; None].
Proof.
  assert (0 ≤ current_index (with_learning_mode true (choose "A" loaded))
          < total (with_learning_mode true (choose "A" loaded))) as Hin
    by (by vm_compute).
  assert (letter_ok "B") as Hletter
    by (right; apply (bool_decide_unpack _); by vm_compute).
  pose proof (X19_learning_mode_colours
                (with_learning_mode true (choose "A" loaded))
                (mk_question "Q1" "B" None (JStr "")) [None; None; None; None] 0
                Hin eq_refl Hletter eq_refl) as H.
  cbn [learning_mode with_learning_mode] in H. destruct H as (Hmain & Hdemo & _).
  split; [by rewrite Hmain|by rewrite Hdemo].
Defined.

(** ** Opening a file in the earlier revisions *)

Lemma demo_parse_type_error before x after parsed :
  demo_parse_item x = TypeError → demo_parse parsed (before ++ x :: after) = None.
Proof.
  intros Hx. revert parsed.
  induction before as [|b before IH]; intros parsed; simpl.
  - by rewrite Hx.
  - destruct (demo_parse_item b); auto.
Qed.

Lemma demo_parse_item_scalar x : is_scalar x = true → demo_parse_item x = TypeError.
Proof. by destruct x. Qed.

(** X20: in [src/demo/quiz_appv2.py] and [src/quiz_app_v1.2.py] a load that
    ends with the error box leaves the whole state as it was.  A list entry
    that is null, a bool or a number ends the load that way, wherever it
    stands and whatever the other entries are, and so does a root that is a
    mapping; in [src/demo/quiz_app.py] as well.  In that file every load
    ends with the error box, as [open_json] calls a method the file does not
    define; on a file that the other two load, the box comes over the new
    quiz, which is in place with no answer recorded. *)
Theorem X20_earlier_revisions_reject_scalar_entries
  (content : string) (self : QuizApp) :
  ((demo_open_json content self).2 = true → (demo_open_json content self).1 = self) ∧
  (∀ before x after,
     json_load content = Some (JList (before ++ x :: after)) →
     is_scalar x = true →
     demo_open_json content self = (self, true) ∧
     first_demo_open_json content self = (self, true)) ∧
  (∀ d, json_load content = Some (JDict d) →
        demo_open_json content self = (self, true) ∧
        first_demo_open_json content self = (self, true)) ∧
  (first_demo_open_json content self).2 = true ∧
  (first_demo_open_json content self).1 = (demo_open_json content self).1 ∧
  ((demo_open_json content self).2 = false →
   questions (first_demo_open_json content self).1 ≠ [] ∧
   user_answers (first_demo_open_json content self).1 = ∅ ∧
   current_index (first_demo_open_json content self).1 = 0).
Proof.
  unfold demo_open_json, first_demo_open_json. split_and!.
  - destruct (json_load content) as [[| | | | |items|]|]; try done.
    by destruct (demo_parse [] items) as [[|q parsed]|].
  - intros before x after -> Hx.
    by rewrite (demo_parse_type_error before x after [] (demo_parse_item_scalar x Hx)).
  - by intros d ->.
  - destruct (json_load content) as [[| | | | |items|]|]; try done.
    by destruct (demo_parse [] items) as [[|q parsed]|].
  - destruct (json_load content) as [[| | | | |items|]|]; try done.
    by destruct (demo_parse [] items) as [[|q parsed]|].
  - destruct (json_load content) as [[| | | | |items|]|]; try done.
    by destruct (demo_parse [] items) as [[|q parsed]|].
Qed.

Lemma demo_parse_item_mapping d :
  demo_parse_item (JDict d) =
  match build_record (JDict d) with
  | Some r => Appended (without_explanation r)
  | None => Skipped
  end.
Proof.
  unfold demo_parse_item, py_in. simpl.
  destruct (dict_get "question" d) as [q|] eqn:Hq.
  - rewrite bool_decide_eq_true_2 by eauto.
    destruct (dict_get "answer" d) as [a|] eqn:Ha.
    + by rewrite bool_decide_eq_true_2 by eauto.
    + rewrite bool_decide_eq_false_2; [done|]. by intros [? ?].
  - rewrite bool_decide_eq_false_2; [done|]. by intros [? ?].
Qed.

Lemma demo_parse_mappings items parsed :
  Forall (λ x, is_mapping x = true) items →
  demo_parse parsed items =
  Some (parsed ++ map without_explanation (omap build_record items)).
Proof.
  intros Hall. revert parsed.
  induction Hall as [|x items Hx _ IH]; intros parsed; simpl.
  - by rewrite app_nil_r.
  - destruct x as [| | | | | |d]; try discriminate.
    rewrite demo_parse_item_mapping.
    destruct (build_record (JDict d)) as [r|]; [|by apply IH].
    rewrite IH. simpl. by rewrite <- app_assoc.
Qed.

(** X21: on a file that holds a list whose entries are all mappings,
    [src/demo/quiz_appv2.py] and [src/quiz_app_v1.2.py] build the records
    that [src/quiz_app.py] builds, without the explanation; they show the
    error box exactly when [_load_from_data] raises, and otherwise hold
    these records. *)
Theorem X21_revisions_load_mappings_alike
  (content : string) (items : list json) (self : QuizApp) :
  json_load content = Some (JList items) →
  Forall (λ x, is_mapping x = true) items →
  demo_parse [] items = Some (map without_explanation (_parse_questions_list items)) ∧
  ((demo_open_json content self).2 = false ↔
   (_load_from_data (JList items) self).2 = Returned) ∧
  ((demo_open_json content self).2 = false →
   questions (demo_open_json content self).1 =
     map without_explanation (questions (_load_from_data (JList items) self).1)).
Proof.
  intros Hc Hall. pose proof (demo_parse_mappings items [] Hall) as Hp.
  rewrite app_nil_l in Hp. rewrite parse_questions_list_omap.
  split; [done|]. unfold demo_open_json. rewrite Hc, Hp.
  change (_load_from_data (JList items) self)
    with (commit (_parse_questions_list items) None None (with_metadata [] self)).
  rewrite parse_questions_list_omap.
  destruct (omap build_record items) as [|q parsed]; cbn [map].
  - rewrite commit_nil. cbn [fst snd]. split; [by split|done].
  - rewrite commit_returns. cbn [fst snd questions]. split; [by split|].
    intros _. unfold demo_load_question. by case_bool_decide.
Qed.

Lemma X21_revisions_load_mappings_alike_witness :
  questions
    (demo_open_json ("[{" +:+ DQ +:+ "question" +:+ DQ +:+ ":" +:+ DQ +:+ "Q" +:+ DQ
                     +:+ "," +:+ DQ +:+ "answer" +:+ DQ +:+ ":" +:+ DQ +:+ "b)" +:+ DQ
                     +:+ "," +:+ DQ +:+ "explanation" +:+ DQ +:+ ":" +:+ DQ +:+ "why" +:+ DQ
                     +:+ "}]") init).1 =
  [mk_question "Q" "B" None (JStr "")].
Proof.
  etrans.
  - refine (proj2 (proj2 (X21_revisions_load_mappings_alike _
        [JDict [("question", JStr "Q"); ("answer", JStr "b)");
                ("explanation", JStr "why")]] init _ _)) _).
    + by vm_compute.
    + by repeat constructor.
    + by vm_compute.
  - by vm_compute.
Defined.

(** ** What the loose reader tolerates *)

Lemma decode_utf8_sig_bom text :
  decode_utf8_sig (BOM +:+ text) = universal_newlines false text.
Proof.
  unfold decode_utf8_sig, BOM. rewrite !append_cons, append_nil_l.
  cbn [startswith]. rewrite !bool_decide_eq_true_2 by done. cbn [andb].
  cbn [String.length]. rewrite Nat.sub_succ, Nat.sub_succ, Nat.sub_succ, Nat.sub_0_r.
  cbn [String.substring]. by rewrite substring_all.
Qed.

(** X22: a byte-order mark at the start of the file is dropped, once: the
    loose reader reads the file like the text after the mark.  The strict
    reader of the earlier revisions refuses such a file, so there the load
    ends with the error box. *)
Theorem X22_byte_order_mark_is_dropped (text : string) (self : QuizApp) :
  startswith text BOM = false →
  preprocess (BOM +:+ text) = preprocess text ∧
  _read_json_loose (BOM +:+ text) = _read_json_loose text ∧
  open_json (BOM +:+ text) self = open_json text self ∧
  demo_open_json (BOM +:+ text) self = (self, true).
Proof.
  intros Hbom.
  assert (preprocess (BOM +:+ text) = preprocess text) as Hpre.
  { unfold preprocess. rewrite decode_utf8_sig_bom.
    unfold decode_utf8_sig. by rewrite Hbom. }
  split; [done|]. split; [unfold _read_json_loose; by rewrite Hpre|].
  split; [unfold open_json, _read_json_loose; by rewrite Hpre|].
  unfold demo_open_json, json_load, decode_utf8.
  by rewrite json_loads_universal_newlines, json_loads_bom.
Qed.

Lemma X22_byte_order_mark_is_dropped_witness :
  _read_json_loose (BOM +:+ url_document) = Some (JDict [("url", JStr "http://x/*y")]).
Proof.
  etrans.
  - refine (proj1 (proj2 (X22_byte_order_mark_is_dropped url_document init _))).
    by vm_compute.
  - by vm_compute.
Defined.

Lemma existsb_positions_prev {f : string → bool} prev prev' s :
  existsb (λ p, f p.2) (positions prev s) =
  existsb (λ p : option ascii * string, f p.2) (positions prev' s).
Proof. by destruct s. Qed.

Lemma lstrip_app_space ws b :
  all_space ws = true → lstrip (ws +:+ b) = lstrip b.
Proof.
  induction ws as [|c r IH]; [done|]. unfold all_space. cbn [chars forallb].
  intros [Hc Hr]%andb_true_iff. rewrite append_cons. cbn [lstrip].
  rewrite Hc. by apply IH.
Qed.

Lemma closes_head c r r' : closes (String c r) = closes (String c r').
Proof. done. Qed.

Lemma closes_not_space c r : closes (String c r) = true → is_space c = false.
Proof.
  unfold closes. simpl. rewrite !andb_true_r.
  intros [<-%bool_decide_eq_true|<-%bool_decide_eq_true]%orb_true_iff; done.
Qed.

Lemma closes_lstrip_app t rest :
  startswith rest "," = true → closes (lstrip (t +:+ rest)) = closes (lstrip t).
Proof.
  intros Hrest. induction t as [|c t IH].
  - rewrite append_nil_l. destruct rest as [|x rest]; [done|].
    simpl in Hrest. apply andb_true_iff in Hrest as [<-%bool_decide_eq_true _]. done.
  - rewrite append_cons. simpl. destruct (is_space c); [done|]. apply closes_head.
Qed.

Lemma trailing_comma_here_app s rest :
  s ≠ "" → startswith rest "," = true →
  trailing_comma_here (s +:+ rest) = trailing_comma_here s.
Proof.
  intros Hs Hrest. destruct s as [|c t]; [done|]. rewrite append_cons.
  unfold trailing_comma_here. cbn [tail]. f_equal. by apply closes_lstrip_app.
Qed.

Lemma strip_trailing_commas_prefix a rest prev :
  existsb (λ p, trailing_comma_here p.2) (positions prev a) = false →
  startswith rest "," = true →
  strip_trailing_commas false (a +:+ rest) = a +:+ strip_trailing_commas false rest.
Proof.
  intros Ha Hrest. revert prev Ha. induction a as [|c t IH]; intros prev Ha; [done|].
  apply existsb_positions in Ha as [Hhere Hrest']. cbn [snd] in Hhere.
  rewrite append_cons. cbn [strip_trailing_commas andb].
  rewrite <- append_cons, trailing_comma_here_app, Hhere by done.
  rewrite append_cons. f_equal. by apply (IH (Some c)).
Qed.

Lemma strip_trailing_commas_gap ws b :
  all_space ws = true → closes b = true →
  strip_trailing_commas true (ws +:+ b) = strip_trailing_commas false b.
Proof.
  intros Hws Hb. induction ws as [|c r IH].
  - rewrite append_nil_l. destruct b as [|x b]; [done|].
    cbn [strip_trailing_commas]. by rewrite (closes_not_space x b Hb).
  - unfold all_space in Hws. simpl in Hws. apply andb_true_iff in Hws as [Hc Hr].
    rewrite append_cons. cbn [strip_trailing_commas]. rewrite Hc. by apply IH.
Qed.

Lemma lstrip_closes b : closes b = true → lstrip b = b.
Proof.
  destruct b as [|x b]; [done|]. intros H. simpl.
  by rewrite (closes_not_space x b H).
Qed.

Lemma all_space_universal_newlines f ws :
  all_space ws = true → all_space (universal_newlines f ws) = true.
Proof.
  unfold all_space. revert f. induction ws as [|c r IH]; intros f; [done|].
  cbn [chars forallb]. intros [Hc Hr]%andb_true_iff.
  destruct (universal_newlines_cases f c r) as [(-> & ->)|[(-> & -> & ->)|(_ & _ & ->)]].
  - cbn [chars forallb]. by rewrite IH.
  - by apply IH.
  - cbn [chars forallb]. by rewrite Hc, IH.
Qed.

(** The third pass on a text with one trailing comma. *)
Lemma strip_trailing_commas_one a ws b :
  trailing_comma_in a = false →
  all_space ws = true →
  closes b = true →
  trailing_comma_in b = false →
  strip_trailing_commas false (a +:+ "," +:+ ws +:+ b) = a +:+ b.
Proof.
  intros Ha Hws Hb Hb'.
  rewrite (strip_trailing_commas_prefix a _ None Ha) by done. f_equal.
  rewrite append_cons, append_nil_l. cbn [strip_trailing_commas andb].
  unfold trailing_comma_here. cbn [tail startswith].
  rewrite lstrip_app_space, (lstrip_closes b Hb), Hb by done.
  rewrite bool_decide_eq_true_2 by done. cbn [andb].
  rewrite strip_trailing_commas_gap by done.
  by apply (strip_trailing_commas_id b None).
Qed.

(** What starts with a closing bracket or brace starts with no line end. *)
Lemma closes_inv b :
  closes b = true →
  ∃ x b', b = String x b' ∧ x ≠ "013"%char ∧ x ≠ "010"%char.
Proof.
  destruct b as [|x b']; [done|]. intros H. exists x, b'. split; [done|].
  split; intros ->; done.
Qed.

(** X23: the third pass drops a comma that is followed, after optional
    white space, by a closing bracket or brace, together with that white
    space, and keeps what stands before and after it.  A text with such a
    comma and no comment is therefore read as the text without it. *)
Theorem X23_trailing_comma_is_dropped (a ws b : string) :
  trailing_comma_in a = false →
  all_space ws = true →
  closes b = true →
  trailing_comma_in b = false →
  strip_trailing_commas false (a +:+ "," +:+ ws +:+ b) = a +:+ b ∧
  (startswith (a +:+ "," +:+ ws +:+ b) BOM = false →
   line_comment_in (a +:+ "," +:+ ws +:+ b) = false →
   block_comment_in (a +:+ "," +:+ ws +:+ b) = false →
   _read_json_loose (a +:+ "," +:+ ws +:+ b) = json_loads (a +:+ b)).
Proof.
  intros Ha Hws Hb Hb'.
  split; [by apply strip_trailing_commas_one|]. intros Hbom Hline Hblock.
  unfold _read_json_loose, preprocess, decode_utf8_sig. rewrite Hbom.
  rewrite (strip_line_comments_id _ None (line_comment_in_universal_newlines _ Hline)).
  rewrite (strip_block_comments_id _ None (block_comment_in_universal_newlines _ Hblock)).
  rewrite <- (json_loads_universal_newlines (a +:+ b)).
  destruct (closes_inv b Hb) as (x & b' & Eb & Hx1 & Hx2).
  assert (universal_newlines false (a +:+ "," +:+ ws +:+ b) =
          universal_newlines false a +:+ "," +:+ universal_newlines false ws +:+
          universal_newlines false b) as ->.
  { change (a +:+ "," +:+ ws +:+ b) with (a +:+ String "," (ws +:+ b)).
    rewrite universal_newlines_app by done. rewrite Eb.
    rewrite universal_newlines_app by done.
    by rewrite (universal_newlines_keep x b'). }
  assert (universal_newlines false (a +:+ b) =
          universal_newlines false a +:+ universal_newlines false b) as ->.
  { rewrite Eb, universal_newlines_app by done.
    by rewrite (universal_newlines_keep x b'). }
  f_equal. apply strip_trailing_commas_one.
  - by apply trailing_comma_in_universal_newlines.
  - by apply all_space_universal_newlines.
  - by rewrite closes_universal_newlines.
  - by apply trailing_comma_in_universal_newlines.
Qed.

Lemma X23_trailing_comma_is_dropped_witness :
  _read_json_loose ("[1, 2" +:+ "," +:+ " " +:+ "]") = Some (JList [JInt 1; JInt 2]).
Proof.
  etrans.
  - refine (proj2 (X23_trailing_comma_is_dropped "[1, 2" " " "]" _ _ _ _) _ _ _);
      by vm_compute.
  - by vm_compute.
Defined.

Lemma contains_cons c r p : contains (String c r) p = false →
  startswith (String c r) p = false ∧ contains r p = false.
Proof. cbn [contains]. by intros [? ?]%orb_false_iff. Qed.

Lemma contains_nil p : contains "" p = false → startswith "" p = false.
Proof. cbn [contains]. by intros [? ?]%orb_false_iff. Qed.

Lemma contains_closer_app c b : contains (c +:+ "*/" +:+ b) "*/" = true.
Proof.
  induction c as [|x c IH]; [done|]. rewrite append_cons. cbn [contains].
  rewrite IH. apply orb_true_r.
Qed.

(** Before a comment's opener, a text without an opener is copied. *)
Lemma strip_block_comments_prefix a rest :
  contains a "/*" = false → startswith rest "/" = true →
  strip_block_comments Copying (a +:+ rest) = a +:+ strip_block_comments Copying rest.
Proof.
  intros Ha Hrest. induction a as [|x a IH]; [done|].
  apply contains_cons in Ha as [Hhere Ha]. rewrite append_cons.
  cbn [strip_block_comments].
  assert (block_comment_here (String x (a +:+ rest)) = false) as ->.
  { unfold block_comment_here. apply andb_false_iff. left.
    destruct a as [|y a].
    - rewrite append_nil_l. destruct rest as [|z rest]; [done|].
      simpl in Hrest. apply andb_true_iff in Hrest as [<-%bool_decide_eq_true _].
      cbn [startswith]. by rewrite andb_false_r.
    - exact Hhere. }
  rewrite append_cons. f_equal. by apply IH.
Qed.

(** Inside a comment everything up to the first closer is dropped. *)
Lemma strip_block_comments_inside c b :
  contains c "*/" = false →
  strip_block_comments Inside (c +:+ "*/" +:+ b) = strip_block_comments Copying b.
Proof.
  intros Hc. induction c as [|x c IH]; [done|].
  apply contains_cons in Hc as [Hhere Hc]. rewrite append_cons.
  cbn [strip_block_comments].
  assert (startswith (String x (c +:+ "*/" +:+ b)) "*/" = false) as ->.
  { destruct c as [|y c]; [|exact Hhere].
    cbn [startswith]. by rewrite andb_false_r. }
  by apply IH.
Qed.

(** X24: the second pass removes a block comment, from its opener to the
    first closer after it, copies the text before it when that holds no
    opener, and goes on with the text after it. *)
Theorem X24_block_comment_is_removed (a c b : string) :
  contains a "/*" = false →
  contains c "*/" = false →
  strip_block_comments Copying (a +:+ "/*" +:+ c +:+ "*/" +:+ b) =
    a +:+ strip_block_comments Copying b ∧
  (block_comment_in b = false →
   strip_block_comments Copying (a +:+ "/*" +:+ c +:+ "*/" +:+ b) = a +:+ b).
Proof.
  intros Ha Hc.
  assert (strip_block_comments Copying (a +:+ "/*" +:+ c +:+ "*/" +:+ b) =
          a +:+ strip_block_comments Copying b) as Hpass.
  { rewrite strip_block_comments_prefix by done. f_equal.
    change ("/*" +:+ c +:+ "*/" +:+ b)
      with (String "/" (String "*" (c +:+ "*/" +:+ b))).
    cbn [strip_block_comments].
    unfold block_comment_here. cbn [startswith tail].
    rewrite !bool_decide_eq_true_2 by done. cbn [andb].
    rewrite contains_closer_app. by apply strip_block_comments_inside. }
  split; [done|]. intros Hb. rewrite Hpass. f_equal.
  by apply (strip_block_comments_id b None).
Qed.

Lemma X24_block_comment_is_removed_witness :
  strip_block_comments Copying ("[1, " +:+ "/*" +:+ " two * / " +:+ "*/" +:+ " 3]") =
  "[1, " +:+ " 3]".
Proof.
  apply (X24_block_comment_is_removed "[1, " " two * / " " 3]"); by vm_compute.
Defined.

Lemma opens_comment_not_slash c : opens_comment c = true → c ≠ "/"%char.
Proof. by intros H ->. Qed.

Lemma strip_line_comments_skip c b :
  one_line c = true →
  strip_line_comments true false (c +:+ b) = strip_line_comments true false b.
Proof.
  induction c as [|x c IH]; [done|]. unfold one_line. cbn [chars forallb].
  intros [Hx Hc]%andb_true_iff. rewrite append_cons. cbn [strip_line_comments andb].
  rewrite Hx. by apply IH.
Qed.

Lemma strip_line_comments_resume b :
  starts_line b = true → line_comment_in b = false →
  strip_line_comments true false b = b.
Proof.
  intros Hb Hfree. destruct b as [|x b]; [done|]. simpl in Hb.
  unfold line_comment_in in Hfree.
  apply existsb_positions in Hfree as [_ Hrest].
  pose proof (positions_head _ _ Hrest) as Hnext.
  unfold line_comment_at in Hnext. cbn [fst snd] in Hnext.
  cbn [strip_line_comments]. rewrite Hb. cbn [negb andb].
  rewrite andb_comm, Hnext. f_equal.
  apply (strip_line_comments_id b (Some x)) in Hrest. by rewrite Hb in Hrest.
Qed.

(** Up to the comment, a text in which no comment starts is copied. *)
Lemma strip_line_comments_prefix a rest prev :
  a ≠ "" →
  existsb line_comment_at (positions prev a) = false →
  ends_open a = true →
  strip_line_comments false
    (match prev with None => true | Some c => is_newline c end)
    (a +:+ "//" +:+ rest) =
  a +:+ strip_line_comments true false ("//" +:+ rest).
Proof.
  revert prev. induction a as [|x t IH]; intros prev Hne Ha Hend; [done|].
  apply existsb_positions in Ha as [Hhere Hrest].
  pose proof (positions_head _ _ Hrest) as Hnext.
  unfold line_comment_at in Hhere, Hnext. cbn [fst snd] in Hhere, Hnext.
  destruct t as [|y t'].
  - cbn [ends_open] in Hend. pose proof (opens_comment_not_slash x Hend) as Hx.
    change (String x "" +:+ "//" +:+ rest) with (String x (String "/" (String "/" rest))).
    change ("//" +:+ rest) with (String "/" (String "/" rest)).
    cbn [strip_line_comments andb startswith].
    rewrite (bool_decide_eq_false_2 ("/"%char = x)) by done.
    rewrite Hend, !bool_decide_eq_true_2 by done. cbn [andb].
    by rewrite andb_false_r.
  - change (ends_open (String x (String y t'))) with (ends_open (String y t')) in Hend.
    change (String x (String y t') +:+ "//" +:+ rest)
      with (String x (String y (t' +:+ "//" +:+ rest))).
    rewrite (append_cons x (String y t')
               (strip_line_comments true false ("//" +:+ rest))).
    cbn [strip_line_comments andb].
    assert ((match prev with None => true | Some c => is_newline c end)
            && startswith (String x (String y (t' +:+ "//" +:+ rest))) "//" = false)
      as ->.
    { change (startswith (String x (String y (t' +:+ "//" +:+ rest))) "//")
        with (startswith (String x (String y t')) "//").
      destruct prev as [p|].
      - destruct (is_newline p) eqn:Hp; [|done].
        by rewrite (newline_opens_comment p Hp), andb_true_r in Hhere.
      - by rewrite andb_true_r in Hhere. }
    assert (opens_comment x && startswith (String y (t' +:+ "//" +:+ rest)) "//" = false)
      as ->.
    { destruct t' as [|z t''].
      - cbn [ends_open] in Hend. pose proof (opens_comment_not_slash y Hend) as Hy.
        change ("" +:+ "//" +:+ rest) with (String "/" (String "/" rest)).
        cbn [startswith]. rewrite (bool_decide_eq_false_2 ("/"%char = y)) by done.
        apply andb_false_r.
      - change (startswith (String y (String z t'' +:+ "//" +:+ rest)) "//")
          with (startswith (String y (String z t'')) "//").
        by rewrite andb_comm. }
    f_equal. by apply (IH (Some x)).
Qed.

(** X25: the first pass removes a comment that starts with two slashes at
    the start of the text or after white space, a bracket, a brace or a
    comma, and runs to the end of its line; it keeps the text before the
    comment and the text from the newline on.  A file whose text, as
    [read_text] hands it over, holds such a comment and nothing else to
    strip is read as the text without the comment; there a carriage return
    ends the comment like a newline, being read as one. *)
Theorem X25_line_comment_is_removed (a c b : string) :
  line_comment_in a = false →
  ends_open a = true →
  one_line c = true →
  starts_line b = true →
  line_comment_in b = false →
  strip_line_comments false true (a +:+ "//" +:+ c +:+ b) = a +:+ b ∧
  (∀ content,
     decode_utf8_sig content = a +:+ "//" +:+ c +:+ b →
     block_comment_in (a +:+ b) = false →
     trailing_comma_in (a +:+ b) = false →
     preprocess content = a +:+ b ∧
     _read_json_loose content = json_loads (a +:+ b)).
Proof.
  intros Ha Hend Hc Hb Hb'.
  assert (is_newline "/" = false) as Hslash by done.
  assert (strip_line_comments true false (c +:+ b) = b) as Hrest.
  { rewrite strip_line_comments_skip by done.
    by apply strip_line_comments_resume. }
  assert (strip_line_comments true false ("//" +:+ c +:+ b) = b) as Hskip.
  { change ("//" +:+ c +:+ b) with (String "/" (String "/" (c +:+ b))).
    cbn [strip_line_comments]. by rewrite Hslash. }
  assert (strip_line_comments false true (a +:+ "//" +:+ c +:+ b) = a +:+ b) as Hpass.
  { destruct a as [|x t].
    - rewrite !append_nil_l.
      change ("//" +:+ c +:+ b) with (String "/" (String "/" (c +:+ b))).
      cbn [strip_line_comments andb startswith].
      rewrite !bool_decide_eq_true_2 by done. cbn [andb].
      by rewrite Hslash.
    - rewrite (strip_line_comments_prefix (String x t) (c +:+ b) None) by done.
      by rewrite Hskip. }
  split; [done|]. intros content Hdecoded Hblock Hcomma.
  assert (preprocess content = a +:+ b) as Hpre.
  { unfold preprocess. rewrite Hdecoded, Hpass.
    rewrite (strip_block_comments_id _ None Hblock).
    by rewrite (strip_trailing_commas_id _ None Hcomma). }
  split; [done|]. unfold _read_json_loose. by rewrite Hpre.
Qed.

Lemma X25_line_comment_is_removed_witness :
  preprocess cr_comment_document = "[1," +:+ (NL +:+ "2]") ∧
  _read_json_loose cr_comment_document = json_loads ("[1," +:+ (NL +:+ "2]")).
Proof.
  refine (proj2 (X25_line_comment_is_removed "[1," " one" (NL +:+ "2]") _ _ _ _ _)
                cr_comment_document _ _ _); by vm_compute.
Defined.

(** ** The preprocessing only deletes *)

Lemma strip_line_comments_sublist skipping bol s :
  chars (strip_line_comments skipping bol s) `sublist_of` chars s.
Proof.
  revert skipping bol. induction s as [|c r IH]; intros skipping bol; [done|].
  cbn [strip_line_comments chars].
  destruct (skipping && negb (is_newline c)); [by apply sublist_cons|].
  destruct (bol && startswith (String c r) "//"); [by apply sublist_cons|].
  destruct (opens_comment c && startswith r "//"); by apply sublist_skip.
Qed.

Lemma strip_block_comments_sublist mode s :
  chars (strip_block_comments mode s) `sublist_of` chars s.
Proof.
  revert mode. induction s as [|c r IH]; intros mode; [by destruct mode|].
  cbn [strip_block_comments chars]. destruct mode.
  - destruct (block_comment_here (String c r));
      [by apply sublist_cons|by apply sublist_skip].
  - by apply sublist_cons.
  - destruct (startswith (String c r) "*/"); by apply sublist_cons.
  - by apply sublist_cons.
Qed.

Lemma strip_trailing_commas_sublist gap s :
  chars (strip_trailing_commas gap s) `sublist_of` chars s.
Proof.
  revert gap. induction s as [|c r IH]; intros gap; [done|].
  cbn [strip_trailing_commas chars].
  destruct (gap && is_space c); [by apply sublist_cons|].
  destruct (trailing_comma_here (String c r));
    [by apply sublist_cons|by apply sublist_skip].
Qed.

(** The translation of the line ends turns a carriage return into a
    newline, and drops the newline that follows one. *)
Lemma universal_newlines_sublist f s :
  chars (universal_newlines f s) `sublist_of` map as_newline (chars s).
Proof.
  revert f. induction s as [|c r IH]; intros f; [done|]. cbn [chars map].
  destruct (universal_newlines_cases f c r) as [(-> & ->)|[(-> & -> & ->)|(Hc & _ & ->)]].
  - cbn [chars]. by apply sublist_skip.
  - by apply sublist_cons.
  - cbn [chars]. unfold as_newline at 1. rewrite bool_decide_eq_false_2 by done.
    by apply sublist_skip.
Qed.

Lemma decode_utf8_sig_sublist content :
  chars (decode_utf8_sig content) `sublist_of` map as_newline (chars content).
Proof.
  destruct (startswith content BOM) eqn:Hbom.
  - apply startswith_split in Hbom as [r ->]. rewrite decode_utf8_sig_bom.
    unfold BOM. rewrite !append_cons, append_nil_l. cbn [chars map].
    do 3 apply sublist_cons. apply universal_newlines_sublist.
  - unfold decode_utf8_sig. rewrite Hbom. apply universal_newlines_sublist.
Qed.

Lemma length_chars s : length (chars s) = String.length s.
Proof. induction s as [|c r IH]; [done|]. simpl. by rewrite IH. Qed.

(** X26: the text handed to [json.loads] is the file's content, every
    carriage return read as a newline, with some characters left out.  The
    three substitutions only delete from the text that [read_text] hands
    over, and the decoding only deletes the mark and the newline behind a
    carriage return; nothing is added or put elsewhere, so the text is
    never longer than the content. *)
Theorem X26_preprocessing_only_deletes (content : string) :
  chars (preprocess content) `sublist_of` chars (decode_utf8_sig content) ∧
  chars (decode_utf8_sig content) `sublist_of` map as_newline (chars content) ∧
  chars (preprocess content) `sublist_of` map as_newline (chars content) ∧
  (String.length (preprocess content) ≤ String.length content)%nat.
Proof.
  assert (chars (preprocess content) `sublist_of` chars (decode_utf8_sig content))
    as Hpasses.
  { unfold preprocess.
    etrans; [apply strip_trailing_commas_sublist|].
    etrans; [apply strip_block_comments_sublist|].
    apply strip_line_comments_sublist. }
  pose proof (decode_utf8_sig_sublist content) as Hdecode.
  assert (chars (preprocess content) `sublist_of` map as_newline (chars content))
    as Hsub by by etrans.
  split_and!; try done.
  apply sublist_length in Hsub. by rewrite length_map, !length_chars in Hsub.
Qed.
